(** * SpotifySleepTimer: a shallow embedding of [SpotifySleepTimer.py]

    The script authenticates against the streaming service, checks that
    something is playing, turns its stop-time argument into a [timedelta],
    waits in a polling loop until that span has elapsed and then pauses the
    playback.  This file embeds the script function by function and proves
    the properties of its specification against the embedding.

    Layout:
    - [PyFloat]: binary64 numbers ([float] of Python) over [spec_float];
    - [Py]: Python values, exceptions and the few builtins the script uses;
    - [Datetime]: [timedelta] and [datetime] as counts of microseconds;
    - [Json]: [json.dump] and [json.load];
    - [World]: the outside world (clock, player, files) and the monad that
      threads it;
    - [Script]: the functions of the script, in source order;
    - the theorems. *)

From Stdlib Require Import ZArith String Ascii List Bool Lia.
From Stdlib Require Import Floats.SpecFloat.
From stdpp Require Import base option list strings gmap.

Local Open Scope string_scope.
Local Open Scope Z_scope.

(* ===================================================================== *)
(** ** Binary64 numbers *)
(* ===================================================================== *)

Module PyFloat.

(** A Python [float] is an IEEE 754 binary64 number. *)
Definition prec : Z := 53.
Definition emax : Z := 1024.
Definition float : Type := spec_float.

Definition pzero : float := S754_zero false.

(** [S754_finite s m e] stands for [(-1)^s * m * 2^e]; the operations
    below go by this value and do not need [m] to be normalised. *)

(** [float(n)] for an integer [n] that fits (correctly rounded). *)
Definition of_Z (n : Z) : float := binary_normalize prec emax n 0 false.

Definition mul (x y : float) : float := SFmul prec emax x y.

Definition is_zero (x : float) : bool :=
  match x with S754_zero _ => true | _ => false end.

Definition is_nan (x : float) : bool :=
  match x with S754_nan => true | _ => false end.

Definition ltb (x y : float) : bool := SFltb x y.

(** C's [modf]: the fractional and the integral part, both with the sign
    of the argument. *)
Definition modf (x : float) : float * float :=
  match x with
  | S754_zero s => (S754_zero s, S754_zero s)
  | S754_infinity s => (S754_zero s, S754_infinity s)
  | S754_nan => (S754_nan, S754_nan)
  | S754_finite s m e =>
      if 0 <=? e then (S754_zero s, x)
      else
        let q := Z.shiftr (Zpos m) (- e) in
        let r := Zpos m - Z.shiftl q (- e) in
        (match r with Zpos r' => S754_finite s r' e | _ => S754_zero s end,
         match q with Zpos q' => S754_finite s q' 0 | _ => S754_zero s end)
  end.

(** [x.is_integer()] *)
Definition is_integer (x : float) : bool := is_zero (fst (modf x)).

(** The integer a finite number truncates to ([None] for infinities
    and NaN). *)
Definition trunc (x : float) : option Z :=
  match x with
  | S754_zero _ => Some 0
  | S754_finite s m e =>
      let a := if 0 <=? e then Z.shiftl (Zpos m) e
               else Z.shiftr (Zpos m) (- e) in
      Some (if s then - a else a)
  | _ => None
  end.

(** Comparison of the magnitude of a number with one half. *)
Definition cmp_half (x : float) : comparison :=
  match x with
  | S754_zero _ => Lt
  | S754_finite _ m e =>
      if 0 <=? e then Gt else Z.compare (Zpos m) (Z.shiftl 1 (- e - 1))
  | _ => Gt
  end.

Definition sign (x : float) : bool :=
  match x with
  | S754_zero s | S754_infinity s | S754_finite s _ _ => s
  | S754_nan => false
  end.

(** The binary64 number nearest to [(-1)^s * d * 10^e10]: what [strtod]
    yields for the decimal digits [d] and the decimal exponent [e10]. *)
Definition of_decimal (s : bool) (d : Z) (e10 : Z) : float :=
  match d with
  | Zpos p =>
      if 0 <=? e10
      then binary_normalize prec emax
             (if s then - (d * 10 ^ e10) else d * 10 ^ e10) 0 false
      else SFdiv prec emax (S754_finite s p 0)
             (S754_finite false (Z.to_pos (10 ^ (- e10))) 0)
  | _ => S754_zero s
  end.

End PyFloat.

(* ===================================================================== *)
(** ** Python values, exceptions and builtins *)
(* ===================================================================== *)

Module Py.

(** The values the script handles.  A [str] is a [string] (code points
    below 256); a [dict] keeps its insertion order and has [str] keys;
    [datetime] and [timedelta] carry a count of microseconds (see
    [Datetime]).  [VDatetime] is a naive [datetime], as [datetime.now()]
    returns it; [VAwareDatetime] is one whose [tzinfo] gives an offset
    from UTC. *)
Local Unset Elimination Schemes.
Inductive pyval : Type :=
| VNone
| VBool (b : bool)
| VInt (n : Z)
| VFloat (x : PyFloat.float)
| VStr (s : string)
| VList (l : list pyval)
| VDict (d : list (string * pyval))
| VDatetime (t : Z)
| VAwareDatetime (t utcoffset : Z)
| VTimedelta (us : Z).
Local Set Elimination Schemes.

(** The exceptions that can leave the script.  [ExternalApiFailure]
    stands for whatever the client library raises. *)
Inductive exn : Type :=
| ValueError (msg : string)
| IndexError (msg : string)
| KeyError (key : string)
| TypeError
| OverflowError
| FileNotFoundError (msg : string)
| JSONDecodeError
| ExternalApiFailure.

(** What a computation comes to: a value, an exception, or (for the
    models of loops only) no answer within the given number of rounds. *)
Inductive outcome (A : Type) : Type :=
| Ok (a : A)
| Raise (e : exn)
| OutOfFuel.
Arguments Ok {A} a.
Arguments Raise {A} e.
Arguments OutOfFuel {A}.

Definition obind {A B} (x : outcome A) (k : A -> outcome B) : outcome B :=
  match x with
  | Ok a => k a
  | Raise e => Raise e
  | OutOfFuel => OutOfFuel
  end.

(** Truth value of an object ([bool(v)]). *)
Definition truthy (v : pyval) : bool :=
  match v with
  | VNone => false
  | VBool b => b
  | VInt n => negb (n =? 0)
  | VFloat x => negb (PyFloat.is_zero x)
  | VStr s => negb (String.eqb s EmptyString)
  | VList l => match l with [] => false | _ => true end
  | VDict d => match d with [] => false | _ => true end
  | VDatetime _ => true
  | VAwareDatetime _ _ => true
  | VTimedelta us => negb (us =? 0)
  end.

(** [d[key]] on a dict. *)
Fixpoint dict_get (d : list (string * pyval)) (key : string) : option pyval :=
  match d with
  | [] => None
  | (k, v) :: d' => if String.eqb k key then Some v else dict_get d' key
  end.

(** [d[key] = v]: an existing key keeps its place. *)
Fixpoint dict_set (d : list (string * pyval)) (key : string) (v : pyval)
  : list (string * pyval) :=
  match d with
  | [] => [(key, v)]
  | (k, w) :: d' =>
      if String.eqb k key then (k, v) :: d' else (k, w) :: dict_set d' key v
  end.

(** [obj[key]] with a [str] key. *)
Definition subscript (obj : pyval) (key : string) : outcome pyval :=
  match obj with
  | VDict d =>
      match dict_get d key with
      | Some v => Ok v
      | None => Raise (KeyError key)
      end
  | _ => Raise TypeError
  end.

(** [isinstance(v, str)] *)
Definition is_str (v : pyval) : bool :=
  match v with VStr _ => true | _ => false end.

(** [isinstance(v, Iterable)] *)
Definition is_iterable (v : pyval) : bool :=
  match v with VStr _ | VList _ | VDict _ => true | _ => false end.

(** [sep.join(items)] for strings. *)
Fixpoint join (sep : string) (items : list string) : string :=
  match items with
  | [] => EmptyString
  | [s] => s
  | s :: rest => s +:+ sep +:+ join sep rest
  end.

Fixpoint all_str (l : list pyval) : option (list string) :=
  match l with
  | [] => Some []
  | VStr s :: l' =>
      match all_str l' with Some r => Some (s :: r) | None => None end
  | _ :: _ => None
  end.

Fixpoint chars (s : string) : list string :=
  match s with
  | EmptyString => []
  | String c s' => String c EmptyString :: chars s'
  end.

(** [sep.join(v)] for an object [v]: it iterates over the items of a
    list, the characters of a string, the keys of a dict; every item has
    to be a string. *)
Definition join_obj (sep : string) (v : pyval) : outcome string :=
  match v with
  | VStr s => Ok (join sep (chars s))
  | VList l =>
      match all_str l with
      | Some items => Ok (join sep items)
      | None => Raise TypeError
      end
  | VDict d => Ok (join sep (map fst d))
  | _ => Raise TypeError
  end.

(** *** [float(s)] for a string *)

Definition code (c : ascii) : Z := Z.of_N (N_of_ascii c).

Definition is_space (c : ascii) : bool :=
  let n := code c in
  ((9 <=? n) && (n <=? 13)) || (n =? 32) || (n =? 133) || (n =? 160).

Definition digit_of (c : ascii) : option Z :=
  let n := code c in
  if (48 <=? n) && (n <=? 57) then Some (n - 48) else None.

Definition lower (c : ascii) : ascii :=
  let n := code c in
  if (65 <=? n) && (n <=? 90) then ascii_of_N (Z.to_N (n + 32)) else c.

Fixpoint lstrip (l : list ascii) : list ascii :=
  match l with
  | c :: l' => if is_space c then lstrip l' else l
  | [] => []
  end.

Definition strip (l : list ascii) : list ascii :=
  rev (lstrip (rev (lstrip l))).

(** [digits_tail l]: the digits of [(["_"] digit)*] at the head of [l]
    and what follows them. *)
Fixpoint digits_tail (l : list ascii) : list Z * list ascii :=
  match l with
  | c :: l' =>
      match digit_of c with
      | Some d => let (ds, r) := digits_tail l' in (d :: ds, r)
      | None =>
          if Ascii.eqb c "_" then
            match l' with
            | c' :: l'' =>
                match digit_of c' with
                | Some d => let (ds, r) := digits_tail l'' in (d :: ds, r)
                | None => ([], l)
                end
            | [] => ([], l)
            end
          else ([], l)
      end
  | [] => ([], [])
  end.

(** [digitpart l]: a digit followed by [digits_tail], or nothing. *)
Definition digitpart (l : list ascii) : list Z * list ascii :=
  match l with
  | c :: l' =>
      match digit_of c with
      | Some d => let (ds, r) := digits_tail l' in (d :: ds, r)
      | None => ([], l)
      end
  | [] => ([], [])
  end.

Definition number_of (ds : list Z) : Z :=
  fold_left (fun acc d => 10 * acc + d) ds 0.

Definition take_sign (l : list ascii) : bool * list ascii :=
  match l with
  | c :: l' =>
      if Ascii.eqb c "-" then (true, l')
      else if Ascii.eqb c "+" then (false, l')
      else (false, l)
  | [] => (false, [])
  end.

(** The optional exponent [("e" | "E") [sign] digitpart]; [None] when
    what is left is neither empty nor an exponent. *)
Definition exponent (l : list ascii) : option Z :=
  match l with
  | [] => Some 0
  | c :: l' =>
      if Ascii.eqb (lower c) "e" then
        let (s, l'') := take_sign l' in
        match digitpart l'' with
        | (d :: ds, []) =>
            Some (if s then - number_of (d :: ds) else number_of (d :: ds))
        | _ => None
        end
      else None
  end.

(** [[digitpart] "." digitpart | digitpart ["."]], then the exponent. *)
Definition floatnumber (s : bool) (l : list ascii) : option PyFloat.float :=
  let (ip, r) := digitpart l in
  let '(fp, r') :=
    match r with
    | c :: r1 => if Ascii.eqb c "." then digitpart r1 else ([], r)
    | [] => ([], [])
    end in
  match ip, fp with
  | [], [] => None
  | _, _ =>
      match exponent r' with
      | Some e =>
          Some (PyFloat.of_decimal s (number_of (ip ++ fp))
                  (e - Z.of_nat (length fp)))
      | None => None
      end
  end.

Definition float_of_chars (l : list ascii) : option PyFloat.float :=
  let (s, body) := take_sign (strip l) in
  let word := string_of_list_ascii (map lower body) in
  if String.eqb word "inf" || String.eqb word "infinity"
  then Some (S754_infinity s)
  else if String.eqb word "nan" then Some S754_nan
  else floatnumber s body.

(** [float(s)]: [None] stands for the [ValueError] it raises. *)
Definition float_of_string (s : string) : option PyFloat.float :=
  float_of_chars (list_ascii_of_string s).

End Py.

(* ===================================================================== *)
(** ** [datetime.timedelta] and [datetime.datetime] *)
(* ===================================================================== *)

Module Datetime.
Import Py.

(** A [timedelta] is a whole number of microseconds whose count of days
    is between [-999999999] and [999999999]; a (naive) [datetime] is a
    number of microseconds since [datetime.min], up to [datetime.max]. *)
Definition us_per_second : Z := 1000000.
Definition us_per_day : Z := 86400 * us_per_second.
Definition max_delta_days : Z := 999999999.
Definition max_datetime : Z := 3652059 * us_per_day - 1.

(** The constructor's last step: the range check on the days. *)
Definition microseconds_to_delta (us : Z) : outcome Z :=
  let days := us / us_per_day in
  if (- max_delta_days <=? days) && (days <=? max_delta_days)
  then Ok us else Raise OverflowError.

(** Conversion of the integral part of a float to an integer. *)
Definition long_of_double (x : PyFloat.float) : outcome Z :=
  match PyFloat.trunc x with
  | Some n => Ok n
  | None =>
      if PyFloat.is_nan x
      then Raise (ValueError "cannot convert float NaN to integer")
      else Raise OverflowError
  end.

(** The microsecond that is left over ([|leftover| < 1]) is rounded to
    the nearest whole one, a tie going to the even total. *)
Definition round_leftover (x : Z) (leftover : PyFloat.float) : Z :=
  if PyFloat.is_zero leftover then x
  else
    let toward := if PyFloat.sign leftover then x - 1 else x + 1 in
    match PyFloat.cmp_half leftover with
    | Lt => x
    | Gt => toward
    | Eq => if Z.odd x then toward else x
    end.

(** [timedelta(seconds=x)] for a float [x]: the integral part is
    converted exactly, the fractional part is multiplied by [1e6] in
    binary64 and split again. *)
Definition delta_of_float_seconds (x : PyFloat.float) : outcome Z :=
  let (fracpart, intpart) := PyFloat.modf x in
  obind (long_of_double intpart) (fun n =>
  let sum := n * us_per_second in
  if PyFloat.is_zero fracpart then microseconds_to_delta sum
  else
    let dnum := PyFloat.mul (PyFloat.of_Z us_per_second) fracpart in
    let (fracpart', intpart') := PyFloat.modf dnum in
    obind (long_of_double intpart') (fun n' =>
    microseconds_to_delta (round_leftover (sum + n') fracpart'))).

(** [timedelta(seconds=v)].  A [bool] is an [int]. *)
Definition timedelta_seconds (v : pyval) : outcome Z :=
  match v with
  | VBool b => microseconds_to_delta ((if b then 1 else 0) * us_per_second)
  | VInt n => microseconds_to_delta (n * us_per_second)
  | VFloat x => delta_of_float_seconds x
  | _ => Raise TypeError
  end.

(** [t + d] for a datetime [t] and a timedelta [d]. *)
Definition datetime_add (t d : Z) : outcome Z :=
  if (0 <=? t + d) && (t + d <=? max_datetime)
  then Ok (t + d) else Raise OverflowError.

(** [t1 - t2] for two datetimes. *)
Definition datetime_sub (t1 t2 : Z) : Z := t1 - t2.

(** [d / timedelta(microseconds=1)]: a true division, hence a float. *)
Definition in_microseconds (d : Z) : PyFloat.float := PyFloat.of_Z d.

(** [int(x)] for a float [x] that is a quotient of two timedeltas; such
    a quotient is finite. *)
Definition int_of_float (x : PyFloat.float) : Z :=
  default 0 (PyFloat.trunc x).

Definition digit_char (n : Z) : string :=
  String (ascii_of_N (Z.to_N (48 + n))) EmptyString.

Definition two_digits (n : Z) : string :=
  digit_char (n / 10 mod 10) +:+ digit_char (n mod 10).

(** [t.strftime("%H:%M:%S")] *)
Definition strftime_HMS (t : Z) : string :=
  let s := t / us_per_second in
  two_digits (s / 3600 mod 24) +:+ ":" +:+ two_digits (s / 60 mod 60)
    +:+ ":" +:+ two_digits (s mod 60).

End Datetime.

(* ===================================================================== *)
(** ** [json.dump] and [json.load] *)
(* ===================================================================== *)

Module Json.
Import Py.

(** *** Writing

    The script dumps one object, [default_config], whose declared type is
    [Dict[str, Union[str, List[str]]]]; [dump] is [json.dump] at that
    type, with its default [ensure_ascii=True]. *)
Inductive config_value : Type :=
| CStr (s : string)
| CList (items : list string).

Definition config : Type := list (string * config_value).

Definition to_pyval (c : config) : pyval :=
  VDict (map (fun kv =>
                (fst kv, match snd kv with
                         | CStr s => VStr s
                         | CList l => VList (map VStr l)
                         end)) c).

Definition hex_digit (n : Z) : ascii :=
  ascii_of_N (Z.to_N (if n <? 10 then 48 + n else 87 + n)).

Definition quote : string := String (ascii_of_N 34) EmptyString.
Definition backslash : string := String (ascii_of_N 92) EmptyString.

Definition escape_char (c : ascii) : string :=
  let n := code c in
  if n =? 34 then backslash +:+ quote
  else if n =? 92 then backslash +:+ backslash
  else if n =? 10 then backslash +:+ "n"
  else if n =? 13 then backslash +:+ "r"
  else if n =? 9 then backslash +:+ "t"
  else if n =? 8 then backslash +:+ "b"
  else if n =? 12 then backslash +:+ "f"
  else if (32 <=? n) && (n <=? 126) then String c EmptyString
  else backslash +:+ "u00" +:+ String (hex_digit (n / 16))
                   (String (hex_digit (n mod 16)) EmptyString).

Fixpoint escape (s : string) : string :=
  match s with
  | EmptyString => EmptyString
  | String c s' => escape_char c +:+ escape s'
  end.

Definition encode_str (s : string) : string := quote +:+ escape s +:+ quote.

Definition newline : string := String (ascii_of_N 10) EmptyString.

Fixpoint spaces (n : nat) : string :=
  match n with O => EmptyString | S n' => " " +:+ spaces n' end.

(** A non-empty container at nesting depth [level]: every item on a line
    of its own, indented one step more than the closing bracket. *)
Definition block (indent level : nat) (op cl : string) (items : list string)
  : string :=
  match items with
  | [] => op +:+ cl
  | _ =>
      let inner := newline +:+ spaces (indent * S level) in
      op +:+ inner +:+ join ("," +:+ inner) items
         +:+ newline +:+ spaces (indent * level) +:+ cl
  end.

Definition dump_value (indent level : nat) (v : config_value) : string :=
  match v with
  | CStr s => encode_str s
  | CList l => block indent level "[" "]" (map encode_str l)
  end.

(** [json.dumps(c, indent=indent)], the text [json.dump] writes. *)
Definition dump (c : config) (indent : nat) : string :=
  block indent 0 "{" "}"
    (map (fun kv => encode_str (fst kv) +:+ ": " +:+ dump_value indent 1 (snd kv))
         c).

(** *** Reading

    [load] is [json.load] on a text over the code points below 256; a
    [\u] escape of a code point outside this alphabet is read as an
    error. *)

Definition is_ws (c : ascii) : bool :=
  let n := code c in (n =? 32) || (n =? 9) || (n =? 10) || (n =? 13).

Fixpoint skip_ws (l : list ascii) : list ascii :=
  match l with
  | c :: l' => if is_ws c then skip_ws l' else l
  | [] => []
  end.

(** The rest of [l] after a first character of code [n]. *)
Definition after (n : Z) (l : list ascii) : option (list ascii) :=
  match l with
  | c :: l' => if code c =? n then Some l' else None
  | [] => None
  end.

Fixpoint after_word (w : string) (l : list ascii) : option (list ascii) :=
  match w with
  | EmptyString => Some l
  | String c w' =>
      match l with
      | c' :: l' => if Ascii.eqb c c' then after_word w' l' else None
      | [] => None
      end
  end.

Definition hex_value (c : ascii) : option Z :=
  let n := code c in
  if (48 <=? n) && (n <=? 57) then Some (n - 48)
  else if (97 <=? n) && (n <=? 102) then Some (n - 87)
  else if (65 <=? n) && (n <=? 70) then Some (n - 55)
  else None.

Definition char_of_code (n : Z) : ascii := ascii_of_N (Z.to_N n).

(** The character a one-letter escape stands for. *)
Definition unescape (c : ascii) : option ascii :=
  let n := code c in
  if (n =? 34) || (n =? 92) || (n =? 47) then Some c
  else if n =? 98 then Some (char_of_code 8)
  else if n =? 102 then Some (char_of_code 12)
  else if n =? 110 then Some (char_of_code 10)
  else if n =? 114 then Some (char_of_code 13)
  else if n =? 116 then Some (char_of_code 9)
  else None.

(** The body of a string literal, after its opening quote. *)
Fixpoint scan_string (l : list ascii) : option (string * list ascii) :=
  match l with
  | [] => None
  | c :: r =>
      let n := code c in
      if n =? 34 then Some (EmptyString, r)
      else if n =? 92 then
        match r with
        | e :: r1 =>
            if code e =? 117 then
              match r1 with
              | h1 :: h2 :: h3 :: h4 :: r2 =>
                  match hex_value h1, hex_value h2, hex_value h3, hex_value h4 with
                  | Some 0, Some 0, Some a, Some b =>
                      match scan_string r2 with
                      | Some (s, r3) =>
                          Some (String (char_of_code (16 * a + b)) s, r3)
                      | None => None
                      end
                  | _, _, _, _ => None
                  end
              | _ => None
              end
            else
              match unescape e with
              | Some c' =>
                  match scan_string r1 with
                  | Some (s, r2) => Some (String c' s, r2)
                  | None => None
                  end
              | None => None
              end
        | [] => None
        end
      else if n <? 32 then None
      else
        match scan_string r with
        | Some (s, r1) => Some (String c s, r1)
        | None => None
        end
  end.

Fixpoint take_digits (l : list ascii) : list Z * list ascii :=
  match l with
  | c :: l' =>
      match digit_of c with
      | Some d => let (ds, r) := take_digits l' in (d :: ds, r)
      | None => ([], l)
      end
  | [] => ([], [])
  end.

(** A number: an optional minus sign, then a single zero or a digit
    other than zero followed by digits, then optionally a dot with at
    least one digit, then optionally an exponent.  It is a [float] when
    it has a fraction or an exponent and an [int] otherwise. *)
Definition scan_number (l : list ascii) : option (pyval * list ascii) :=
  let (neg, l1) :=
    match after 45 l with Some r => (true, r) | None => (false, l) end in
  let intpart :=
    match l1 with
    | c :: r =>
        match digit_of c with
        | Some 0 => Some ([0], r)
        | Some d => let (ds, r') := take_digits r in Some (d :: ds, r')
        | None => None
        end
    | [] => None
    end in
  match intpart with
  | None => None
  | Some (ip, r1) =>
      let '(fp, r2) :=
        match after 46 r1 with
        | Some r =>
            match take_digits r with
            | ([], _) => ([], r1)
            | (ds, r') => (ds, r')
            end
        | None => ([], r1)
        end in
      let '(ex, r3) :=
        match r2 with
        | c :: r =>
            if Ascii.eqb (lower c) "e" then
              let (s, r') :=
                match after 45 r, after 43 r with
                | Some t, _ => (true, t)
                | None, Some t => (false, t)
                | None, None => (false, r)
                end in
              match take_digits r' with
              | ([], _) => (None, r2)
              | (ds, r'') =>
                  (Some (if s then - number_of ds else number_of ds), r'')
              end
            else (None, r2)
        | [] => (None, r2)
        end in
      match fp, ex with
      | [], None =>
          Some (VInt (if neg then - number_of ip else number_of ip), r3)
      | _, _ =>
          Some (VFloat (PyFloat.of_decimal neg (number_of (ip ++ fp))
                          (default 0 ex - Z.of_nat (length fp))), r3)
      end
  end.

(** The constants, tried after the number. *)
Definition scan_constant (l : list ascii) : option (pyval * list ascii) :=
  match after_word "null" l, after_word "true" l, after_word "false" l with
  | Some r, _, _ => Some (VNone, r)
  | _, Some r, _ => Some (VBool true, r)
  | _, _, Some r => Some (VBool false, r)
  | _, _, _ =>
      match after_word "NaN" l, after_word "Infinity" l,
            after_word "-Infinity" l with
      | Some r, _, _ => Some (VFloat S754_nan, r)
      | _, Some r, _ => Some (VFloat (S754_infinity false), r)
      | _, _, Some r => Some (VFloat (S754_infinity true), r)
      | _, _, _ => None
      end
  end.

(** One value at the head of [l]; [scan_members] and [scan_elements]
    read what follows the opening bracket of a non-empty object or
    array.  Every call consumes a character, so [length l] rounds are
    enough. *)
Fixpoint scan_value (fuel : nat) (l : list ascii)
  : option (pyval * list ascii) :=
  match fuel with
  | O => None
  | S fuel' =>
      match after 34 l, after 123 l, after 91 l with
      | Some r, _, _ =>
          match scan_string r with
          | Some (s, r1) => Some (VStr s, r1)
          | None => None
          end
      | _, Some r, _ =>
          match after 125 (skip_ws r) with
          | Some r1 => Some (VDict [], r1)
          | None => scan_members fuel' (skip_ws r) []
          end
      | _, _, Some r =>
          match after 93 (skip_ws r) with
          | Some r1 => Some (VList [], r1)
          | None => scan_elements fuel' (skip_ws r) []
          end
      | _, _, _ =>
          match scan_number l with
          | Some res => Some res
          | None => scan_constant l
          end
      end
  end
with scan_members (fuel : nat) (l : list ascii) (acc : list (string * pyval))
  : option (pyval * list ascii) :=
  match fuel with
  | O => None
  | S fuel' =>
      match after 34 l with
      | Some r =>
          match scan_string r with
          | Some (key, r1) =>
              match after 58 (skip_ws r1) with
              | Some r2 =>
                  match scan_value fuel' (skip_ws r2) with
                  | Some (v, r3) =>
                      let acc' := dict_set acc key v in
                      match after 125 (skip_ws r3), after 44 (skip_ws r3) with
                      | Some r4, _ => Some (VDict acc', r4)
                      | _, Some r4 => scan_members fuel' (skip_ws r4) acc'
                      | _, _ => None
                      end
                  | None => None
                  end
              | None => None
              end
          | None => None
          end
      | None => None
      end
  end
with scan_elements (fuel : nat) (l : list ascii) (acc : list pyval)
  : option (pyval * list ascii) :=
  match fuel with
  | O => None
  | S fuel' =>
      match scan_value fuel' l with
      | Some (v, r1) =>
          match after 93 (skip_ws r1), after 44 (skip_ws r1) with
          | Some r2, _ => Some (VList (rev (v :: acc)), r2)
          | _, Some r2 => scan_elements fuel' (skip_ws r2) (v :: acc)
          | _, _ => None
          end
      | None => None
      end
  end.

(** [json.loads(text)]: one value, with nothing but white space around
    it. *)
Definition load (text : string) : outcome pyval :=
  let l := skip_ws (list_ascii_of_string text) in
  match scan_value (S (length l)) l with
  | Some (v, r) =>
      match skip_ws r with
      | [] => Ok v
      | _ => Raise JSONDecodeError
      end
  | None => Raise JSONDecodeError
  end.

End Json.

(* ===================================================================== *)
(** ** The outside world *)
(* ===================================================================== *)

Module World.
Import Py.

(** What [spotify.currently_playing()] comes to: an error of the client,
    [None] (nothing is playing, or no device), or the response record. *)
Inductive reply : Type :=
| Failure
| Nothing
| Track (record : list (string * pyval)).

(** The part of the world the script does not control: what the clock
    shows at its n-th reading, what the player answers to the n-th query,
    whether the n-th pause command and the construction of the
    authorisation manager go through. *)
Record env : Type := {
  clock : nat -> Z;
  player : nat -> reply;
  pause_ok : nat -> bool;
  oauth_ok : bool
}.

(** What the script does to the world, in the order it does it. *)
Inductive event : Type :=
| EvOAuth (client_id client_secret redirect_uri scope username : string)
| EvSpotify
| EvCurrentlyPlaying
| EvPausePlayback
| EvPrint (line : string)
| EvNow (t : Z)
| EvAddTask (description : string) (total : Z)
| EvUpdate (completed : PyFloat.float)
| EvSleep (seconds : pyval)
| EvWrite (path : string).

(** The state the script threads: the files it opens itself, how often
    it has read the clock, queried the player and sent a pause, and its
    events so far.  What the client library keeps on disk (its token
    cache) is not part of [files]. *)
Record world : Type := {
  files : gmap string string;
  readings : nat;
  queries : nat;
  pauses : nat;
  trace : list event
}.

Definition initial (fs : gmap string string) : world :=
  {| files := fs; readings := 0; queries := 0; pauses := 0; trace := [] |}.

Definition emit (e : event) (w : world) : world :=
  {| files := files w; readings := readings w; queries := queries w;
     pauses := pauses w; trace := trace w ++ [e] |}.

(** Computations of the script. *)
Definition M (A : Type) : Type := world -> outcome A * world.

Definition ret {A} (a : A) : M A := fun w => (Ok a, w).

Definition bind {A B} (m : M A) (k : A -> M B) : M B :=
  fun w =>
    match m w with
    | (Ok a, w') => k a w'
    | (Raise e, w') => (Raise e, w')
    | (OutOfFuel, w') => (OutOfFuel, w')
    end.

Definition raise {A} (e : exn) : M A := fun w => (Raise e, w).

Definition out_of_fuel {A} : M A := fun w => (OutOfFuel, w).

Definition lift {A} (o : outcome A) : M A := fun w => (o, w).

Definition log (e : event) : M unit := fun w => (Ok tt, emit e w).

Declare Scope script_scope.
Delimit Scope script_scope with script.
Notation "x <- m ;; k" := (bind m (fun x => k))
  (at level 100, m at next level, right associativity) : script_scope.
Notation "m ;; k" := (bind m (fun _ => k))
  (at level 100, right associativity) : script_scope.

Definition count_pauses (t : list event) : nat :=
  length (List.filter (fun e => match e with EvPausePlayback => true | _ => false end) t).


End World.

(* ===================================================================== *)
(** ** The script *)
(* ===================================================================== *)

Module Script.
Import Py Datetime World.
Local Open Scope script_scope.

(** [time.sleep(secs)] converts its argument to a whole number of
    nanoseconds that has to fit 64 bits, and refuses a negative one. *)
Definition sleep_check (secs : pyval) : outcome unit :=
  let negative := Raise (ValueError "sleep length must be non-negative") in
  let fits ns := (- 2 ^ 63 <=? ns) && (ns <? 2 ^ 63) in
  match secs with
  | VBool _ => Ok tt
  | VInt n =>
      if fits (n * 10 ^ 9) then if n <? 0 then negative else Ok tt
      else Raise OverflowError
  | VFloat x =>
      if PyFloat.is_nan x
      then Raise (ValueError "Invalid value NaN (not a number)")
      else
        match PyFloat.trunc (PyFloat.mul x (PyFloat.of_Z (10 ^ 9))) with
        | Some ns =>
            if fits ns
            then if PyFloat.sign x && negb (PyFloat.is_zero x)
                 then negative else Ok tt
            else Raise OverflowError
        | None => Raise OverflowError
        end
  | _ => Raise TypeError
  end.

Definition config_path : string := "./config.json".

(** [default_config] of [get_config]. *)
Definition default_config : Json.config :=
  [ ("username", Json.CStr EmptyString);
    ("client_id", Json.CStr EmptyString);
    ("client_secret", Json.CStr EmptyString);
    ("scope", Json.CList ["user-modify-playback-state";
                          "user-read-currently-playing"]);
    ("redirect_uri", Json.CStr "http://localhost:8080") ].

Section WithEnv.
Variable E : env.

(** *** The operations on the world *)

(** [spotipy.SpotifyOAuth(...)] *)
Definition SpotifyOAuth
  (client_id client_secret redirect_uri scope username : string) : M unit :=
  log (EvOAuth client_id client_secret redirect_uri scope username);;
  if oauth_ok E then ret tt else raise ExternalApiFailure.

(** [spotipy.Spotify(auth_manager=auth_manager)] *)
Definition Spotify : M unit := log EvSpotify.

(** [spotify.currently_playing()] *)
Definition currently_playing : M (option (list (string * pyval))) :=
  fun w =>
    let w' := {| files := files w; readings := readings w;
                 queries := S (queries w); pauses := pauses w;
                 trace := trace w ++ [EvCurrentlyPlaying] |} in
    match player E (queries w) with
    | Failure => (Raise ExternalApiFailure, w')
    | Nothing => (Ok None, w')
    | Track record => (Ok (Some record), w')
    end.

(** [spotify.pause_playback()] *)
Definition pause_playback : M unit :=
  fun w =>
    let w' := {| files := files w; readings := readings w;
                 queries := queries w; pauses := S (pauses w);
                 trace := trace w ++ [EvPausePlayback] |} in
    if pause_ok E (pauses w) then (Ok tt, w')
    else (Raise ExternalApiFailure, w').

(** [datetime.now()] *)
Definition now : M Z :=
  fun w =>
    let t := clock E (readings w) in
    (Ok t, {| files := files w; readings := S (readings w);
              queries := queries w; pauses := pauses w;
              trace := trace w ++ [EvNow t] |}).

(** [sleep(secs)] *)
Definition sleep (secs : pyval) : M unit :=
  lift (sleep_check secs);; log (EvSleep secs).

Definition print (line : string) : M unit := log (EvPrint line).

(** [os.path.isfile(path)] *)
Definition isfile (path : string) : M bool :=
  fun w => (Ok (bool_decide (is_Some (files w !! path))), w).

(** [open(path, "w")] and what is written until the file is closed. *)
Definition write_text (path text : string) : M unit :=
  fun w =>
    (Ok tt, {| files := <[path := text]> (files w); readings := readings w;
               queries := queries w; pauses := pauses w;
               trace := trace w ++ [EvWrite path] |}).

(** [open(path, "r")] and what is read from the file. *)
Definition read_text (path : string) : M string :=
  fun w =>
    match files w !! path with
    | Some text => (Ok text, w)
    | None => (Raise (FileNotFoundError path), w)
    end.

(** *** [is_playing] (lines 16-27) *)
Definition is_playing : M pyval :=
  current_playing_track <- currently_playing;;
  match current_playing_track with
  | None => ret (VBool false)
  | Some record => lift (subscript (VDict record) "is_playing")
  end.

(** *** [total_microseconds] (lines 30-36) *)
Definition total_microseconds (time : Z) : Z :=
  int_of_float (in_microseconds time).

(** *** [sleep_timer] (lines 39-113) *)

(** [isinstance(v, (int, float))]: a [bool] is an [int]. *)
Definition is_int_or_float (v : pyval) : bool :=
  match v with VBool _ | VInt _ | VFloat _ => true | _ => false end.

(** Lines 75-85, the normalisation of [music_stop_time] into the
    [timedelta] [stop_time] (the specification's [to_duration]). *)
Definition to_duration (music_stop_time : pyval) : M Z :=
  stop_time <-
    (if is_int_or_float music_stop_time then
       lift (timedelta_seconds music_stop_time)
     else
       match music_stop_time with
       | VDatetime t => n <- now;; ret (datetime_sub t n)
       | VAwareDatetime _ _ => now;; raise TypeError
       | VTimedelta d => ret d
       | _ => raise (ValueError "cannot convert stop time.")
       end);;
  if stop_time <? 0 then raise (ValueError "stopping time is before now.")
  else ret stop_time.

(** Lines 102-109, the [while True] loop; [fuel] bounds the number of
    rounds. *)
Fixpoint wait_loop (fuel : nat) (start_time stop_time : Z)
  (elapced_time_check_interval : pyval) : M unit :=
  match fuel with
  | O => out_of_fuel
  | S fuel' =>
      t <- now;;
      let elapsed_time := datetime_sub t start_time in
      log (EvUpdate (in_microseconds elapsed_time));;
      if stop_time <? elapsed_time then ret tt
      else
        sleep elapced_time_check_interval;;
        wait_loop fuel' start_time stop_time elapced_time_check_interval
  end.

(** Lines 75-113: what [sleep_timer] does once it has found the
    playback active. *)
Definition timer_body (fuel : nat) (music_stop_time : pyval)
  (elapced_time_check_interval : pyval) : M unit :=
  stop_time <- to_duration music_stop_time;;
  print "start sleep timer";;
  start_time <- now;;
  t <- now;;
  end_time <- lift (datetime_add t stop_time);;
  print ("start " +:+ strftime_HMS start_time +:+ " -> "
           +:+ strftime_HMS end_time +:+ " end.");;
  log (EvAddTask "will stop playing at..."
         (int_of_float (in_microseconds stop_time)));;
  wait_loop fuel start_time stop_time elapced_time_check_interval;;
  playing <- is_playing;;
  if truthy playing then
    pause_playback;;
    print "stop playing"
  else ret tt.

Definition sleep_timer (fuel : nat)
  (username client_id client_secret : string) (scope : pyval)
  (redirect_uri : string) (music_stop_time : pyval)
  (elapced_time_check_interval : pyval) : M unit :=
  joined <- lift (join_obj " " scope);;
  SpotifyOAuth client_id client_secret redirect_uri joined username;;
  Spotify;;
  playing <- is_playing;;
  if negb (truthy playing) then print "does not play songs."
  else timer_body fuel music_stop_time elapced_time_check_interval.

(** *** [get_config] (lines 116-146) *)
Definition get_config : M pyval :=
  present <- isfile config_path;;
  if negb present then
    write_text config_path (Json.dump default_config 4);;
    raise (FileNotFoundError
             "creates './config.json' file. please, sets values.")
  else
    text <- read_text config_path;;
    lift (Json.load text).

(** *** The main program (lines 149-169) *)

Definition str_or_empty (v : pyval) : string :=
  match v with VStr s => s | _ => EmptyString end.

Definition main (fuel : nat) (argv : list string) : M unit :=
  stop_time <-
    match argv !! 1%nat with
    | Some arg =>
        match float_of_string arg with
        | Some x => ret (VFloat x)
        | None => raise (ValueError ("cannot convert input. input=" +:+ arg))
        end
    | None => raise (IndexError "please input stop time")
    end;;
  match stop_time with
  | VNone => raise (ValueError "please input stop time")
  | _ =>
      config <- get_config;;
      username <- lift (subscript config "username");;
      client_id <- lift (subscript config "client_id");;
      client_secret <- lift (subscript config "client_secret");;
      scope <- lift (subscript config "scope");;
      redirect_uri <- lift (subscript config "redirect_uri");;
      sleep_timer fuel
        (str_or_empty username)
        (str_or_empty client_id)
        (str_or_empty client_secret)
        (if is_iterable scope then scope else VStr EmptyString)
        (str_or_empty redirect_uri)
        stop_time
        (VFloat (PyFloat.of_Z 1))
  end.

End WithEnv.

End Script.

(* ===================================================================== *)
(** ** Properties *)
(* ===================================================================== *)

Import Py Datetime World Script.
Local Open Scope script_scope.

(** The two messages of [sleep_timer]'s own errors. *)
Definition UnconvertibleDuration : exn := ValueError "cannot convert stop time.".
Definition PastDuration : exn := ValueError "stopping time is before now.".

(** A sample world: a clock that advances by one second from reading to
    reading, a player that reports an active playback, a client that never
    fails. *)
Definition a_record (b : bool) : list (string * pyval) :=
  [("timestamp", VInt 1604448000000); ("is_playing", VBool b)].

Definition steady : env :=
  {| clock := fun n => 63740000000000000 + Z.of_nat n * 1000000;
     player := fun _ => Track (a_record true);
     pause_ok := fun _ => true;
     oauth_ok := true |}.

(** The same world with a player that answers from a list of replies and
    has nothing to report once the list is used up. *)
Definition scripted (replies : list reply) : env :=
  {| clock := clock steady;
     player := fun n => nth n replies Nothing;
     pause_ok := fun _ => true;
     oauth_ok := true |}.

Definition a_config : Json.config :=
  [ ("username", Json.CStr "listener");
    ("client_id", Json.CStr "0123456789abcdef");
    ("client_secret", Json.CStr "fedcba9876543210");
    ("scope", Json.CList ["user-modify-playback-state";
                          "user-read-currently-playing"]);
    ("redirect_uri", Json.CStr "http://localhost:8080") ].

Definition configured : world :=
  initial {[ config_path := Json.dump a_config 4 ]}.

(** *** The playback-state check *)

Section IsPlaying.
Variable E : env.

Lemma is_playing_run (w : world) :
  is_playing E w =
    (match player E (queries w) with
     | Failure => Raise ExternalApiFailure
     | Nothing => Ok (VBool false)
     | Track record => subscript (VDict record) "is_playing"
     end,
     {| files := files w; readings := readings w;
        queries := S (queries w); pauses := pauses w;
        trace := trace w ++ [EvCurrentlyPlaying] |}).
Proof.
  unfold is_playing, bind, currently_playing, ret, lift.
  destruct (player E (queries w)); reflexivity.
Qed.

End IsPlaying.

(** C8. For every session, [is_playing] returns [False] when the
    currently-playing query yields nothing, and otherwise returns exactly
    the boolean play state the response record reports. *)
Theorem is_playing_reports_play_state (E : env) (w : world) :
  (player E (queries w) = Nothing ->
   fst (is_playing E w) = Ok (VBool false))
  /\ (forall record b,
        player E (queries w) = Track record ->
        dict_get record "is_playing" = Some (VBool b) ->
        fst (is_playing E w) = Ok (VBool b)).
Proof.
  rewrite is_playing_run; simpl; split.
  - intros ->; reflexivity.
  - intros record b -> Hb; simpl; rewrite Hb; reflexivity.
Qed.

Lemma is_playing_reports_play_state_witness :
  fst (is_playing (scripted []) (initial ∅)) = Ok (VBool false)
  /\ fst (is_playing steady (initial ∅)) = Ok (VBool true).
Proof.
  split.
  - apply (proj1 (is_playing_reports_play_state (scripted []) (initial ∅))).
    reflexivity.
  - apply (proj2 (is_playing_reports_play_state steady (initial ∅))
             (a_record true) true); reflexivity.
Defined.

(** C10. On a response record the check looks the key ["is_playing"] up
    without a guard: with the key present the lookup yields its value, and
    with the key absent the check raises [KeyError]; it does not return
    [False]. *)
Theorem is_playing_unguarded_lookup (E : env) (w : world)
  (record : list (string * pyval)) :
  player E (queries w) = Track record ->
  (forall v, dict_get record "is_playing" = Some v ->
             fst (is_playing E w) = Ok v)
  /\ (dict_get record "is_playing" = None ->
      fst (is_playing E w) = Raise (KeyError "is_playing")
      /\ fst (is_playing E w) <> Ok (VBool false)).
Proof.
  intros Hr; rewrite is_playing_run, Hr; simpl; split.
  - intros v ->; reflexivity.
  - intros ->; split; [reflexivity | discriminate].
Qed.

Lemma is_playing_unguarded_lookup_witness :
  fst (is_playing steady (initial ∅)) = Ok (VBool true)
  /\ fst (is_playing (scripted [Track [("timestamp", VInt 0)]]) (initial ∅))
     = Raise (KeyError "is_playing").
Proof.
  split.
  - apply (proj1 (is_playing_unguarded_lookup steady (initial ∅)
                    (a_record true) eq_refl) (VBool true)); reflexivity.
  - apply (proj2 (is_playing_unguarded_lookup
                    (scripted [Track [("timestamp", VInt 0)]]) (initial ∅)
                    [("timestamp", VInt 0)] eq_refl)); reflexivity.
Defined.

(** *** The command line *)

(** C9. Without a positional argument the program stops with the message
    ["please input stop time"]; with an argument that [float] refuses it
    stops with a message that ends in the argument.  In both cases the
    world is left as it was: no file is read or written, nothing is sent
    to the service. *)
Theorem main_rejects_bad_argument (E : env) (fuel : nat) (argv : list string)
  (w : world) :
  (argv !! 1%nat = None ->
   main E fuel argv w = (Raise (IndexError "please input stop time"), w))
  /\ (forall arg,
        argv !! 1%nat = Some arg ->
        float_of_string arg = None ->
        main E fuel argv w
        = (Raise (ValueError ("cannot convert input. input=" +:+ arg)), w)).
Proof.
  unfold main, bind, raise; split.
  - intros ->; reflexivity.
  - intros arg -> ->; reflexivity.
Qed.

Lemma main_rejects_bad_argument_witness :
  main steady 5 ["SpotifySleepTimer.py"] configured
  = (Raise (IndexError "please input stop time"), configured)
  /\ main steady 5 ["SpotifySleepTimer.py"; "soon"] configured
     = (Raise (ValueError "cannot convert input. input=soon"), configured).
Proof.
  split.
  - apply (proj1 (main_rejects_bad_argument steady 5
                    ["SpotifySleepTimer.py"] configured)); reflexivity.
  - apply (proj2 (main_rejects_bad_argument steady 5
                    ["SpotifySleepTimer.py"; "soon"] configured) "soon");
      reflexivity.
Defined.

(** *** The configuration file *)

Section JsonRoundTrip.
Import Json.

Lemma list_ascii_of_string_app (a b : string) :
  list_ascii_of_string (a +:+ b)
  = (list_ascii_of_string a ++ list_ascii_of_string b)%list.
Proof.
  induction a as [| c a IH]; [reflexivity |].
  change (String c a +:+ b) with (String c (a +:+ b)).
  cbn [list_ascii_of_string]; rewrite IH; reflexivity.
Qed.

(** One escaped character is read back as that character. *)
Lemma scan_string_escape_char (c : ascii) (l : list ascii) :
  scan_string (list_ascii_of_string (escape_char c) ++ l)
  = match scan_string l with
    | Some (s, r) => Some (String c s, r)
    | None => None
    end.
Proof.
  destruct c as [[] [] [] [] [] [] [] []]; reflexivity.
Qed.

Lemma scan_string_escape (s : string) (l : list ascii) :
  scan_string (list_ascii_of_string (escape s) ++ ascii_of_N 34 :: l)
  = Some (s, l).
Proof.
  induction s as [| c s IH]; [reflexivity |].
  cbn [escape]; rewrite list_ascii_of_string_app, <- app_assoc.
  rewrite scan_string_escape_char, IH; reflexivity.
Qed.

Lemma encode_str_chars (s : string) (l : list ascii) :
  (list_ascii_of_string (encode_str s) ++ l)%list
  = ascii_of_N 34 :: (list_ascii_of_string (escape s) ++ ascii_of_N 34 :: l)%list.
Proof.
  unfold encode_str; rewrite !list_ascii_of_string_app, <- !app_assoc.
  reflexivity.
Qed.

Lemma scan_value_encode_str (f : nat) (s : string) (l : list ascii) :
  scan_value (S f) (list_ascii_of_string (encode_str s) ++ l)
  = Some (VStr s, l).
Proof.
  rewrite encode_str_chars.
  cbn [scan_value].
  change (after 34 (ascii_of_N 34 :: ?r)) with (Some r).
  cbv iota; rewrite scan_string_escape; reflexivity.
Qed.

Lemma skip_ws_spaces (n : nat) (l : list ascii) :
  skip_ws (list_ascii_of_string (spaces n) ++ l) = skip_ws l.
Proof.
  induction n as [| n IH]; [reflexivity |].
  change (spaces (S n)) with (String " " (spaces n)).
  cbn [list_ascii_of_string app skip_ws].
  change (is_ws " ") with true; cbv iota; exact IH.
Qed.

Lemma skip_ws_indent (n : nat) (l : list ascii) :
  skip_ws (list_ascii_of_string newline ++ list_ascii_of_string (spaces n) ++ l) = skip_ws l.
Proof.
  change (list_ascii_of_string newline) with [ascii_of_N 10].
  cbn [app skip_ws].
  change (is_ws (ascii_of_N 10)) with true; cbv iota.
  apply skip_ws_spaces.
Qed.

Lemma skip_ws_encode_str (s : string) (l : list ascii) :
  skip_ws (list_ascii_of_string (encode_str s) ++ l) = (list_ascii_of_string (encode_str s) ++ l)%list.
Proof. rewrite encode_str_chars; reflexivity. Qed.

(** The separator between the items of a block. *)
Definition item_sep (n : nat) : string := "," +:+ newline +:+ spaces n.

Lemma item_sep_chars (n : nat) (l : list ascii) :
  (list_ascii_of_string (item_sep n) ++ l)%list
  = ascii_of_N 44 :: (list_ascii_of_string newline ++ list_ascii_of_string (spaces n) ++ l)%list.
Proof.
  unfold item_sep; rewrite !list_ascii_of_string_app, <- !app_assoc.
  reflexivity.
Qed.

Lemma join_cons (sep x y : string) (items : list string) :
  join sep (x :: y :: items) = x +:+ sep +:+ join sep (y :: items).
Proof. reflexivity. Qed.

(** One string of a list, and what follows it. *)
Lemma scan_elements_step (f : nat) (s : string) (l : list ascii)
    (acc : list pyval) :
  (0 < f)%nat ->
  scan_elements (S f) (list_ascii_of_string (encode_str s) ++ l) acc
  = match after 93 (skip_ws l), after 44 (skip_ws l) with
    | Some r2, _ => Some (VList (rev (VStr s :: acc)), r2)
    | _, Some r2 => scan_elements f (skip_ws r2) (VStr s :: acc)
    | _, _ => None
    end.
Proof.
  intros Hf; cbn [scan_elements].
  destruct f as [| f]; [lia |].
  rewrite scan_value_encode_str; reflexivity.
Qed.

Lemma skip_ws_join (sep x : string) (items : list string) (l : list ascii) :
  skip_ws (list_ascii_of_string (join sep (map encode_str (x :: items))) ++ l)
  = (list_ascii_of_string (join sep (map encode_str (x :: items))) ++ l)%list.
Proof.
  destruct items as [| y items]; cbn [map].
  - cbn [join]; apply skip_ws_encode_str.
  - rewrite join_cons, list_ascii_of_string_app, <- app_assoc.
    apply skip_ws_encode_str.
Qed.

(** The strings of a list that was written with one item on each line. *)
Lemma scan_elements_items (n k : nat) :
  forall (items : list string) (acc : list pyval) (f : nat) (l : list ascii),
    items <> [] -> (length items < f)%nat ->
    scan_elements f
      (list_ascii_of_string (join (item_sep n) (map encode_str items))
       ++ list_ascii_of_string newline ++ list_ascii_of_string (spaces k) ++ list_ascii_of_string "]" ++ l) acc
    = Some (VList (rev acc ++ map VStr items), l).
Proof.
  induction items as [| x items IH]; intros acc f l Hne Hf; [congruence |].
  destruct f as [| f]; cbn [length] in Hf; [lia |].
  destruct items as [| y items].
  - cbn [map join].
    rewrite scan_elements_step, skip_ws_indent by lia.
    reflexivity.
  - cbn [map]; rewrite join_cons.
    rewrite !list_ascii_of_string_app, <- !app_assoc.
    rewrite scan_elements_step by (cbn [length] in Hf; lia).
    rewrite !item_sep_chars.
    cbn [skip_ws].
    change (is_ws (ascii_of_N 44)) with false; cbv iota.
    change (after 93 (ascii_of_N 44 :: ?r)) with (@None (list ascii)).
    change (after 44 (ascii_of_N 44 :: ?r)) with (Some r).
    cbv iota.
    rewrite skip_ws_indent.
    change (encode_str y :: map encode_str items)
      with (map encode_str (y :: items)).
    rewrite skip_ws_join, IH by (try congruence; lia).
    cbn [rev map]; rewrite <- app_assoc; reflexivity.
Qed.

Lemma join_head (sep x : string) (items : list string) (l : list ascii) :
  exists r, (list_ascii_of_string (join sep (map encode_str (x :: items))) ++ l)%list
            = ascii_of_N 34 :: r.
Proof.
  destruct items as [| y items]; cbn [map].
  - cbn [join]; rewrite encode_str_chars; eauto.
  - rewrite join_cons, list_ascii_of_string_app, <- app_assoc.
    rewrite encode_str_chars; eauto.
Qed.

(** The number of strings in a value that is a list. *)
Definition items_of (v : config_value) : nat :=
  match v with CStr _ => 0%nat | CList l => length l end.

(** A value of the record as a Python value, as in [Json.to_pyval]. *)
Definition value_to_pyval (v : config_value) : pyval :=
  match v with CStr s => VStr s | CList l => VList (map VStr l) end.

(** The text [Json.dump] writes for one key and its value. *)
Definition member_text (indent : nat) (kv : string * config_value) : string :=
  encode_str (fst kv) +:+ ": " +:+ dump_value indent 1 (snd kv).

(** Rounds of the reader that a record needs at most. *)
Definition weight (c : config) : nat :=
  fold_right (fun kv n => (3 + items_of (snd kv) + n)%nat) 0%nat c.

Lemma dump_list_chars (indent : nat) (x : string) (items : list string)
    (l : list ascii) :
  (list_ascii_of_string (dump_value indent 1 (CList (x :: items))) ++ l)%list
  = ascii_of_N 91
    :: (list_ascii_of_string newline ++ list_ascii_of_string (spaces (indent * 2))
        ++ list_ascii_of_string (join (item_sep (indent * 2)) (map encode_str (x :: items)))
        ++ list_ascii_of_string newline ++ list_ascii_of_string (spaces (indent * 1))
        ++ list_ascii_of_string "]" ++ l)%list.
Proof.
  unfold dump_value, block; cbn [map]; cbv zeta.
  rewrite !list_ascii_of_string_app, <- !app_assoc.
  reflexivity.
Qed.

Lemma dump_value_head (indent : nat) (v : config_value) (l : list ascii) :
  exists c r, (list_ascii_of_string (dump_value indent 1 v) ++ l)%list = c :: r
              /\ is_ws c = false.
Proof.
  destruct v as [s | [| x items]].
  - cbn [dump_value]; rewrite encode_str_chars; eexists _, _; split; reflexivity.
  - eexists _, _; split; reflexivity.
  - rewrite dump_list_chars; eexists _, _; split; reflexivity.
Qed.

Lemma scan_value_dump_value (indent : nat) (v : config_value) (f : nat)
    (l : list ascii) :
  (items_of v + 2 <= f)%nat ->
  scan_value f (list_ascii_of_string (dump_value indent 1 v) ++ l)
  = Some (value_to_pyval v, l).
Proof.
  intros Hf; destruct f as [| f]; [lia |].
  destruct v as [s | [| x items]].
  - apply scan_value_encode_str.
  - reflexivity.
  - rewrite dump_list_chars; cbn [scan_value].
    change (after 34 (ascii_of_N 91 :: ?r)) with (@None (list ascii)).
    change (after 123 (ascii_of_N 91 :: ?r)) with (@None (list ascii)).
    change (after 91 (ascii_of_N 91 :: ?r)) with (Some r).
    cbv iota; rewrite skip_ws_indent, skip_ws_join.
    destruct (join_head (item_sep (indent * 2)) x items
                (list_ascii_of_string newline ++ list_ascii_of_string (spaces (indent * 1))
                 ++ list_ascii_of_string "]" ++ l)) as (r & Hr).
    rewrite Hr at 1.
    change (after 93 (ascii_of_N 34 :: r)) with (@None (list ascii)).
    cbv iota.
    rewrite scan_elements_items by (try congruence; cbn [items_of] in Hf; lia).
    reflexivity.
Qed.

(** One key with its value, and what follows it. *)
Lemma scan_members_step (indent f : nat) (kv : string * config_value)
    (l : list ascii) (acc : list (string * pyval)) :
  (items_of (snd kv) + 2 <= f)%nat ->
  scan_members (S f) (list_ascii_of_string (member_text indent kv) ++ l) acc
  = match after 125 (skip_ws l), after 44 (skip_ws l) with
    | Some r4, _ =>
        Some (VDict (dict_set acc (fst kv) (value_to_pyval (snd kv))), r4)
    | _, Some r4 =>
        scan_members f (skip_ws r4)
          (dict_set acc (fst kv) (value_to_pyval (snd kv)))
    | _, _ => None
    end.
Proof.
  intros Hf; unfold member_text.
  rewrite !list_ascii_of_string_app, <- !app_assoc, encode_str_chars.
  cbn [scan_members].
  change (after 34 (ascii_of_N 34 :: ?r)) with (Some r).
  cbv iota; rewrite scan_string_escape.
  change (list_ascii_of_string ": ") with [ascii_of_N 58; ascii_of_N 32].
  cbn [app skip_ws].
  change (is_ws (ascii_of_N 58)) with false; cbv iota.
  change (after 58 (ascii_of_N 58 :: ?r)) with (Some r).
  cbv iota; cbn [skip_ws].
  change (is_ws (ascii_of_N 32)) with true; cbv iota.
  destruct (dump_value_head indent (snd kv) l) as (c & r & Hr & Hc).
  assert (Hs : skip_ws (list_ascii_of_string (dump_value indent 1 (snd kv)) ++ l)
               = (list_ascii_of_string (dump_value indent 1 (snd kv)) ++ l)%list).
  { rewrite Hr; cbn [skip_ws]; rewrite Hc; reflexivity. }
  rewrite Hs, scan_value_dump_value by assumption.
  reflexivity.
Qed.

(** A new key goes to the end of the dict. *)
Lemma dict_set_fresh (d : list (string * pyval)) (key : string) (v : pyval) :
  key ∉ map fst d -> dict_set d key v = (d ++ [(key, v)])%list.
Proof.
  induction d as [| [k u] d IH]; intros Hn; [reflexivity |].
  cbn [dict_set map fst app] in *.
  apply not_elem_of_cons in Hn as [Hne Hn].
  destruct (String.eqb_spec k key) as [-> | _]; [congruence |].
  rewrite IH by assumption; reflexivity.
Qed.

Lemma member_text_head (n indent : nat) (kv : string * config_value)
    (items : list (string * config_value)) (l : list ascii) :
  exists r,
    (list_ascii_of_string (join (item_sep n) (map (member_text indent) (kv :: items)))
     ++ l)%list = ascii_of_N 34 :: r.
Proof.
  destruct items as [| y items]; cbn [map].
  - cbn [join]; unfold member_text.
    rewrite list_ascii_of_string_app, <- app_assoc, encode_str_chars; eauto.
  - rewrite join_cons, list_ascii_of_string_app, <- app_assoc.
    unfold member_text at 1.
    rewrite list_ascii_of_string_app, <- app_assoc, encode_str_chars; eauto.
Qed.

(** The members of an object that was written with one on each line. *)
Lemma scan_members_items (n indent k : nat) :
  forall (c : config) (acc : list (string * pyval)) (f : nat) (l : list ascii),
    c <> [] -> (weight c <= f)%nat ->
    NoDup (map fst acc ++ map fst c) ->
    scan_members f
      (list_ascii_of_string (join (item_sep n) (map (member_text indent) c))
       ++ list_ascii_of_string newline ++ list_ascii_of_string (spaces k) ++ list_ascii_of_string "}" ++ l) acc
    = Some (VDict (acc ++ map (fun kv => (fst kv, value_to_pyval (snd kv))) c),
            l).
Proof.
  induction c as [| kv c IH]; intros acc f l Hne Hf Hnd; [congruence |].
  cbn [weight fold_right] in Hf; fold (weight c) in Hf.
  destruct f as [| f]; [lia |].
  assert (Hfresh : fst kv ∉ map fst acc).
  { cbn [map] in Hnd; apply NoDup_app in Hnd as (_ & Hdis & _).
    intros Hin; apply (Hdis _ Hin); left. }
  assert (Hnext : NoDup (map fst (acc ++ [(fst kv, value_to_pyval (snd kv))])
                         ++ map fst c)).
  { rewrite map_app, <- app_assoc; exact Hnd. }
  destruct c as [| kv' c].
  - cbn [map join].
    rewrite scan_members_step, skip_ws_indent by lia.
    rewrite dict_set_fresh by assumption.
    reflexivity.
  - cbn [map]; rewrite join_cons.
    rewrite !list_ascii_of_string_app, <- !app_assoc.
    rewrite scan_members_step by lia.
    rewrite !item_sep_chars.
    cbn [skip_ws].
    change (is_ws (ascii_of_N 44)) with false; cbv iota.
    change (after 125 (ascii_of_N 44 :: ?r)) with (@None (list ascii)).
    change (after 44 (ascii_of_N 44 :: ?r)) with (Some r).
    cbv iota.
    rewrite skip_ws_indent.
    change (member_text indent kv' :: map (member_text indent) c)
      with (map (member_text indent) (kv' :: c)).
    destruct (member_text_head n indent kv' c
                (list_ascii_of_string newline ++ list_ascii_of_string (spaces k) ++ list_ascii_of_string "}" ++ l))
      as (r & Hr).
    assert (Hs : forall t, t = ascii_of_N 34 :: r -> skip_ws t = t)
      by (intros t ->; reflexivity).
    rewrite (Hs _ Hr).
    rewrite dict_set_fresh by assumption.
    rewrite IH by (try congruence; try assumption; lia).
    rewrite <- app_assoc; reflexivity.
Qed.

Lemma length_letters_app (a b : string) :
  length (list_ascii_of_string (a +:+ b))
  = (length (list_ascii_of_string a) + length (list_ascii_of_string b))%nat.
Proof. rewrite list_ascii_of_string_app, length_app; reflexivity. Qed.

Lemma length_join_encode_str (sep : string) (items : list string) :
  (length items <= length (list_ascii_of_string (join sep (map encode_str items))))%nat.
Proof.
  induction items as [| x [| y items] IH]; [cbn; lia | |].
  - cbn [map join]; unfold encode_str; rewrite !length_letters_app.
    cbn; lia.
  - cbn [map] in *; rewrite join_cons, !length_letters_app.
    unfold encode_str at 1; rewrite !length_letters_app.
    cbn [length] in *. cbn [list_ascii_of_string quote length]. lia.
Qed.

Lemma length_dump_value (indent : nat) (v : config_value) :
  (items_of v <= length (list_ascii_of_string (dump_value indent 1 v)))%nat.
Proof.
  destruct v as [s | [| x items]]; cbn [items_of]; [lia | cbn; lia |].
  pose proof (dump_list_chars indent x items []) as H.
  rewrite app_nil_r in H; rewrite H.
  pose proof (length_join_encode_str (item_sep (indent * 2)) (x :: items)).
  cbn [length]; rewrite !length_app. cbn [length] in *. lia.
Qed.

Lemma length_join_members (n indent : nat) (c : config) :
  (weight c
   <= length (list_ascii_of_string (join (item_sep n) (map (member_text indent) c))))%nat.
Proof.
  assert (Hm : forall kv, (3 + items_of (snd kv)
                           <= length (list_ascii_of_string (member_text indent kv)))%nat).
  { intros kv; unfold member_text; rewrite !length_letters_app.
    pose proof (length_dump_value indent (snd kv)).
    unfold encode_str; rewrite !length_letters_app.
    cbn [list_ascii_of_string quote length]. lia. }
  induction c as [| kv [| kv' c] IH]; [cbn; lia | |].
  - cbn [map join weight fold_right]; specialize (Hm kv); lia.
  - cbn [map] in *; rewrite join_cons, !length_letters_app.
    cbn [weight fold_right] in *; specialize (Hm kv). lia.
Qed.

Lemma dump_chars (indent : nat) (kv : string * config_value) (c : config) :
  list_ascii_of_string (dump (kv :: c) indent)
  = ascii_of_N 123
    :: (list_ascii_of_string newline ++ list_ascii_of_string (spaces (indent * 1))
        ++ list_ascii_of_string (join (item_sep (indent * 1))
                      (map (member_text indent) (kv :: c)))
        ++ list_ascii_of_string newline ++ list_ascii_of_string (spaces (indent * 0))
        ++ list_ascii_of_string "}" ++ [])%list.
Proof.
  unfold dump, block; cbn [map]; cbv zeta.
  rewrite !list_ascii_of_string_app, <- !app_assoc.
  reflexivity.
Qed.

(** What [json.dump] writes for a record, [json.load] reads back as that
    record, whatever the strings in it and whatever the indentation. *)
Lemma load_dump (c : config) (indent : nat) :
  NoDup (map fst c) -> load (dump c indent) = Ok (to_pyval c).
Proof.
  intros Hnd; destruct c as [| kv c]; [reflexivity |].
  unfold load; rewrite dump_chars.
  set (body := list_ascii_of_string (join (item_sep (indent * 1))
                          (map (member_text indent) (kv :: c)))).
  set (tail := (list_ascii_of_string newline ++ list_ascii_of_string (spaces (indent * 0))
                ++ list_ascii_of_string "}" ++ [])%list).
  change (skip_ws (ascii_of_N 123 :: ?r)) with (ascii_of_N 123 :: r).
  cbn [scan_value].
  change (after 34 (ascii_of_N 123 :: ?r)) with (@None (list ascii)).
  change (after 123 (ascii_of_N 123 :: ?r)) with (Some r).
  cbv iota; rewrite skip_ws_indent.
  destruct (member_text_head (indent * 1) indent kv c tail) as (r & Hr).
  fold body in Hr.
  assert (Hs : skip_ws (body ++ tail) = (body ++ tail)%list)
    by (rewrite Hr; reflexivity).
  rewrite Hs.
  assert (Hnone : after 125 (body ++ tail) = None) by (rewrite Hr; reflexivity).
  rewrite Hnone.
  unfold body, tail.
  rewrite scan_members_items.
  - reflexivity.
  - congruence.
  - pose proof (length_join_members (indent * 1) indent (kv :: c)).
    cbn [length]; rewrite !length_app; lia.
  - exact Hnd.
Qed.

End JsonRoundTrip.

Lemma default_config_round_trip :
  Json.load (Json.dump default_config 4) = Ok (Json.to_pyval default_config).
Proof. vm_compute; reflexivity. Qed.

Lemma get_config_present (w : world) (text : string) :
  files w !! config_path = Some text ->
  get_config w = (Json.load text, w).
Proof.
  intros H; unfold get_config, bind, isfile, read_text, lift.
  rewrite bool_decide_eq_true_2 by (rewrite H; eexists; reflexivity).
  simpl; rewrite H; destruct (Json.load text); reflexivity.
Qed.

(** C6. When there is no config file, [get_config] first writes the
    default record (empty user name, client id and client secret, the two
    default scopes, the redirect URI ["http://localhost:8080"]) and then
    raises [FileNotFoundError]; called again on the files it left, it
    returns the stored record and raises nothing.  The values returned
    are those in the file: whatever record [c] the file holds by then,
    with whatever strings in it, a call returns [c] and changes
    nothing. *)
Theorem get_config_bootstrap (w : world) :
  files w !! config_path = None ->
  exists w1,
    get_config w
    = (Raise (FileNotFoundError
                "creates './config.json' file. please, sets values."), w1)
    /\ files w1 = <[config_path := Json.dump default_config 4]> (files w)
    /\ trace w1 = (trace w ++ [EvWrite config_path])%list
    /\ get_config w1
       = (Ok (VDict
                [ ("username", VStr EmptyString);
                  ("client_id", VStr EmptyString);
                  ("client_secret", VStr EmptyString);
                  ("scope", VList [VStr "user-modify-playback-state";
                                   VStr "user-read-currently-playing"]);
                  ("redirect_uri", VStr "http://localhost:8080") ]), w1)
    /\ (forall (c : Json.config) (indent : nat) (w2 : world),
          NoDup (map fst c) ->
          files w2 !! config_path = Some (Json.dump c indent) ->
          get_config w2 = (Ok (Json.to_pyval c), w2)).
Proof.
  intros H.
  eexists; split; [| split; [| split; [| split]]].
  - unfold get_config, bind, isfile, write_text, raise.
    rewrite bool_decide_eq_false_2 by (rewrite H; intros [x Hx]; discriminate).
    simpl; reflexivity.
  - reflexivity.
  - reflexivity.
  - rewrite (get_config_present _ (Json.dump default_config 4)).
    + rewrite default_config_round_trip; reflexivity.
    + simpl; apply lookup_insert_eq.
  - intros c indent w2 Hnd Hfile.
    rewrite (get_config_present _ _ Hfile), (load_dump c indent Hnd).
    reflexivity.
Qed.

Lemma get_config_bootstrap_witness :
  exists w1,
    get_config (initial ∅)
    = (Raise (FileNotFoundError
                "creates './config.json' file. please, sets values."), w1)
    /\ files w1 = <[config_path := Json.dump default_config 4]> ∅
    /\ trace w1 = [EvWrite config_path]
    /\ get_config w1
       = (Ok (VDict
                [ ("username", VStr EmptyString);
                  ("client_id", VStr EmptyString);
                  ("client_secret", VStr EmptyString);
                  ("scope", VList [VStr "user-modify-playback-state";
                                   VStr "user-read-currently-playing"]);
                  ("redirect_uri", VStr "http://localhost:8080") ]), w1)
    /\ get_config configured
       = (Ok (VDict
                [ ("username", VStr "listener");
                  ("client_id", VStr "0123456789abcdef");
                  ("client_secret", VStr "fedcba9876543210");
                  ("scope", VList [VStr "user-modify-playback-state";
                                   VStr "user-read-currently-playing"]);
                  ("redirect_uri", VStr "http://localhost:8080") ]),
          configured).
Proof.
  destruct (get_config_bootstrap (initial ∅)) as (w1 & H1 & H2 & H3 & H4 & H5).
  { reflexivity. }
  exists w1; repeat apply conj; try assumption.
  apply (H5 a_config 4%nat configured).
  - apply (bool_decide_unpack _); vm_compute; reflexivity.
  - apply lookup_singleton_eq.
Defined.

(** *** The normalisation of the stop time *)

Section ToDuration.
Variable E : env.

Lemma to_duration_numeric_run (v : pyval) (w : world) :
  is_int_or_float v = true ->
  to_duration E v w =
    (match timedelta_seconds v with
     | Ok d => if d <? 0 then Raise PastDuration else Ok d
     | Raise e => Raise e
     | OutOfFuel => OutOfFuel
     end, w).
Proof.
  intros H; unfold to_duration, bind, lift, raise, ret; rewrite H.
  destruct (timedelta_seconds v) as [d | e |]; try reflexivity.
  destruct (d <? 0); reflexivity.
Qed.

Lemma microseconds_to_delta_inv (us d : Z) :
  microseconds_to_delta us = Ok d -> d = us.
Proof.
  unfold microseconds_to_delta.
  destruct (_ && _); [intros [= <-]; reflexivity | discriminate].
Qed.

Lemma microseconds_to_delta_raise (us : Z) (e : exn) :
  microseconds_to_delta us = Raise e -> e = OverflowError.
Proof.
  unfold microseconds_to_delta.
  destruct (_ && _); [discriminate | intros [= <-]; reflexivity].
Qed.

Lemma microseconds_to_delta_in_range (us : Z) :
  - (max_delta_days * us_per_day) <= us < (max_delta_days + 1) * us_per_day ->
  microseconds_to_delta us = Ok us.
Proof.
  intros Hr; unfold microseconds_to_delta.
  assert (Hd : 0 < us_per_day) by (vm_compute; reflexivity).
  assert (- max_delta_days <= us / us_per_day <= max_delta_days) as [H1 H2].
  { split.
    - apply Z.div_le_lower_bound; lia.
    - apply Z.lt_succ_r, Z.div_lt_upper_bound; lia. }
  apply Z.leb_le in H1, H2; rewrite H1, H2; reflexivity.
Qed.

Lemma long_of_double_raise (x : PyFloat.float) (e : exn) :
  long_of_double x = Raise e -> e <> PastDuration.
Proof.
  unfold long_of_double.
  destruct (PyFloat.trunc x); [discriminate |].
  destruct (PyFloat.is_nan x); intros [= <-]; discriminate.
Qed.

(** The constructor has errors of its own, none of them the script's. *)
Lemma timedelta_seconds_raise (v : pyval) (e : exn) :
  timedelta_seconds v = Raise e -> e <> PastDuration.
Proof.
  assert (Hm : forall us, microseconds_to_delta us = Raise e -> e <> PastDuration).
  { intros us H; rewrite (microseconds_to_delta_raise _ _ H); discriminate. }
  destruct v; simpl; try (intros [= <-]; discriminate); try apply Hm.
  unfold delta_of_float_seconds.
  destruct (PyFloat.modf x) as [fracpart intpart].
  destruct (long_of_double intpart) as [n | e1 |] eqn:Hn; simpl;
    [| intros [= <-]; eapply long_of_double_raise; eassumption | discriminate].
  destruct (PyFloat.is_zero fracpart); [apply Hm |].
  destruct (PyFloat.modf _) as [fracpart' intpart'].
  destruct (long_of_double intpart') as [n' | e2 |] eqn:Hn'; simpl;
    [apply Hm | intros [= <-]; eapply long_of_double_raise; eassumption
     | discriminate].
Qed.

Lemma trunc_modf (x : PyFloat.float) :
  PyFloat.trunc (snd (PyFloat.modf x)) = PyFloat.trunc x.
Proof.
  destruct x as [s | s | | s m e]; try reflexivity.
  unfold PyFloat.modf.
  destruct (0 <=? e) eqn:He; [reflexivity |].
  cbn [snd]; unfold PyFloat.trunc; rewrite He.
  destruct (Z.shiftr (Z.pos m) (- e)) as [| q | q] eqn:Hq.
  - destruct s; reflexivity.
  - rewrite Z.shiftl_0_r; reflexivity.
  - pose proof (proj2 (Z.shiftr_nonneg (Z.pos m) (- e))) as Hs; lia.
Qed.

(** A float that holds a whole number of seconds is converted without
    rounding. *)
Lemma delta_of_whole_seconds (x : PyFloat.float) (n : Z) :
  PyFloat.is_integer x = true ->
  PyFloat.trunc x = Some n ->
  delta_of_float_seconds x = microseconds_to_delta (n * us_per_second).
Proof.
  unfold PyFloat.is_integer, delta_of_float_seconds; intros Hi Hn.
  pose proof (trunc_modf x) as Ht.
  destruct (PyFloat.modf x) as [fracpart intpart]; simpl in *.
  unfold long_of_double; rewrite Ht, Hn; simpl; rewrite Hi; reflexivity.
Qed.

End ToDuration.

(** The shapes [sleep_timer] has no branch for. *)
Definition unsupported (v : pyval) : Prop :=
  match v with
  | VNone | VStr _ | VList _ | VDict _ => True
  | _ => False
  end.

(** C2, as stated, fails: a boolean is not refused.  [True] passes the
    test [isinstance(music_stop_time, (int, float))] and becomes a span of
    one second. *)
Lemma to_duration_accepts_bool :
  to_duration steady (VBool true) (initial ∅) = (Ok 1000000, initial ∅)
  /\ fst (to_duration steady (VBool true) (initial ∅))
     <> Raise UnconvertibleDuration.
Proof. split; [reflexivity | discriminate]. Qed.

(** C2, amended. Every stop time that is neither an [int] (a [bool]
    included), a [float], a [datetime] nor a [timedelta] (so [None], a
    string, a list, a mapping) is refused with "cannot convert stop
    time.", and nothing else happens; a boolean is converted like the
    integer it is, [True] to one second and [False] to none. *)
Theorem to_duration_unsupported_shape (E : env) (w : world) :
  (forall v, unsupported v ->
             to_duration E v w = (Raise UnconvertibleDuration, w))
  /\ (forall b : bool,
        to_duration E (VBool b) w = (Ok (if b then 1000000 else 0), w)).
Proof.
  split.
  - intros v Hv; destruct v; try contradiction; reflexivity.
  - intros []; reflexivity.
Qed.

Lemma to_duration_unsupported_shape_witness :
  to_duration steady (VDict [("seconds", VInt 5)]) (initial ∅)
  = (Raise UnconvertibleDuration, initial ∅)
  /\ to_duration steady (VBool false) (initial ∅) = (Ok 0, initial ∅).
Proof.
  split.
  - apply (proj1 (to_duration_unsupported_shape steady (initial ∅))
             (VDict [("seconds", VInt 5)])).
    exact I.
  - apply (proj2 (to_duration_unsupported_shape steady (initial ∅)) false).
Defined.

(** *** A float number of seconds *)

Lemma digits2_pos_size (m : positive) : digits2_pos m = Pos.size m.
Proof. induction m; simpl; congruence. Qed.

(** One shift to the right halves the mantissa of a shift record. *)
Lemma shr_1_mantissa (r : shr_record) :
  0 <= shr_m r -> shr_m (shr_1 r) = shr_m r / 2.
Proof.
  destruct r as [m rb sb]; cbn [shr_m]; intros H.
  rewrite <- Z.div2_div.
  destruct m as [| p | p]; [reflexivity | destruct p; reflexivity | lia].
Qed.

(** [p] shifts divide it by [2 ^ p]. *)
Lemma shr_iter_mantissa (p : positive) :
  forall r, 0 <= shr_m r ->
    shr_m (SpecFloat.iter_pos shr_1 p r) = shr_m r / 2 ^ Z.pos p.
Proof.
  induction p as [p IH | p IH |]; intros r Hr; cbn [SpecFloat.iter_pos].
  - assert (H1 : 0 <= shr_m (shr_1 r)).
    { rewrite shr_1_mantissa by assumption; apply Z.div_pos; lia. }
    assert (H2 : 0 <= shr_m (SpecFloat.iter_pos shr_1 p (shr_1 r))).
    { rewrite IH by assumption; apply Z.div_pos; [assumption | lia]. }
    rewrite IH, IH, shr_1_mantissa by assumption.
    rewrite !Z.div_div by lia.
    assert (2 ^ Z.pos p~1 = 2 * (2 ^ Z.pos p * 2 ^ Z.pos p)) as ->.
    { rewrite <- Z.pow_add_r, <- Z.pow_succ_r by lia; f_equal; lia. }
    reflexivity.
  - assert (H2 : 0 <= shr_m (SpecFloat.iter_pos shr_1 p r)).
    { rewrite IH by assumption; apply Z.div_pos; [assumption | lia]. }
    rewrite IH, IH by assumption.
    rewrite !Z.div_div by lia.
    assert (2 ^ Z.pos p~0 = 2 ^ Z.pos p * 2 ^ Z.pos p) as ->.
    { rewrite <- Z.pow_add_r by lia; f_equal; lia. }
    reflexivity.
  - rewrite shr_1_mantissa by assumption. reflexivity.
Qed.

Lemma shr_record_of_loc_mantissa (m : Z) (l : location) :
  shr_m (shr_record_of_loc m l) = m.
Proof. destruct l as [| []]; reflexivity. Qed.

(** [shr_fexp] shifts the mantissa down to the exponent the format
    allows, and no further. *)
Lemma shr_fexp_mantissa (m e : Z) (l : location) :
  0 <= m ->
  exists a, 0 <= a
    /\ snd (shr_fexp PyFloat.prec PyFloat.emax m e l) = e + a
    /\ shr_m (fst (shr_fexp PyFloat.prec PyFloat.emax m e l)) = m / 2 ^ a
    /\ e + a = Z.max e (fexp PyFloat.prec PyFloat.emax (Zdigits2 m + e)).
Proof.
  intros Hm; unfold shr_fexp, shr.
  destruct (fexp PyFloat.prec PyFloat.emax (Zdigits2 m + e) - e) as [| p | p] eqn:Hn.
  - exists 0; cbn [fst snd]; rewrite shr_record_of_loc_mantissa, Z.div_1_r.
    repeat split; lia.
  - exists (Z.pos p); cbn [fst snd].
    rewrite shr_iter_mantissa, shr_record_of_loc_mantissa
      by (rewrite shr_record_of_loc_mantissa; assumption).
    repeat split; lia.
  - exists 0; cbn [fst snd]; rewrite shr_record_of_loc_mantissa, Z.div_1_r.
    repeat split; lia.
Qed.

(** A number below [2 ^ b] has at most [b] binary digits. *)
Lemma Zdigits2_le (m b : Z) : 0 <= m < 2 ^ b -> 0 <= b -> Zdigits2 m <= b.
Proof.
  intros [H0 Hb] Hb0.
  destruct m as [| p | p]; [simpl; lia | | lia].
  cbn [Zdigits2]. 
  rewrite digits2_pos_size.
  assert (Hs : Z.pos (2 ^ Pos.size p) <= Z.pos p~0) by exact (Pos.size_le p).
  rewrite Pos2Z.inj_pow in Hs.
  assert (Hp : Z.pos p~0 = 2 * Z.pos p) by reflexivity.
  destruct (Z.le_gt_cases (Z.pos (Pos.size p)) b) as [| Hgt]; [assumption |].
  assert (2 ^ (b + 1) <= 2 ^ Z.pos (Pos.size p)) by (apply Z.pow_le_mono_r; lia).
  rewrite Z.pow_add_r in H by lia. lia.
Qed.

(** Rounding a shifted mantissa keeps it or adds one. *)
Lemma round_nearest_even_near (m : Z) (l : location) :
  m <= round_nearest_even m l <= m + 1.
Proof.
  unfold round_nearest_even; destruct l as [| []]; try lia.
  destruct (Z.even m); lia.
Qed.

(** The product of [1e6] and a fraction is rounded faithfully: the
    binary64 result is within two units in its last place. *)
Lemma binary_round_aux_near (sx : bool) (M : positive) (E : Z) :
  E <= -34 ->
  Z.pos M < 2 ^ (20 - E) ->
  exists m2 e2,
    E <= e2 <= -32 /\ 0 <= m2
    /\ Z.abs (Z.pos M - m2 * 2 ^ (e2 - E)) <= 2 * 2 ^ (e2 - E)
    /\ binary_round_aux PyFloat.prec PyFloat.emax sx (Z.pos M) E loc_Exact
       = match m2 with
         | Z0 => S754_zero sx
         | Z.pos p => S754_finite sx p e2
         | Z.neg _ => S754_nan
         end.
Proof.
  intros HE HM.
  unfold binary_round_aux.
  destruct (shr_fexp_mantissa (Z.pos M) E loc_Exact ltac:(lia))
    as (a & Ha & He1 & Hm1 & Hmax1).
  destruct (shr_fexp PyFloat.prec PyFloat.emax (Z.pos M) E loc_Exact)
    as [mrs1 e1]; cbn [fst snd] in *.
  set (m1 := round_nearest_even (shr_m mrs1) (loc_of_shr_record mrs1)).
  pose proof (round_nearest_even_near (shr_m mrs1) (loc_of_shr_record mrs1)) as Hr.
  fold m1 in Hr.
  assert (Hpa : 0 < 2 ^ a) by (apply Z.pow_pos_nonneg; lia).
  assert (Hq1 : 0 <= shr_m mrs1) by (rewrite Hm1; apply Z.div_pos; lia).
  assert (Hd1 : Zdigits2 (Z.pos M) <= 20 - E) by (apply Zdigits2_le; lia).
  assert (He1b : e1 <= -33).
  { subst e1. rewrite Hmax1. unfold fexp, emin, PyFloat.prec, PyFloat.emax. lia. }
  (* m1 < 2^(21 - e1) *)
  pose proof (Z.div_mod (Z.pos M) (2 ^ a) ltac:(lia)) as Hdm.
  pose proof (Z.mod_pos_bound (Z.pos M) (2 ^ a) Hpa) as Hmod.
  rewrite <- Hm1 in Hdm.
  assert (Hm1ub : m1 < 2 ^ (21 - e1)).
  { assert (shr_m mrs1 * 2 ^ a < 2 ^ (20 - E)) by lia.
    assert (2 ^ (20 - E) = 2 ^ (20 - e1) * 2 ^ a).
    { rewrite <- Z.pow_add_r by lia. f_equal. lia. }
    assert (shr_m mrs1 < 2 ^ (20 - e1)) by nia.
    assert (2 ^ (21 - e1) = 2 * 2 ^ (20 - e1)).
    { replace (21 - e1) with (1 + (20 - e1)) by lia.
      rewrite Z.pow_add_r by lia. reflexivity. }
    lia. }
  destruct (shr_fexp_mantissa m1 e1 loc_Exact ltac:(lia))
    as (b & Hb & He2 & Hm2 & Hmax2).
  destruct (shr_fexp PyFloat.prec PyFloat.emax m1 e1 loc_Exact)
    as [mrs2 e2]; cbn [fst snd] in *.
  assert (Hpb : 0 < 2 ^ b) by (apply Z.pow_pos_nonneg; lia).
  assert (Hd2 : Zdigits2 m1 <= 21 - e1) by (apply Zdigits2_le; lia).
  assert (He2b : e2 <= -32).
  { subst e2. rewrite Hmax2. unfold fexp, emin, PyFloat.prec, PyFloat.emax. lia. }
  pose proof (Z.div_mod m1 (2 ^ b) ltac:(lia)) as Hdm2.
  pose proof (Z.mod_pos_bound m1 (2 ^ b) Hpb) as Hmod2.
  rewrite <- Hm2 in Hdm2.
  assert (Hq2 : 0 <= shr_m mrs2) by (rewrite Hm2; apply Z.div_pos; lia).
  exists (shr_m mrs2), e2.
  split; [lia |]. split; [assumption |]. split.
  - replace (e2 - E) with (a + b) by lia.
    rewrite Z.pow_add_r by lia.
    apply Z.abs_le. split; nia.
  - destruct (shr_m mrs2) as [| p | p]; [reflexivity | | lia].
    assert (Hle : (e2 <=? PyFloat.emax - PyFloat.prec) = true).
    { apply Z.leb_le. unfold PyFloat.emax, PyFloat.prec. lia. }
    rewrite Hle. reflexivity.
Qed.

(** The arithmetic of the two roundings: the product is within two units
    in its last place, the leftover within half a microsecond. *)
Lemma microsecond_bound (k K q2 rho r r2 m2 : Z) :
  0 < k -> 32 <= K -> K <= 33 + k ->
  Z.abs (8589934592000000 * r - m2 * 2 ^ (33 + k - K)) <= 2 * 2 ^ (33 + k - K) ->
  m2 = q2 * 2 ^ K + r2 ->
  Z.abs (rho * 2 ^ K - r2) <= 2 ^ (K - 1) ->
  2 ^ 33 * Z.abs ((q2 + rho) * 2 ^ k - r * 1000000) <= 2 ^ k * (2 ^ 32 + 4).
Proof.
  intros Hk HK HKk H1 H2 H3.
  set (P := 2 ^ (33 + k - K)) in *.
  set (Q := 2 ^ (K - 1)) in *.
  assert (HP : 0 < P) by (apply Z.pow_pos_nonneg; lia).
  assert (HQ : 0 < Q) by (apply Z.pow_pos_nonneg; lia).
  assert (HK2 : 2 ^ K = 2 * Q).
  { unfold Q; rewrite <- Z.pow_succ_r by lia; f_equal; lia. }
  assert (HD : 2 ^ 33 * 2 ^ k = 2 * Q * P).
  { rewrite <- HK2; unfold P; rewrite <- !Z.pow_add_r by lia; f_equal; lia. }
  assert (HQP : Q * P = 2 ^ 32 * 2 ^ k).
  { unfold Q, P; rewrite <- !Z.pow_add_r by lia; f_equal; lia. }
  assert (HP2 : P <= 2 * 2 ^ k).
  { unfold P; rewrite <- Z.pow_succ_r by lia; apply Z.pow_le_mono_r; lia. }
  assert (Hk0 : 0 < 2 ^ k) by (apply Z.pow_pos_nonneg; lia).
  rewrite HK2 in H2, H3.
  rewrite <- (Z.abs_eq (2 ^ 33)) by lia.
  rewrite <- Z.abs_mul.
  replace (2 ^ 33 * ((q2 + rho) * 2 ^ k - r * 1000000))
    with ((q2 + rho) * (2 ^ 33 * 2 ^ k) - 8589934592000000 * r) by lia.
  rewrite HD.
  replace ((q2 + rho) * (2 * Q * P) - 8589934592000000 * r)
    with ((rho * (2 * Q) - r2) * P - (8589934592000000 * r - m2 * P))
    by (rewrite H2; ring).
  eapply Z.le_trans; [apply Z.abs_triangle |].
  rewrite Z.abs_opp, Z.abs_mul, (Z.abs_eq P) by lia.
  assert (Z.abs (rho * (2 * Q) - r2) * P <= Q * P) by nia.
  lia.
Qed.


(** The integer [a] with the sign bit [s]. *)
Definition signed (s : bool) (a : Z) : Z := if s then - a else a.

(** [near_microseconds u x]: [u] microseconds is [x] seconds rounded to
    a whole microsecond, [|u - x * 10 ** 6| <= 1/2 + 2 ** -31]; beyond
    the binary point ([0 <= e]) nothing is rounded. *)
Definition near_microseconds (u : Z) (x : PyFloat.float) : Prop :=
  match x with
  | S754_zero _ => u = 0
  | S754_finite s m e =>
      if 0 <=? e then u = signed s (Z.pos m) * 2 ^ e * 1000000
      else 2 ^ 33 * Z.abs (u * 2 ^ (- e) - signed s (Z.pos m) * 1000000)
           <= 2 ^ (- e) * (2 ^ 32 + 4)
  | _ => False
  end.

(** [1e6] as a binary64 number. *)
Lemma of_Z_us_per_second :
  PyFloat.of_Z us_per_second = S754_finite false 8589934592000000 (-33).
Proof. vm_compute; reflexivity. Qed.

(** [modf] on a number with digits behind the binary point. *)
Lemma modf_finite (s : bool) (m : positive) (e : Z) :
  e < 0 ->
  PyFloat.modf (S754_finite s m e)
  = (match Z.pos m mod 2 ^ (- e) with
     | Z.pos r' => S754_finite s r' e
     | _ => S754_zero s
     end,
     match Z.pos m / 2 ^ (- e) with
     | Z.pos q' => S754_finite s q' 0
     | _ => S754_zero s
     end).
Proof.
  intros He; unfold PyFloat.modf.
  destruct (Z.leb_spec 0 e); [lia |].
  rewrite Z.shiftr_div_pow2, Z.shiftl_mul_pow2 by lia.
  replace (Z.pos m - Z.pos m / 2 ^ (- e) * 2 ^ (- e))
    with (Z.pos m mod 2 ^ (- e)); [reflexivity |].
  rewrite Z.mod_eq by (apply Z.pow_nonzero; lia). lia.
Qed.

Lemma long_of_int_part (s : bool) (q : Z) :
  0 <= q ->
  long_of_double (match q with
                  | Z.pos q' => S754_finite s q' 0
                  | _ => S754_zero s
                  end) = Ok (signed s q).
Proof.
  intros Hq; destruct q as [| q' | q']; [destruct s; reflexivity | | lia].
  unfold long_of_double, PyFloat.trunc; cbn.
  destruct s; reflexivity.
Qed.

(** The leftover is rounded to the nearer of the two microseconds. *)
Lemma round_leftover_near (s : bool) (y r2 e2 : Z) :
  e2 < 0 -> 0 <= r2 < 2 ^ (- e2) ->
  exists rho,
    round_leftover y (match r2 with
                      | Z.pos r' => S754_finite s r' e2
                      | _ => S754_zero s
                      end) = y + signed s rho
    /\ Z.abs (rho * 2 ^ (- e2) - r2) <= 2 ^ (- e2 - 1).
Proof.
  intros He Hr.
  assert (Hpow : 2 ^ (- e2) = 2 * 2 ^ (- e2 - 1)).
  { rewrite <- Z.pow_succ_r by lia; f_equal; lia. }
  assert (Hh : 0 < 2 ^ (- e2 - 1)) by (apply Z.pow_pos_nonneg; lia).
  destruct r2 as [| r' | r']; [| | lia].
  - exists 0; split; [cbn; destruct s; cbn; lia | lia].
  - unfold round_leftover; cbn [PyFloat.is_zero PyFloat.sign PyFloat.cmp_half].
    destruct (Z.leb_spec 0 e2); [lia |].
    rewrite Z.shiftl_mul_pow2, Z.mul_1_l by lia.
    destruct (Z.compare_spec (Z.pos r') (2 ^ (- e2 - 1))) as [Heq | Hlt | Hgt].
    + destruct (Z.odd y).
      * exists 1; split; [destruct s; cbn; lia | lia].
      * exists 0; split; [destruct s; cbn; lia | lia].
    + exists 0; split; [destruct s; cbn; lia | lia].
    + exists 1; split; [destruct s; cbn; lia | lia].
Qed.

(** [timedelta(seconds=x)] for a finite float [x]: the range check on
    [x] seconds rounded to a whole microsecond. *)
Lemma delta_of_float_near (x : PyFloat.float) :
  match x with S754_zero _ | S754_finite _ _ _ => True | _ => False end ->
  exists u, near_microseconds u x
            /\ delta_of_float_seconds x = microseconds_to_delta u.
Proof.
  destruct x as [s | s | | s m e]; try contradiction; intros _.
  - exists 0; split; [reflexivity | destruct s; reflexivity].
  - destruct (Z.leb_spec 0 e) as [Hpos | Hneg].
    + exists (signed s (Z.pos m) * 2 ^ e * 1000000); split.
      * cbn [near_microseconds].
        destruct (Z.leb_spec 0 e); [reflexivity | lia].
      * unfold delta_of_float_seconds, PyFloat.modf.
        destruct (Z.leb_spec 0 e); [| lia].
        unfold long_of_double, PyFloat.trunc.
        destruct (Z.leb_spec 0 e); [| lia].
        cbn [obind PyFloat.is_zero].
        rewrite Z.shiftl_mul_pow2 by lia.
        unfold us_per_second; destruct s; cbn [signed]; f_equal; lia.
    + set (k := - e).
      assert (Hk : 0 < k) by (unfold k; lia).
      assert (H2k : 0 < 2 ^ k) by (apply Z.pow_pos_nonneg; lia).
      pose proof (Z.div_mod (Z.pos m) (2 ^ k) ltac:(lia)) as Hdm.
      pose proof (Z.mod_pos_bound (Z.pos m) (2 ^ k) H2k) as Hmod.
      assert (Hq : 0 <= Z.pos m / 2 ^ k) by (apply Z.div_pos; lia).
      set (q := Z.pos m / 2 ^ k) in *.
      set (r := Z.pos m mod 2 ^ k) in *.
      unfold delta_of_float_seconds.
      rewrite modf_finite by assumption; fold k; fold q; fold r.
      rewrite long_of_int_part by assumption; cbn [obind].
      destruct r as [| r' | r'] eqn:Hr; [| | lia].
      * (* no fraction *)
        exists (signed s q * us_per_second); split; [| reflexivity].
        cbn [near_microseconds]; destruct (Z.leb_spec 0 e); [lia |].
        fold k.
        replace (signed s q * us_per_second * 2 ^ k
                 - signed s (Z.pos m) * 1000000) with 0
          by (unfold us_per_second; destruct s; cbn [signed]; lia).
        cbn [Z.abs]; lia.
      * cbn [PyFloat.is_zero].
        unfold PyFloat.mul; rewrite of_Z_us_per_second; cbn [SFmul xorb].
        destruct (binary_round_aux_near s (8589934592000000 * r') (-33 + e))
          as (m2 & e2 & He2 & Hm2 & Herr & ->).
        { lia. }
        { rewrite Pos2Z.inj_mul.
          replace (20 - (-33 + e)) with (53 + k) by (unfold k; lia).
          rewrite Z.pow_add_r by lia.
          assert (8589934592000000 < 2 ^ 53) by (vm_compute; reflexivity).
          nia. }
        replace (e2 - (-33 + e)) with (33 + k - - e2) in Herr
          by (unfold k; lia).
        rewrite Pos2Z.inj_mul in Herr.
        destruct m2 as [| p2 | p2]; [| | lia].
        -- (* the product rounds to zero *)
           exists (signed s q * us_per_second); split.
           ++ cbn [near_microseconds]; destruct (Z.leb_spec 0 e); [lia |].
              fold k.
              replace (signed s q * us_per_second * 2 ^ k
                       - signed s (Z.pos m) * 1000000)
                with (signed s (- (Z.pos r' * 1000000)))
                by (unfold us_per_second; destruct s; cbn [signed]; lia).
              assert (Z.abs (signed s (- (Z.pos r' * 1000000)))
                      = Z.pos r' * 1000000) as ->
                by (destruct s; cbn [signed]; lia).
              rewrite Z.mul_0_l, Z.sub_0_r, Z.abs_eq in Herr by lia.
              assert (2 ^ (33 + k - - e2) <= 2 * 2 ^ k).
              { rewrite <- Z.pow_succ_r by lia.
                apply Z.pow_le_mono_r; lia. }
              lia.
           ++ cbn [PyFloat.modf long_of_double PyFloat.trunc obind].
              unfold round_leftover; cbn [PyFloat.is_zero].
              rewrite Z.add_0_r; reflexivity.
        -- (* the product is a number *)
           assert (He2n : e2 < 0) by lia.
           set (K := - e2).
           assert (H2K : 0 < 2 ^ K) by (apply Z.pow_pos_nonneg; unfold K; lia).
           pose proof (Z.div_mod (Z.pos p2) (2 ^ K) ltac:(lia)) as Hdm2.
           pose proof (Z.mod_pos_bound (Z.pos p2) (2 ^ K) H2K) as Hmod2.
           assert (Hq2 : 0 <= Z.pos p2 / 2 ^ K) by (apply Z.div_pos; lia).
           rewrite modf_finite by assumption; fold K.
           set (q2 := Z.pos p2 / 2 ^ K) in *.
           set (r2 := Z.pos p2 mod 2 ^ K) in *.
           rewrite long_of_int_part by assumption; cbn [obind].
           destruct (round_leftover_near s
                       (signed s q * us_per_second + signed s q2) r2 e2
                       He2n Hmod2) as (rho & Hround & Hrho).
           fold K in Hrho, Herr.
           exists (signed s q * us_per_second + signed s q2 + signed s rho).
           split; [| f_equal; exact Hround].
           cbn [near_microseconds]; destruct (Z.leb_spec 0 e); [lia |].
           fold k.
           replace ((signed s q * us_per_second + signed s q2 + signed s rho)
                      * 2 ^ k - signed s (Z.pos m) * 1000000)
             with (signed s ((q2 + rho) * 2 ^ k - Z.pos r' * 1000000))
             by (unfold us_per_second; destruct s; cbn [signed]; lia).
           assert (Z.abs (signed s ((q2 + rho) * 2 ^ k - Z.pos r' * 1000000))
                   = Z.abs ((q2 + rho) * 2 ^ k - Z.pos r' * 1000000)) as ->
             by (destruct s; cbn [signed]; lia).
           apply (microsecond_bound k K q2 rho (Z.pos r') r2 (Z.pos p2));
             try assumption; unfold K, k; try lia.
           fold K; lia.
Qed.


(** [exact_microseconds u x]: [x] seconds are exactly [u] microseconds. *)
Definition exact_microseconds (u : Z) (x : PyFloat.float) : Prop :=
  match x with
  | S754_zero _ => u = 0
  | S754_finite s m e =>
      if 0 <=? e then u = signed s (Z.pos m) * 2 ^ e * 1000000
      else u * 2 ^ (- e) = signed s (Z.pos m) * 1000000
  | _ => False
  end.

(** [timedelta.min] and [timedelta.max], in microseconds. *)
Definition timedelta_min : Z := - (max_delta_days * us_per_day).
Definition timedelta_max : Z := (max_delta_days + 1) * us_per_day - 1.

(** What the normalisation makes of a number of seconds that amounts to
    [u] microseconds: beyond the range of a [timedelta] the constructor
    raises [OverflowError], a negative span is refused, any other is the
    result. *)
Definition span_or_error (u : Z) : outcome Z :=
  if (u <? timedelta_min) || (timedelta_max <? u) then Raise OverflowError
  else if u <? 0 then Raise PastDuration
  else Ok u.

(** A whole number of microseconds is not rounded. *)
Lemma near_exact (u u0 : Z) (x : PyFloat.float) :
  near_microseconds u x -> exact_microseconds u0 x -> u = u0.
Proof.
  destruct x as [s | s | | s m e]; cbn [near_microseconds exact_microseconds];
    try contradiction; [congruence |].
  destruct (0 <=? e) eqn:He; [congruence |].
  apply Z.leb_gt in He.
  intros Hn Hx; rewrite <- Hx in Hn.
  assert (Hk : 0 < 2 ^ (- e)) by (apply Z.pow_pos_nonneg; lia).
  replace (u * 2 ^ (- e) - u0 * 2 ^ (- e)) with ((u - u0) * 2 ^ (- e)) in Hn
    by ring.
  rewrite Z.abs_mul, (Z.abs_eq (2 ^ (- e))) in Hn by lia.
  assert (H33 : 2 ^ 33 = 8589934592) by reflexivity.
  assert (H32 : 2 ^ 32 = 4294967296) by reflexivity.
  rewrite H33, H32 in Hn.
  assert (Z.abs (u - u0) < 1) by nia.
  lia.
Qed.

(** The range check on the days, as a range of microseconds. *)
Lemma microseconds_to_delta_range (u : Z) :
  microseconds_to_delta u
  = if (u <? timedelta_min) || (timedelta_max <? u) then Raise OverflowError
    else Ok u.
Proof.
  assert (Hd : 0 < us_per_day) by (vm_compute; reflexivity).
  unfold timedelta_min, timedelta_max.
  destruct (Z.ltb_spec u (- (max_delta_days * us_per_day))) as [Hlo | Hlo];
    cbn [orb].
  - unfold microseconds_to_delta.
    assert (u / us_per_day < - max_delta_days)
      by (apply Z.div_lt_upper_bound; lia).
    destruct (Z.leb_spec (- max_delta_days) (u / us_per_day)); [lia |].
    reflexivity.
  - destruct (Z.ltb_spec ((max_delta_days + 1) * us_per_day - 1) u) as [Hhi | Hhi].
    + unfold microseconds_to_delta.
      assert (max_delta_days + 1 <= u / us_per_day)
        by (apply Z.div_le_lower_bound; lia).
      destruct (Z.leb_spec (u / us_per_day) max_delta_days); [lia |].
      rewrite andb_false_r; reflexivity.
    + apply microseconds_to_delta_in_range; lia.
Qed.

Lemma to_duration_of_span (E : env) (v : pyval) (u : Z) (w : world) :
  is_int_or_float v = true ->
  timedelta_seconds v = microseconds_to_delta u ->
  to_duration E v w = (span_or_error u, w).
Proof.
  intros Hv Hd; rewrite to_duration_numeric_run, Hd by assumption.
  rewrite microseconds_to_delta_range; unfold span_or_error.
  destruct ((u <? timedelta_min) || (timedelta_max <? u)); reflexivity.
Qed.

(** C7, as stated, fails: not every number of seconds [s >= 0] yields a
    span of [s] seconds.  [10 ** 15] seconds and [float("inf")] seconds
    are beyond what a [timedelta] holds ([OverflowError]), and one tenth
    of a microsecond is rounded to a span of zero. *)
Lemma to_duration_numeric_out_of_range :
  fst (to_duration steady (VInt (10 ^ 15)) (initial ∅)) = Raise OverflowError
  /\ option_map (fun x => fst (to_duration steady (VFloat x) (initial ∅)))
       (float_of_string "inf")
     = Some (Raise OverflowError)
  /\ option_map (fun x => fst (to_duration steady (VFloat x) (initial ∅)))
       (float_of_string "1e-7")
     = Some (Ok 0).
Proof. repeat split; vm_compute; reflexivity. Qed.

(** C7, amended. A number of seconds [s] within the range of a
    [timedelta] yields the span of [s] seconds rounded to a whole
    microsecond (within [1/2 + 2 ** -31] of a microsecond), which is
    exactly [s] seconds for every [int] and for every [float] that is a
    whole number of microseconds.  That span is the result when it is
    [>= 0], zero included, and "stopping time is before now." is raised
    exactly when it is negative.  Beyond the range, so also for an
    infinite number of seconds, the constructor's [OverflowError] is
    passed on, and for not-a-number its [ValueError]. *)
Theorem to_duration_numeric (E : env) (w : world) :
  (forall n, to_duration E (VInt n) w = (span_or_error (n * 1000000), w))
  /\ (forall n, 0 <= n < 86400 * 10 ^ 9 ->
                to_duration E (VInt n) w = (Ok (n * 1000000), w))
  /\ (forall x u, exact_microseconds u x ->
                  to_duration E (VFloat x) w = (span_or_error u, w))
  /\ (forall x n, PyFloat.is_integer x = true -> PyFloat.trunc x = Some n ->
                  0 <= n < 86400 * 10 ^ 9 ->
                  to_duration E (VFloat x) w = (Ok (n * 1000000), w))
  /\ (forall s m e, exists u,
        near_microseconds u (S754_finite s m e)
        /\ to_duration E (VFloat (S754_finite s m e)) w
           = (span_or_error u, w))
  /\ (forall s, to_duration E (VFloat (S754_infinity s)) w
                = (Raise OverflowError, w))
  /\ to_duration E (VFloat S754_nan) w
     = (Raise (ValueError "cannot convert float NaN to integer"), w)
  /\ (forall v d, is_int_or_float v = true -> timedelta_seconds v = Ok d ->
                  0 <= d -> to_duration E v w = (Ok d, w))
  /\ (forall v, is_int_or_float v = true ->
                (fst (to_duration E v w) = Raise PastDuration
                 <-> exists d, timedelta_seconds v = Ok d /\ d < 0)).
Proof.
  assert (Hwhole : forall n, 0 <= n < 86400 * 10 ^ 9 ->
            microseconds_to_delta (n * us_per_second) = Ok (n * 1000000)).
  { intros n Hn; apply microseconds_to_delta_in_range.
    unfold max_delta_days, us_per_day, us_per_second; lia. }
  repeat apply conj.
  - intros n; apply to_duration_of_span; reflexivity.
  - intros n Hn; rewrite to_duration_numeric_run by reflexivity.
    simpl; rewrite (Hwhole n Hn).
    destruct (Z.ltb_spec (n * 1000000) 0); [lia | reflexivity].
  - intros x u Hx; apply to_duration_of_span; [reflexivity |].
    cbn [timedelta_seconds].
    destruct x as [s | s | | s m e]; try contradiction.
    + cbn [exact_microseconds] in Hx; subst u; destruct s; reflexivity.
    + destruct (delta_of_float_near (S754_finite s m e) I) as (u' & Hn & ->).
      rewrite (near_exact u' u _ Hn Hx); reflexivity.
  - intros x n Hi Ht Hn; rewrite to_duration_numeric_run by reflexivity.
    simpl; rewrite (delta_of_whole_seconds x n Hi Ht), (Hwhole n Hn).
    destruct (Z.ltb_spec (n * 1000000) 0); [lia | reflexivity].
  - intros s m e.
    destruct (delta_of_float_near (S754_finite s m e) I) as (u & Hn & Hd).
    exists u; split; [assumption |].
    apply to_duration_of_span; [reflexivity | exact Hd].
  - intros s; rewrite to_duration_numeric_run by reflexivity.
    destruct s; reflexivity.
  - rewrite to_duration_numeric_run by reflexivity; reflexivity.
  - intros v d Hv Hd Hpos; rewrite to_duration_numeric_run, Hd by assumption.
    destruct (Z.ltb_spec d 0); [lia | reflexivity].
  - intros v Hv; rewrite to_duration_numeric_run by assumption; simpl.
    destruct (timedelta_seconds v) as [d | e |] eqn:Hd.
    + destruct (Z.ltb_spec d 0); split.
      * intros _; exists d; split; [reflexivity | assumption].
      * reflexivity.
      * discriminate.
      * intros (d' & [= <-] & Hneg); lia.
    + split.
      * intros [= ->]; exfalso.
        exact (timedelta_seconds_raise v _ Hd eq_refl).
      * intros (d' & [=] & _).
    + split; [discriminate | intros (d' & [=] & _)].
Qed.

Lemma to_duration_numeric_witness :
  to_duration steady (VInt 120) (initial ∅) = (Ok 120000000, initial ∅)
  /\ to_duration steady (VFloat (PyFloat.of_decimal false 15 (-1)))
       (initial ∅)
     = (Ok 1500000, initial ∅)
  /\ to_duration steady (VFloat (PyFloat.of_decimal true 5 (-1)))
       (initial ∅)
     = (Raise PastDuration, initial ∅)
  /\ to_duration steady (VFloat (PyFloat.of_decimal false 120 0)) (initial ∅)
     = (Ok 120000000, initial ∅)
  /\ to_duration steady (VFloat (S754_zero false)) (initial ∅)
     = (Ok 0, initial ∅)
  /\ fst (to_duration steady (VInt (-5)) (initial ∅)) = Raise PastDuration.
Proof.
  pose proof (to_duration_numeric steady (initial ∅))
    as (_ & H1 & H2 & H3 & _ & _ & _ & H4 & H5).
  repeat apply conj.
  - apply (H1 120); lia.
  - apply (H2 (PyFloat.of_decimal false 15 (-1)) 1500000).
    vm_compute; reflexivity.
  - apply (H2 (PyFloat.of_decimal true 5 (-1)) (-500000)).
    vm_compute; reflexivity.
  - apply (H3 _ 120); [reflexivity | reflexivity | lia].
  - apply (H4 (VFloat (S754_zero false)) 0); [reflexivity | reflexivity | lia].
  - apply (proj2 (H5 (VInt (-5)) eq_refl)).
    exists (-5000000); split; [reflexivity | lia].
Defined.

(** *** Runs of [sleep_timer] *)

(** [advance w r q p evs]: the world [w] after [r] more readings of the
    clock, [q] more queries, [p] more pause commands and the events
    [evs]. *)
Definition advance (w : world) (r q p : nat) (evs : list event) : world :=
  {| files := files w;
     readings := r + readings w;
     queries := q + queries w;
     pauses := p + pauses w;
     trace := trace w ++ evs |}.

Lemma advance_advance (w : world) (r q p r' q' p' : nat) (evs evs' : list event) :
  advance (advance w r q p evs) r' q' p' evs'
  = advance w (r' + r) (q' + q) (p' + p) (evs ++ evs').
Proof.
  unfold advance; simpl; f_equal; try lia.
  symmetry; apply app_assoc.
Qed.

Lemma advance_nothing (w : world) : advance w 0 0 0 [] = w.
Proof. destruct w; unfold advance; simpl; rewrite app_nil_r; reflexivity. Qed.

(** What the [n]-th playback check returns. *)
Definition answer (E : env) (n : nat) : outcome pyval :=
  match player E n with
  | Failure => Raise ExternalApiFailure
  | Nothing => Ok (VBool false)
  | Track record => subscript (VDict record) "is_playing"
  end.

(** The [n]-th check finds the playback active, or finds it stopped. *)
Definition active (E : env) (n : nat) : bool :=
  match answer E n with Ok v => truthy v | _ => false end.

Definition idle (E : env) (n : nat) : bool :=
  match answer E n with Ok v => negb (truthy v) | _ => false end.

(** The events of the loop when it leaves at its [k]-th reading after the
    first: [k] rounds that read the clock, report and sleep, and a last
    one that reads and reports. *)
Fixpoint waiting (E : env) (start_time : Z) (interval : pyval) (r k : nat)
  : list event :=
  let t := clock E r in
  [EvNow t; EvUpdate (in_microseconds (datetime_sub t start_time))]
    ++ match k with
       | O => []
       | S k' => EvSleep interval :: waiting E start_time interval (S r) k'
       end.

(** The clock readings of the normalisation. *)
Definition duration_events (E : env) (v : pyval) (r : nat) : list event :=
  match v with
  | VDatetime _ | VAwareDatetime _ _ => [EvNow (clock E r)]
  | _ => []
  end.

Section Runs.
Variable E : env.

Lemma is_playing_answer (w : world) :
  is_playing E w = (answer E (queries w), advance w 0 1 0 [EvCurrentlyPlaying]).
Proof. rewrite is_playing_run; reflexivity. Qed.

Lemma now_run (w : world) :
  now E w = (Ok (clock E (readings w)),
             advance w 1 0 0 [EvNow (clock E (readings w))]).
Proof. reflexivity. Qed.

Lemma log_run (e : event) (w : world) :
  log e w = (Ok tt, advance w 0 0 0 [e]).
Proof. reflexivity. Qed.

Lemma sleep_run (secs : pyval) (w : world) :
  sleep_check secs = Ok tt ->
  sleep secs w = (Ok tt, advance w 0 0 0 [EvSleep secs]).
Proof. intros H; unfold sleep, bind, lift; rewrite H; reflexivity. Qed.

Lemma pause_playback_run (w : world) :
  pause_playback E w
  = (if pause_ok E (pauses w) then Ok tt else Raise ExternalApiFailure,
     advance w 0 0 1 [EvPausePlayback]).
Proof.
  unfold pause_playback; destruct (pause_ok E (pauses w)); reflexivity.
Qed.

(** The normalisation reads the clock for a [datetime] only; its result
    depends on the world through the count of readings alone. *)
Lemma to_duration_run (v : pyval) (w : world) :
  to_duration E v w
  = (fst (to_duration E v w),
     advance w (length (duration_events E v (readings w))) 0 0
       (duration_events E v (readings w))).
Proof.
  destruct v;
    try (rewrite to_duration_numeric_run by reflexivity;
         cbn [fst duration_events length]; rewrite advance_nothing;
         reflexivity);
    unfold to_duration, bind, lift, raise, ret;
    cbn [is_int_or_float duration_events length];
    try (rewrite advance_nothing; reflexivity).
  - rewrite now_run; cbn [fst snd].
    destruct (_ <? 0); reflexivity.
  - rewrite now_run; reflexivity.
  - destruct (us <? 0); cbn [fst]; rewrite advance_nothing; reflexivity.
Qed.

Lemma to_duration_frame (v : pyval) (w w1 : world) :
  readings w1 = readings w ->
  fst (to_duration E v w1) = fst (to_duration E v w).
Proof.
  intros Hr.
  destruct v;
    try (rewrite !to_duration_numeric_run by reflexivity; reflexivity);
    unfold to_duration, bind, lift, raise, ret;
    cbn [is_int_or_float]; try reflexivity.
  - rewrite !now_run, Hr; cbn [fst snd].
    destruct (_ <? 0); reflexivity.
  - destruct (us <? 0); reflexivity.
Qed.

(** The loop leaves at the first reading that shows more than
    [stop_time] elapsed. *)
Lemma wait_loop_run (start_time stop_time : Z) (interval : pyval) (k : nat) :
  sleep_check interval = Ok tt ->
  forall (fuel : nat) (w : world),
    (k < fuel)%nat ->
    (forall j, (j < k)%nat ->
               clock E (j + readings w) - start_time <= stop_time) ->
    stop_time < clock E (k + readings w) - start_time ->
    wait_loop E fuel start_time stop_time interval w
    = (Ok tt, advance w (S k) 0 0
                (waiting E start_time interval (readings w) k)).
Proof.
  intros Hs; induction k as [| k IH]; intros fuel w Hf Hbefore Hat.
  - destruct fuel as [| fuel]; [lia |].
    simpl in Hat; simpl; unfold bind; rewrite now_run, log_run.
    unfold datetime_sub.
    destruct (Z.ltb_spec stop_time (clock E (readings w) - start_time));
      [| lia].
    unfold ret; rewrite advance_advance; reflexivity.
  - destruct fuel as [| fuel]; [lia |].
    cbn [wait_loop]; unfold bind; rewrite now_run, log_run.
    unfold datetime_sub.
    pose proof (Hbefore 0%nat ltac:(lia)) as H0; simpl in H0.
    destruct (Z.ltb_spec stop_time (clock E (readings w) - start_time));
      [lia |].
    rewrite sleep_run by assumption.
    rewrite !advance_advance; simpl plus.
    rewrite IH.
    + rewrite advance_advance; f_equal; f_equal; simpl; lia.
    + lia.
    + intros j Hj; simpl.
      replace (j + S (readings w))%nat with (S j + readings w)%nat by lia.
      apply Hbefore; lia.
    + simpl.
      replace (k + S (readings w))%nat with (S k + readings w)%nat by lia.
      exact Hat.
Qed.

End Runs.

Section Timer.
Variable E : env.
Variables (username client_id client_secret redirect_uri : string).
Variables (scope music_stop_time interval : pyval).

(** The events up to and including the entry check. *)
Definition entry_events (joined : string) : list event :=
  [EvOAuth client_id client_secret redirect_uri joined username;
   EvSpotify; EvCurrentlyPlaying].

Lemma sleep_timer_run (fuel : nat) (w : world) (joined : string) :
  join_obj " " scope = Ok joined ->
  oauth_ok E = true ->
  sleep_timer E fuel username client_id client_secret scope redirect_uri
    music_stop_time interval w
  = match answer E (queries w) with
    | Ok playing =>
        if truthy playing
        then timer_body E fuel music_stop_time interval
               (advance w 0 1 0 (entry_events joined))
        else (Ok tt, advance w 0 1 0
                       (entry_events joined
                          ++ [EvPrint "does not play songs."]))
    | Raise e => (Raise e, advance w 0 1 0 (entry_events joined))
    | OutOfFuel => (OutOfFuel, advance w 0 1 0 (entry_events joined))
    end.
Proof.
  intros Hj Ho.
  unfold sleep_timer, bind at 1, lift; rewrite Hj.
  unfold bind at 1, SpotifyOAuth, bind at 1; rewrite log_run, Ho.
  unfold ret at 1, bind at 1, Spotify; rewrite log_run.
  unfold bind; rewrite is_playing_answer, !advance_advance.
  cbn [plus app].
  destruct (answer E _) as [playing | e |]; try reflexivity.
  destruct (truthy playing); cbn [negb]; [reflexivity |].
  unfold print; rewrite log_run, advance_advance; reflexivity.
Qed.

(** The body stops at the normalisation when that raises. *)
Lemma timer_body_refuses (fuel : nat) (w : world) (e : exn) :
  fst (to_duration E music_stop_time w) = Raise e ->
  timer_body E fuel music_stop_time interval w
  = (Raise e,
     advance w (length (duration_events E music_stop_time (readings w))) 0 0
       (duration_events E music_stop_time (readings w))).
Proof.
  intros H; unfold timer_body, bind at 1.
  rewrite to_duration_run, H; reflexivity.
Qed.

End Timer.

(** The events of the body from the normalisation to the end of the loop,
    when the clock has been read [r] times before, the stop time is the
    span [d] and the loop leaves at its [k]-th reading after the first. *)
Definition timer_events (E : env) (music_stop_time interval : pyval)
  (d : Z) (r k : nat) : list event :=
  let r0 := (length (duration_events E music_stop_time r) + r)%nat in
  let start_time := clock E r0 in
  (duration_events E music_stop_time r
     ++ [EvPrint "start sleep timer";
         EvNow start_time;
         EvNow (clock E (S r0));
         EvPrint ("start " +:+ strftime_HMS start_time +:+ " -> "
                    +:+ strftime_HMS (clock E (S r0) + d) +:+ " end.");
         EvAddTask "will stop playing at..." (total_microseconds d)]
     ++ waiting E start_time interval (S (S r0)) k)%list.

Section TimerBody.
Variable E : env.
Variables (music_stop_time interval : pyval).

Lemma timer_body_run (fuel k : nat) (w : world) (d : Z) :
  let r0 := (length (duration_events E music_stop_time (readings w))
             + readings w)%nat in
  fst (to_duration E music_stop_time w) = Ok d ->
  datetime_add (clock E (S r0)) d = Ok (clock E (S r0) + d) ->
  sleep_check interval = Ok tt ->
  (forall j, (j < k)%nat -> clock E (j + S (S r0)) - clock E r0 <= d) ->
  d < clock E (k + S (S r0)) - clock E r0 ->
  (k < fuel)%nat ->
  let evs := timer_events E music_stop_time interval d (readings w) k in
  let n := (S k + (2 + length (duration_events E music_stop_time (readings w))))%nat in
  timer_body E fuel music_stop_time interval w
  = match answer E (queries w) with
    | Ok playing =>
        if truthy playing
        then (if pause_ok E (pauses w) then Ok tt else Raise ExternalApiFailure,
              advance w n 1 1
                (evs ++ [EvCurrentlyPlaying; EvPausePlayback]
                     ++ if pause_ok E (pauses w)
                        then [EvPrint "stop playing"] else []))
        else (Ok tt, advance w n 1 0 (evs ++ [EvCurrentlyPlaying]))
    | Raise e => (Raise e, advance w n 1 0 (evs ++ [EvCurrentlyPlaying]))
    | OutOfFuel => (OutOfFuel, advance w n 1 0 (evs ++ [EvCurrentlyPlaying]))
    end.
Proof.
  intros r0 Hd Hb Hs Hbefore Hat Hf evs n.
  unfold timer_body, bind at 1; rewrite to_duration_run, Hd.
  set (w1 := advance w _ 0 0 _).
  assert (Hr1 : readings w1 = r0) by reflexivity.
  unfold bind at 1, print; rewrite log_run.
  unfold bind at 1; rewrite now_run.
  unfold bind at 1; rewrite now_run.
  rewrite !advance_advance; cbn [plus].
  replace (readings (advance w1 0 0 0 [EvPrint "start sleep timer"]))
    with r0 by reflexivity.
  replace (readings (advance w1 1 0 0 _)) with (S r0) by reflexivity.
  unfold bind at 1, lift; rewrite Hb.
  unfold bind at 1; rewrite log_run.
  unfold bind at 1; rewrite log_run.
  rewrite !advance_advance; cbn [plus].
  unfold bind at 1.
  rewrite (wait_loop_run E (clock E r0) d interval k Hs);
    [| assumption
     | intros j Hj; cbn [readings advance plus]; rewrite Hr1;
       apply Hbefore; assumption
     | cbn [readings advance plus]; rewrite Hr1; exact Hat].
  cbn [readings advance plus]; rewrite Hr1.
  rewrite !advance_advance.
  unfold bind at 1; rewrite is_playing_answer.
  rewrite !advance_advance.
  replace (queries (advance w1 _ _ _ _)) with (queries w) by reflexivity.
  unfold w1; rewrite !advance_advance.
  assert (Hevs : forall tail,
    (duration_events E music_stop_time (readings w)
       ++ ([EvPrint "start sleep timer"]
             ++ [EvNow (clock E r0)] ++ [EvNow (clock E (S r0))]
             ++ [EvPrint ("start " +:+ strftime_HMS (clock E r0) +:+ " -> "
                            +:+ strftime_HMS (clock E (S r0) + d)
                            +:+ " end.")]
             ++ [EvAddTask "will stop playing at..."
                   (int_of_float (in_microseconds d))])
       ++ waiting E (clock E r0) interval (S (S r0)) k ++ tail)%list
    = (evs ++ tail)%list).
  { intros tail; unfold evs, timer_events; fold r0.
    rewrite <- !app_assoc; reflexivity. }
  destruct (answer E (queries w)) as [playing | e |].
  - destruct (truthy playing).
    + unfold bind at 1; rewrite pause_playback_run.
      rewrite !advance_advance.
      replace (pauses (advance w _ _ _ _)) with (pauses w) by reflexivity.
      destruct (pause_ok E (pauses w)).
      * rewrite log_run, advance_advance.
        f_equal. unfold n. f_equal; try lia.
        rewrite <- !app_assoc. rewrite <- Hevs. rewrite <- !app_assoc.
        reflexivity.
      * f_equal. unfold n. f_equal; try lia.
        rewrite <- !app_assoc. rewrite <- Hevs. rewrite <- !app_assoc.
        reflexivity.
    + unfold ret. f_equal. unfold n. f_equal; try lia.
      rewrite <- !app_assoc. rewrite <- Hevs. rewrite <- !app_assoc.
      reflexivity.
  - f_equal. unfold n. f_equal; try lia.
    rewrite <- !app_assoc. rewrite <- Hevs. rewrite <- !app_assoc.
    reflexivity.
  - f_equal. unfold n. f_equal; try lia.
    rewrite <- !app_assoc. rewrite <- Hevs. rewrite <- !app_assoc.
    reflexivity.
Qed.

End TimerBody.

(** *** Counting pause commands *)

Lemma count_pauses_app (l1 l2 : list event) :
  count_pauses (l1 ++ l2) = (count_pauses l1 + count_pauses l2)%nat.
Proof. unfold count_pauses; rewrite List.filter_app, length_app; reflexivity. Qed.

Lemma count_pauses_duration_events (E : env) (v : pyval) (r : nat) :
  count_pauses (duration_events E v r) = 0%nat.
Proof. destruct v; reflexivity. Qed.

(** The loop's events end with its last reading and report, and hold no
    pause command. *)
Lemma waiting_last (E : env) (start_time : Z) (interval : pyval) (k : nat) :
  forall r, exists pre,
    waiting E start_time interval r k
    = (pre ++ [EvNow (clock E (k + r));
               EvUpdate (in_microseconds (clock E (k + r) - start_time))])%list
    /\ count_pauses pre = 0%nat.
Proof.
  induction k as [| k IH]; intros r.
  - exists []; split; reflexivity.
  - destruct (IH (S r)) as (pre & Hpre & Hc).
    exists ([EvNow (clock E r);
             EvUpdate (in_microseconds (datetime_sub (clock E r) start_time));
             EvSleep interval] ++ pre)%list; split.
    + cbn [waiting]; rewrite Hpre.
      replace (k + S r)%nat with (S k + r)%nat by lia; reflexivity.
    + rewrite count_pauses_app, Hc; reflexivity.
Qed.

Lemma timer_events_last (E : env) (music_stop_time interval : pyval) (d : Z)
  (r k : nat) :
  let r0 := (length (duration_events E music_stop_time r) + r)%nat in
  exists pre,
    timer_events E music_stop_time interval d r k
    = (pre ++ [EvNow (clock E (k + S (S r0)));
               EvUpdate (in_microseconds
                           (clock E (k + S (S r0)) - clock E r0))])%list
    /\ count_pauses pre = 0%nat.
Proof.
  intros r0; unfold timer_events; fold r0.
  destruct (waiting_last E (clock E r0) interval k (S (S r0)))
    as (pre & -> & Hc).
  eexists; split.
  - rewrite !app_assoc; reflexivity.
  - rewrite !count_pauses_app, count_pauses_duration_events, Hc; reflexivity.
Qed.

(** *** The timer *)

(** C5. If the playback check at the entry of [sleep_timer] returns a
    false value, the timer returns at once: it prints "does not play
    songs.", reads no clock and sleeps not once (the loop is not entered,
    whatever the number of rounds it is allowed), and sends no pause
    command. *)
Theorem sleep_timer_not_playing (E : env) (fuel : nat)
  (username client_id client_secret redirect_uri joined : string)
  (scope music_stop_time interval : pyval) (w : world) :
  join_obj " " scope = Ok joined ->
  oauth_ok E = true ->
  idle E (queries w) = true ->
  sleep_timer E fuel username client_id client_secret scope redirect_uri
    music_stop_time interval w
  = (Ok tt,
     advance w 0 1 0
       [EvOAuth client_id client_secret redirect_uri joined username;
        EvSpotify; EvCurrentlyPlaying; EvPrint "does not play songs."]).
Proof.
  intros Hj Ho Hi.
  rewrite (sleep_timer_run E _ _ _ _ _ _ _ fuel w joined Hj Ho).
  unfold idle in Hi.
  destruct (answer E (queries w)) as [playing | e |]; try discriminate.
  destruct (truthy playing); [discriminate | reflexivity].
Qed.

Lemma sleep_timer_not_playing_witness :
  sleep_timer (scripted [Track (a_record false)]) 0
    "listener" "0123456789abcdef" "fedcba9876543210"
    (VList [VStr "user-modify-playback-state"; VStr "user-read-currently-playing"])
    "http://localhost:8080" (VFloat (PyFloat.of_decimal false 120 0))
    (VFloat (PyFloat.of_Z 1)) configured
  = (Ok tt,
     advance configured 0 1 0
       [EvOAuth "0123456789abcdef" "fedcba9876543210" "http://localhost:8080"
          "user-modify-playback-state user-read-currently-playing" "listener";
        EvSpotify; EvCurrentlyPlaying; EvPrint "does not play songs."]).
Proof.
  apply (sleep_timer_not_playing (scripted [Track (a_record false)])); reflexivity.
Defined.

Section TimerClaims.
Variable E : env.
Variables (username client_id client_secret redirect_uri joined : string).
Variables (scope music_stop_time interval : pyval).
Variable w : world.
Variables (d : Z) (k fuel : nat).

(** The index of the reading that becomes [start_time], and the reading
    at which the loop leaves. *)
Let r0 : nat :=
  (length (duration_events E music_stop_time (readings w)) + readings w)%nat.
Let last : Z := clock E (k + S (S r0)).

(** The timer starts: the client can be built, the entry check finds
    the playback active, the stop time is the span [d], the end of the
    timer is a date that exists and the interval is one [sleep] takes. *)
Hypothesis scope_joined : join_obj " " scope = Ok joined.
Hypothesis authorised : oauth_ok E = true.
Hypothesis active_at_entry : active E (queries w) = true.
Hypothesis stop_time : fst (to_duration E music_stop_time w) = Ok d.
Hypothesis end_time :
  datetime_add (clock E (S r0)) d = Ok (clock E (S r0) + d).
Hypothesis interval_ok : sleep_check interval = Ok tt.

(** Time passes: the [k]-th reading of the loop after its first is the
    first to show more than [d] elapsed, and the loop is allowed more
    than [k] rounds. *)
Hypothesis not_yet :
  forall j, (j < k)%nat -> clock E (j + S (S r0)) - clock E r0 <= d.
Hypothesis elapsed : d < last - clock E r0.
Hypothesis enough : (k < fuel)%nat.

Lemma sleep_timer_full_run :
  sleep_timer E fuel username client_id client_secret scope redirect_uri
    music_stop_time interval w
  = timer_body E fuel music_stop_time interval
      (advance w 0 1 0
         (entry_events username client_id client_secret redirect_uri joined)).
Proof.
  rewrite (sleep_timer_run E _ _ _ _ _ _ _ fuel w joined scope_joined authorised).
  unfold active in active_at_entry.
  destruct (answer E (queries w)) as [playing | e |]; try discriminate.
  rewrite active_at_entry; reflexivity.
Qed.

Lemma timer_body_after_entry :
  let w1 := advance w 0 1 0
              (entry_events username client_id client_secret redirect_uri joined) in
  let evs := timer_events E music_stop_time interval d (readings w) k in
  let n := (S k + (2 + length (duration_events E music_stop_time (readings w))))%nat in
  timer_body E fuel music_stop_time interval w1
  = match answer E (S (queries w)) with
    | Ok playing =>
        if truthy playing
        then (if pause_ok E (pauses w) then Ok tt else Raise ExternalApiFailure,
              advance w1 n 1 1
                (evs ++ [EvCurrentlyPlaying; EvPausePlayback]
                     ++ if pause_ok E (pauses w)
                        then [EvPrint "stop playing"] else []))
        else (Ok tt, advance w1 n 1 0 (evs ++ [EvCurrentlyPlaying]))
    | Raise e => (Raise e, advance w1 n 1 0 (evs ++ [EvCurrentlyPlaying]))
    | OutOfFuel => (OutOfFuel, advance w1 n 1 0 (evs ++ [EvCurrentlyPlaying]))
    end.
Proof.
  intros w1 evs n.
  apply (timer_body_run E music_stop_time interval fuel k w1 d);
    try assumption.
  rewrite (to_duration_frame E music_stop_time w w1) by reflexivity.
  exact stop_time.
Qed.

(** C3. If the playback is active when the timer starts and is still
    active when the loop has ended, the timer sends exactly one pause
    command, and sends it right after the clock reading that ended the
    loop, a reading that shows at least the requested duration
    elapsed. *)
Theorem sleep_timer_pauses_once :
  active E (S (queries w)) = true ->
  exists (w' : world) (before : list event),
    sleep_timer E fuel username client_id client_secret scope redirect_uri
      music_stop_time interval w
    = (if pause_ok E (pauses w) then Ok tt else Raise ExternalApiFailure, w')
    /\ trace w'
       = (before
            ++ [EvNow last;
                EvUpdate (in_microseconds (last - clock E r0));
                EvCurrentlyPlaying; EvPausePlayback]
            ++ if pause_ok E (pauses w) then [EvPrint "stop playing"] else [])%list
    /\ count_pauses before = count_pauses (trace w)
    /\ count_pauses (trace w') = S (count_pauses (trace w))
    /\ pauses w' = S (pauses w)
    /\ d <= last - clock E r0.
Proof.
  intros Hexit.
  rewrite sleep_timer_full_run, timer_body_after_entry.
  unfold active in Hexit.
  destruct (answer E (S (queries w))) as [playing | e |]; try discriminate.
  rewrite Hexit.
  destruct (timer_events_last E music_stop_time interval d (readings w) k)
    as (pre & Hpre & Hc); fold r0 in Hpre; fold last in Hpre.
  eexists; exists (trace w
    ++ entry_events username client_id client_secret redirect_uri joined
    ++ pre)%list.
  split; [reflexivity |].
  assert (Ht : forall tail : list event,
    ((trace w
        ++ entry_events username client_id client_secret redirect_uri joined)
       ++ timer_events E music_stop_time interval d (readings w) k
       ++ [EvCurrentlyPlaying; EvPausePlayback] ++ tail)%list
    = ((trace w
          ++ entry_events username client_id client_secret redirect_uri joined
          ++ pre)
         ++ [EvNow last; EvUpdate (in_microseconds (last - clock E r0));
             EvCurrentlyPlaying; EvPausePlayback] ++ tail)%list).
  { intros tail; rewrite Hpre, <- !app_assoc; reflexivity. }
  split; [exact (Ht _) |].
  split; [| split; [| split]].
  - rewrite !count_pauses_app, Hc.
    change (count_pauses (entry_events _ _ _ _ _)) with 0%nat; lia.
  - cbn [trace advance]; rewrite !count_pauses_app, Hpre, !count_pauses_app, Hc.
    change (count_pauses (entry_events _ _ _ _ _)) with 0%nat.
    destruct (pause_ok E (pauses w)); cbn; lia.
  - reflexivity.
  - lia.
Qed.

(** C4. If the playback was active when the timer started and has
    stopped by the time the loop ends, the loop still runs its full
    course: it reads the clock [k + 1] times, leaves at the first
    reading that shows more than the duration elapsed, and never
    consults the player in between; the check after the loop then finds
    nothing to pause, and no pause command is sent. *)
Theorem sleep_timer_no_redundant_pause :
  idle E (S (queries w)) = true ->
  exists (w' : world) (before : list event),
    sleep_timer E fuel username client_id client_secret scope redirect_uri
      music_stop_time interval w
    = (Ok tt, w')
    /\ trace w'
       = (before
            ++ [EvNow last;
                EvUpdate (in_microseconds (last - clock E r0));
                EvCurrentlyPlaying])%list
    /\ count_pauses (trace w') = count_pauses (trace w)
    /\ pauses w' = pauses w
    /\ readings w' = (S k + S (S r0))%nat
    /\ queries w' = (2 + queries w)%nat
    /\ d < last - clock E r0
    /\ (forall j, (j < k)%nat -> clock E (j + S (S r0)) - clock E r0 <= d).
Proof.
  intros Hexit.
  rewrite sleep_timer_full_run, timer_body_after_entry.
  unfold idle in Hexit.
  destruct (answer E (S (queries w))) as [playing | e |]; try discriminate.
  destruct (truthy playing); [discriminate |].
  destruct (timer_events_last E music_stop_time interval d (readings w) k)
    as (pre & Hpre & Hc); fold r0 in Hpre; fold last in Hpre.
  eexists; exists (trace w
    ++ entry_events username client_id client_secret redirect_uri joined
    ++ pre)%list.
  split; [reflexivity |].
  split; [| split; [| split; [| split; [| split; [| split]]]]].
  - cbn [trace advance]; rewrite Hpre, <- !app_assoc; reflexivity.
  - cbn [trace advance]; rewrite !count_pauses_app, Hpre, !count_pauses_app, Hc.
    change (count_pauses (entry_events _ _ _ _ _)) with 0%nat.
    cbn; lia.
  - reflexivity.
  - cbn [readings advance]; unfold r0; lia.
  - reflexivity.
  - exact elapsed.
  - exact not_yet.
Qed.

End TimerClaims.

Lemma sleep_timer_pauses_once_witness :
  exists (w' : world) (before : list event),
    sleep_timer steady 5 "listener" "0123456789abcdef" "fedcba9876543210"
      (VList [VStr "user-modify-playback-state";
              VStr "user-read-currently-playing"])
      "http://localhost:8080" (VFloat (PyFloat.of_decimal false 2 0))
      (VFloat (PyFloat.of_Z 1)) configured
    = (Ok tt, w')
    /\ trace w'
       = (before
            ++ [EvNow 63740000003000000;
                EvUpdate (in_microseconds 3000000);
                EvCurrentlyPlaying; EvPausePlayback; EvPrint "stop playing"])%list
    /\ count_pauses (trace w') = 1%nat.
Proof.
  destruct (sleep_timer_pauses_once steady
              "listener" "0123456789abcdef" "fedcba9876543210"
              "http://localhost:8080"
              "user-modify-playback-state user-read-currently-playing"
              (VList [VStr "user-modify-playback-state";
                      VStr "user-read-currently-playing"])
              (VFloat (PyFloat.of_decimal false 2 0))
              (VFloat (PyFloat.of_Z 1)) configured 2000000 1 5)
    as (w' & before & H1 & H2 & _ & H4 & _);
    try reflexivity.
  - intros j Hj; assert (j = 0%nat) as -> by lia; vm_compute; discriminate.
  - lia.
  - exists w', before; split; [exact H1 | split; [exact H2 | exact H4]].
Defined.

Lemma sleep_timer_no_redundant_pause_witness :
  exists (w' : world) (before : list event),
    sleep_timer (scripted [Track (a_record true); Track (a_record false)]) 5
      "listener" "0123456789abcdef" "fedcba9876543210"
      (VList [VStr "user-modify-playback-state";
              VStr "user-read-currently-playing"])
      "http://localhost:8080" (VFloat (PyFloat.of_decimal false 2 0))
      (VFloat (PyFloat.of_Z 1)) configured
    = (Ok tt, w')
    /\ trace w'
       = (before
            ++ [EvNow 63740000003000000;
                EvUpdate (in_microseconds 3000000);
                EvCurrentlyPlaying])%list
    /\ count_pauses (trace w') = 0%nat
    /\ readings w' = 4%nat.
Proof.
  destruct (sleep_timer_no_redundant_pause
              (scripted [Track (a_record true); Track (a_record false)])
              "listener" "0123456789abcdef" "fedcba9876543210"
              "http://localhost:8080"
              "user-modify-playback-state user-read-currently-playing"
              (VList [VStr "user-modify-playback-state";
                      VStr "user-read-currently-playing"])
              (VFloat (PyFloat.of_decimal false 2 0))
              (VFloat (PyFloat.of_Z 1)) configured 2000000 1 5)
    as (w' & before & H1 & H2 & H3 & _ & H5 & _);
    try reflexivity.
  - intros j Hj; assert (j = 0%nat) as -> by lia; vm_compute; discriminate.
  - lia.
  - exists w', before.
    split; [exact H1 | split; [exact H2 | split; [exact H3 | exact H5]]].
Defined.

(** *** The whole program *)

Section Main.
Variable E : env.
Variables (fuel : nat) (argv : list string) (w : world).
Variables (arg text : string) (x : PyFloat.float) (config : pyval).
Variables (username client_id client_secret scope redirect_uri : pyval).

(** The argument is a number and the config file holds the five keys. *)
Hypothesis argument : argv !! 1%nat = Some arg.
Hypothesis number : float_of_string arg = Some x.
Hypothesis stored : files w !! config_path = Some text.
Hypothesis loaded : Json.load text = Ok config.
Hypothesis has_username : subscript config "username" = Ok username.
Hypothesis has_client_id : subscript config "client_id" = Ok client_id.
Hypothesis has_client_secret :
  subscript config "client_secret" = Ok client_secret.
Hypothesis has_scope : subscript config "scope" = Ok scope.
Hypothesis has_redirect_uri :
  subscript config "redirect_uri" = Ok redirect_uri.

Lemma main_run :
  main E fuel argv w
  = sleep_timer E fuel (str_or_empty username) (str_or_empty client_id)
      (str_or_empty client_secret)
      (if is_iterable scope then scope else VStr EmptyString)
      (str_or_empty redirect_uri) (VFloat x) (VFloat (PyFloat.of_Z 1)) w.
Proof.
  unfold main, bind at 1; rewrite argument, number.
  unfold ret at 1, bind at 1.
  rewrite (get_config_present w text stored), loaded.
  unfold bind at 1, lift at 1; rewrite has_username.
  unfold bind at 1, lift at 1; rewrite has_client_id.
  unfold bind at 1, lift at 1; rewrite has_client_secret.
  unfold bind at 1, lift at 1; rewrite has_scope.
  unfold bind at 1, lift at 1; rewrite has_redirect_uri.
  reflexivity.
Qed.


End Main.



(* ===================================================================== *)
(** ** Further properties *)
(* ===================================================================== *)

(** *** [total_microseconds] *)

Lemma digits2_pos_shift (m p : positive) :
  digits2_pos (Pos.iter xO m p) = (digits2_pos m + p)%positive.
Proof.
  induction p using Pos.peano_ind.
  - simpl; lia.
  - rewrite Pos.iter_succ; simpl; rewrite IHp; lia.
Qed.

Lemma Zpos_shift (m p : positive) :
  Z.pos (Pos.iter xO m p) = Z.pos m * 2 ^ Z.pos p.
Proof.
  induction p using Pos.peano_ind.
  - simpl; lia.
  - rewrite Pos.iter_succ, Pos2Z.inj_xO, IHp, Pos2Z.inj_succ, Z.pow_succ_r by lia.
    lia.
Qed.

Lemma digits2_pos_bound (m : positive) :
  Z.pos m < 2 ^ 53 -> Z.pos (digits2_pos m) <= 53.
Proof.
  intros H; rewrite digits2_pos_size.
  assert (Hs : Z.pos (2 ^ Pos.size m) <= Z.pos m~0) by exact (Pos.size_le m).
  rewrite Pos2Z.inj_pow in Hs.
  assert (Hm : Z.pos m~0 = 2 * Z.pos m) by reflexivity.
  destruct (Z.le_gt_cases (Z.pos (Pos.size m)) 53) as [| Hgt]; [assumption |].
  assert (2 ^ 54 <= 2 ^ Z.pos (Pos.size m)) by (apply Z.pow_le_mono_r; lia).
  lia.
Qed.

(** An integer of at most 53 bits is a binary64 number: rounding keeps it
    and truncation gives it back. *)
Lemma trunc_binary_round (s : bool) (m : positive) :
  Z.pos m < 2 ^ 53 ->
  PyFloat.trunc (binary_round PyFloat.prec PyFloat.emax s m 0)
  = Some (if s then - Z.pos m else Z.pos m).
Proof.
  intros Hm; pose proof (digits2_pos_bound m Hm) as Hd.
  unfold binary_round.
  assert (Hf : fexp PyFloat.prec PyFloat.emax (Z.pos (digits2_pos m) + 0)
               = Z.pos (digits2_pos m) - 53).
  { unfold fexp, emin, PyFloat.prec, PyFloat.emax; lia. }
  rewrite Hf; unfold shl_align.
  destruct (Z.pos (digits2_pos m) - 53 - 0) as [| p | p] eqn:Hp; try lia.
  - unfold binary_round_aux, shr_fexp.
    cbn [Zdigits2 shr_record_of_loc].
    assert (Hf2 : fexp PyFloat.prec PyFloat.emax (Z.pos (digits2_pos m) + 0) - 0 = 0)
      by lia.
    rewrite Hf2.
    cbn [shr shr_m loc_of_shr_record round_nearest_even Zdigits2 shr_record_of_loc].
    rewrite Hf2; cbn [shr shr_m].
    cbn; destruct s; reflexivity.
  - unfold binary_round_aux, shr_fexp.
    cbn [Zdigits2 shr_record_of_loc].
    set (ez := Z.pos (digits2_pos m) - 53).
    assert (Hf2 : fexp PyFloat.prec PyFloat.emax
                    (Z.pos (digits2_pos (Pos.iter xO m p)) + ez) - ez = 0).
    { rewrite digits2_pos_shift.
      unfold fexp, emin, PyFloat.prec, PyFloat.emax, ez; lia. }
    rewrite Hf2.
    cbn [shr shr_m loc_of_shr_record round_nearest_even Zdigits2 shr_record_of_loc].
    rewrite Hf2; cbn [shr shr_m].
    assert (He : (ez <=? PyFloat.emax - PyFloat.prec) = true).
    { apply Z.leb_le; unfold ez, PyFloat.emax, PyFloat.prec; lia. }
    rewrite He; unfold PyFloat.trunc.
    assert (Hz : (0 <=? ez) = false) by (apply Z.leb_gt; unfold ez; lia).
    rewrite Hz, Zpos_shift.
    assert (Hez : - ez = Z.pos p) by (unfold ez; lia).
    rewrite Hez, Z.shiftr_div_pow2 by lia.
    rewrite Z.div_mul by lia; reflexivity.
Qed.

(** X1. [total_microseconds] gives the exact count of microseconds of a
    span of fewer than [2 ** 53] microseconds (some 285 years) either way,
    although it goes through a float. *)
Theorem total_microseconds_exact (time : Z) :
  - 2 ^ 53 < time < 2 ^ 53 ->
  total_microseconds time = time.
Proof.
  intros H.
  unfold total_microseconds, int_of_float, in_microseconds, PyFloat.of_Z,
    binary_normalize.
  destruct time as [| m | m].
  - reflexivity.
  - rewrite (trunc_binary_round false m) by lia; reflexivity.
  - rewrite (trunc_binary_round true m) by lia; reflexivity.
Qed.

Lemma total_microseconds_exact_witness :
  total_microseconds 120000000 = 120000000.
Proof. apply total_microseconds_exact; lia. Defined.

(** *** What no run of the timer does *)

(** [within m q p]: from whatever world it starts, the computation [m]
    opens no file, only adds to the events, queries the player at
    most [q] times and sends at most [p] pause commands, each of them an
    event of its own. *)
Definition within {A : Type} (m : M A) (q p : nat) : Prop :=
  forall w, exists (n q' p' : nat) (evs : list event),
    snd (m w) = advance w n q' p' evs
    /\ (q' <= q)%nat /\ (p' <= p)%nat /\ count_pauses evs = p'.

Lemma within_weaken {A : Type} (m : M A) (q p q0 p0 : nat) :
  within m q0 p0 -> (q0 <= q)%nat -> (p0 <= p)%nat -> within m q p.
Proof.
  intros H Hq Hp w; destruct (H w) as (n & q' & p' & evs & Hw & Hq' & Hp' & Hc).
  exists n, q', p', evs; repeat split; try assumption; lia.
Qed.

Lemma within_pure {A : Type} (o : outcome A) : within (lift o) 0 0.
Proof.
  intros w; exists 0%nat, 0%nat, 0%nat, []; cbn [snd lift].
  rewrite advance_nothing; repeat split; reflexivity || lia.
Qed.

Lemma within_bind {A B : Type} (m : M A) (k : A -> M B) (q1 p1 q2 p2 : nat) :
  within m q1 p1 -> (forall a, within (k a) q2 p2) ->
  within (bind m k) (q2 + q1) (p2 + p1).
Proof.
  intros Hm Hk w; unfold bind.
  destruct (Hm w) as (n & q' & p' & evs & Hw & Hq' & Hp' & Hc).
  destruct (m w) as [[a | e |] w1]; cbn [snd] in *.
  - destruct (Hk a w1) as (n2 & q2' & p2' & evs2 & Hw2 & Hq2 & Hp2 & Hc2).
    exists (n2 + n)%nat, (q2' + q')%nat, (p2' + p')%nat, (evs ++ evs2)%list.
    rewrite Hw2, Hw, advance_advance, count_pauses_app.
    repeat split; try reflexivity; lia.
  - exists n, q', p', evs; repeat split; try assumption; lia.
  - exists n, q', p', evs; repeat split; try assumption; lia.
Qed.

Lemma within_log (e : event) :
  (match e with EvPausePlayback => False | _ => True end) -> within (log e) 0 0.
Proof.
  intros He w; exists 0%nat, 0%nat, 0%nat, [e]; rewrite log_run.
  repeat split; try reflexivity; try lia.
  destruct e; try reflexivity; contradiction.
Qed.

Section Within.
Variable E : env.

Lemma within_now : within (now E) 0 0.
Proof.
  intros w; exists 1%nat, 0%nat, 0%nat, [EvNow (clock E (readings w))].
  rewrite now_run; repeat split; reflexivity || lia.
Qed.

Lemma within_is_playing : within (is_playing E) 1 0.
Proof.
  intros w; exists 0%nat, 1%nat, 0%nat, [EvCurrentlyPlaying].
  rewrite is_playing_answer; repeat split; reflexivity || lia.
Qed.

Lemma within_pause_playback : within (pause_playback E) 0 1.
Proof.
  intros w; exists 0%nat, 0%nat, 1%nat, [EvPausePlayback].
  rewrite pause_playback_run; repeat split; reflexivity || lia.
Qed.

Lemma within_sleep (secs : pyval) : within (sleep secs) 0 0.
Proof.
  apply (within_bind _ _ 0 0 0 0); [apply within_pure |].
  intros _; apply within_log; exact I.
Qed.

Lemma within_to_duration (v : pyval) : within (to_duration E v) 0 0.
Proof.
  intros w; rewrite to_duration_run; cbn [snd].
  exists (length (duration_events E v (readings w))), 0%nat, 0%nat,
    (duration_events E v (readings w)).
  repeat split; try lia.
  apply count_pauses_duration_events.
Qed.

Lemma within_wait_loop (start_time stop_time : Z) (interval : pyval)
  (fuel : nat) :
  within (wait_loop E fuel start_time stop_time interval) 0 0.
Proof.
  induction fuel as [| fuel IH]; cbn [wait_loop].
  - intros w; exists 0%nat, 0%nat, 0%nat, []; cbn [snd out_of_fuel].
    rewrite advance_nothing; repeat split; reflexivity || lia.
  - apply (within_bind _ _ 0 0 0 0); [apply within_now |]; intros t.
    apply (within_bind _ _ 0 0 0 0); [apply within_log; exact I |]; intros _.
    destruct (stop_time <? _).
    + apply (within_pure (Ok tt)).
    + apply (within_bind _ _ 0 0 0 0); [apply within_sleep |]; intros _.
      exact IH.
Qed.

Lemma within_timer_body (fuel : nat) (music_stop_time interval : pyval) :
  within (timer_body E fuel music_stop_time interval) 1 1.
Proof.
  unfold timer_body, print.
  apply (within_bind _ _ 0 0 1 1); [apply within_to_duration |]; intros d.
  apply (within_bind _ _ 0 0 1 1); [apply within_log; exact I |]; intros _.
  apply (within_bind _ _ 0 0 1 1); [apply within_now |]; intros start_time.
  apply (within_bind _ _ 0 0 1 1); [apply within_now |]; intros t.
  apply (within_bind _ _ 0 0 1 1); [apply within_pure |]; intros end_time.
  apply (within_bind _ _ 0 0 1 1); [apply within_log; exact I |]; intros _.
  apply (within_bind _ _ 0 0 1 1); [apply within_log; exact I |]; intros _.
  apply (within_bind _ _ 0 0 1 1); [apply within_wait_loop |]; intros _.
  apply (within_bind _ _ 1 0 0 1); [apply within_is_playing |]; intros playing.
  destruct (truthy playing).
  - apply (within_bind _ _ 0 1 0 0); [apply within_pause_playback |]; intros _.
    apply within_log; exact I.
  - apply (within_weaken _ _ _ 0 0); [apply (within_pure (Ok tt)) | lia | lia].
Qed.

Lemma within_sleep_timer (fuel : nat)
  (username client_id client_secret : string) (scope : pyval)
  (redirect_uri : string) (music_stop_time interval : pyval) :
  within (sleep_timer E fuel username client_id client_secret scope
            redirect_uri music_stop_time interval) 2 1.
Proof.
  unfold sleep_timer, SpotifyOAuth, Spotify, print.
  apply (within_bind _ _ 0 0 2 1); [apply within_pure |]; intros joined.
  apply (within_bind _ _ 0 0 2 1).
  { apply (within_bind _ _ 0 0 0 0); [apply within_log; exact I |]; intros _.
    destruct (oauth_ok E);
      [apply (within_pure (Ok tt)) | apply (within_pure (Raise ExternalApiFailure))]. }
  intros _.
  apply (within_bind _ _ 0 0 2 1); [apply within_log; exact I |]; intros _.
  apply (within_bind _ _ 1 0 1 1); [apply within_is_playing |]; intros playing.
  destruct (negb (truthy playing)).
  - apply (within_weaken _ _ _ 0 0); [apply within_log; exact I | lia | lia].
  - apply within_timer_body.
Qed.

End Within.

(** X2. Whatever its arguments, the world it runs in, the number of rounds
    it is allowed and the way it ends, [sleep_timer] only adds to the
    events already there, calls [currently_playing] at most twice (it
    does not poll the player while it waits) and [pause_playback] at most
    once. *)
Theorem sleep_timer_footprint (E : env) (fuel : nat)
  (username client_id client_secret : string) (scope : pyval)
  (redirect_uri : string) (music_stop_time interval : pyval) (w : world) :
  let w' := snd (sleep_timer E fuel username client_id client_secret scope
                   redirect_uri music_stop_time interval w) in
  (exists evs, trace w' = (trace w ++ evs)%list)
  /\ (queries w <= queries w' <= 2 + queries w)%nat
  /\ (pauses w <= pauses w' <= 1 + pauses w)%nat
  /\ (count_pauses (trace w') <= 1 + count_pauses (trace w))%nat
  /\ (count_pauses (trace w') - count_pauses (trace w)
      = pauses w' - pauses w)%nat.
Proof.
  intros w'; subst w'.
  destruct (within_sleep_timer E fuel username client_id client_secret scope
              redirect_uri music_stop_time interval w)
    as (n & q' & p' & evs & -> & Hq & Hp & Hc).
  cbn [queries pauses trace advance]; rewrite count_pauses_app, Hc.
  split; [exists evs; reflexivity |].
  repeat split; lia.
Qed.

(** *** The loop *)

Section Loop.
Variable E : env.
Variables (start_time stop_time : Z) (interval : pyval).

(** X3. When the loop returns, it has read the clock some [k + 1] times,
    slept [k] times in between, and its last reading is the first that
    shows more than [stop_time] elapsed: the loop never leaves early. *)
Theorem wait_loop_leaves_late (fuel : nat) (w w' : world) :
  wait_loop E fuel start_time stop_time interval w = (Ok tt, w') ->
  exists k : nat,
    (k < fuel)%nat
    /\ w' = advance w (S k) 0 0 (waiting E start_time interval (readings w) k)
    /\ stop_time < clock E (k + readings w) - start_time
    /\ (forall j, (j < k)%nat ->
                  clock E (j + readings w) - start_time <= stop_time).
Proof.
  revert w w'; induction fuel as [| fuel IH]; intros w w'.
  - discriminate.
  - cbn [wait_loop]; unfold bind at 1; rewrite now_run.
    unfold bind at 1; rewrite log_run, advance_advance.
    unfold datetime_sub.
    destruct (Z.ltb_spec stop_time (clock E (readings w) - start_time))
      as [Hlt | Hge].
    + intros [= <-]; exists 0%nat.
      split; [lia |]; split; [reflexivity |]; split; [exact Hlt |].
      intros j Hj; lia.
    + unfold bind at 1, sleep, bind at 1, lift.
      destruct (sleep_check interval) as [[] | e |]; try discriminate.
      rewrite log_run, advance_advance; intros Hrun.
      destruct (IH _ _ Hrun) as (k & Hk & -> & Hat & Hbefore).
      cbn [readings advance plus] in *.
      exists (S k); split; [lia |]; split; [| split].
      * rewrite advance_advance; unfold advance; f_equal; lia.
      * replace (S k + readings w)%nat with (k + S (readings w))%nat by lia.
        exact Hat.
      * intros [| j] Hj; [exact Hge |].
        replace (S j + readings w)%nat with (j + S (readings w))%nat by lia.
        apply Hbefore; lia.
Qed.

(** X4. If every reading of the clock is at least [step > 0] later than
    the one before, the loop returns, and it does so within
    [stop_time / step + 2] rounds. *)
Theorem wait_loop_terminates (step : Z) (fuel : nat) (w : world) :
  0 < step ->
  (forall n, clock E n + step <= clock E (S n)) ->
  sleep_check interval = Ok tt ->
  0 <= stop_time ->
  start_time <= clock E (readings w) ->
  (Z.to_nat (stop_time / step) + 1 < fuel)%nat ->
  fst (wait_loop E fuel start_time stop_time interval w) = Ok tt.
Proof.
  intros Hstep Hclock Hsleep Hstop Hstart Hfuel.
  assert (Hgrow : forall j, clock E (readings w) + Z.of_nat j * step
                            <= clock E (j + readings w)).
  { induction j as [| j IHj]; [simpl; lia |].
    pose proof (Hclock (j + readings w)%nat); cbn [plus]; lia. }
  set (bound := (Z.to_nat (stop_time / step) + 1)%nat).
  assert (Hbound : stop_time < clock E (bound + readings w) - start_time).
  { pose proof (Hgrow bound) as Hb.
    assert (Z.of_nat bound = stop_time / step + 1).
    { unfold bound; rewrite Nat2Z.inj_add, Z2Nat.id; [lia |].
      apply Z.div_pos; lia. }
    assert (stop_time < (stop_time / step + 1) * step).
    { pose proof (Z.mod_pos_bound stop_time step Hstep).
      pose proof (Z.div_mod stop_time step ltac:(lia)); nia. }
    nia. }
  (* the first reading that shows more than [stop_time] elapsed *)
  assert (Hfirst : forall b,
            (exists k, (k <= b)%nat
               /\ stop_time < clock E (k + readings w) - start_time
               /\ forall j, (j < k)%nat ->
                            clock E (j + readings w) - start_time <= stop_time)
            \/ (forall j, (j <= b)%nat ->
                          clock E (j + readings w) - start_time <= stop_time)).
  { induction b as [| b [(k & Hk & Hat & Hbefore) | Hall]].
    - destruct (Z.lt_ge_cases stop_time (clock E (0 + readings w) - start_time))
        as [Hlt | Hge].
      + left; exists 0%nat; split; [lia |]; split; [exact Hlt |].
        intros j Hj; lia.
      + right; intros j Hj; assert (j = 0%nat) as -> by lia; exact Hge.
    - left; exists k; split; [lia |]; split; assumption.
    - destruct (Z.lt_ge_cases stop_time
                  (clock E (S b + readings w) - start_time)) as [Hlt | Hge].
      + left; exists (S b); split; [lia |]; split; [exact Hlt |].
        intros j Hj; apply Hall; lia.
      + right; intros j Hj.
        destruct (Nat.eq_dec j (S b)) as [-> |]; [exact Hge | apply Hall; lia]. }
  destruct (Hfirst bound) as [(k & Hk & Hat & Hbefore) | Hall];
    [| specialize (Hall bound (Nat.le_refl _)); lia].
  rewrite (wait_loop_run E start_time stop_time interval k Hsleep fuel w);
    [reflexivity | unfold bound in Hk; lia | exact Hbefore | exact Hat].
Qed.

End Loop.

Lemma wait_loop_leaves_late_witness :
  exists k : nat,
    (k < 5)%nat
    /\ 1500000 < clock steady (k + 0) - 63740000000000000
    /\ (forall j, (j < k)%nat ->
                  clock steady (j + 0) - 63740000000000000 <= 1500000).
Proof.
  destruct (wait_loop_leaves_late steady 63740000000000000 1500000
              (VFloat (PyFloat.of_Z 1)) 5 (initial ∅)
              (snd (wait_loop steady 5 63740000000000000 1500000
                      (VFloat (PyFloat.of_Z 1)) (initial ∅))))
    as (k & Hk & _ & Hat & Hbefore).
  - vm_compute; reflexivity.
  - exists k; split; [exact Hk | split; [exact Hat | exact Hbefore]].
Defined.

Lemma wait_loop_terminates_witness :
  fst (wait_loop steady 4 63740000000000000 1500000
         (VFloat (PyFloat.of_Z 1)) (initial ∅)) = Ok tt.
Proof.
  apply (wait_loop_terminates steady 63740000000000000 1500000
           (VFloat (PyFloat.of_Z 1)) 1000000 4 (initial ∅)).
  - lia.
  - intros n; cbn [clock steady]; lia.
  - reflexivity.
  - lia.
  - cbn; lia.
  - vm_compute; lia.
Defined.

(** *** The body of the timer, step by step *)

Section BodySteps.
Variable E : env.
Variables (music_stop_time interval : pyval).
Variables (fuel : nat) (w : world) (d : Z).

Let dur : list event := duration_events E music_stop_time (readings w).
Let r0 : nat := (length dur + readings w)%nat.

Hypothesis stop_time : fst (to_duration E music_stop_time w) = Ok d.

(** When the end of the timer is no date, the body stops at the banner. *)
Lemma timer_body_no_end_time (e : exn) :
  datetime_add (clock E (S r0)) d = Raise e ->
  timer_body E fuel music_stop_time interval w
  = (Raise e,
     advance w (2 + length dur) 0 0
       (dur ++ [EvPrint "start sleep timer";
                EvNow (clock E r0); EvNow (clock E (S r0))])).
Proof.
  intros Hb.
  unfold timer_body, bind at 1; rewrite to_duration_run, stop_time.
  fold dur; set (w1 := advance w _ 0 0 _).
  assert (Hr1 : readings w1 = r0) by reflexivity.
  unfold bind at 1, print; rewrite log_run.
  unfold bind at 1; rewrite now_run.
  unfold bind at 1; rewrite now_run.
  rewrite !advance_advance; cbn [plus].
  replace (readings (advance w1 0 0 0 [EvPrint "start sleep timer"]))
    with r0 by reflexivity.
  replace (readings (advance w1 1 0 0 _)) with (S r0) by reflexivity.
  unfold bind at 1, lift; rewrite Hb.
  unfold w1; rewrite advance_advance; reflexivity.
Qed.

(** Otherwise it reaches the loop. *)
Lemma timer_body_reaches_loop :
  datetime_add (clock E (S r0)) d = Ok (clock E (S r0) + d) ->
  timer_body E fuel music_stop_time interval w
  = bind (wait_loop E fuel (clock E r0) d interval)
      (fun _ =>
         bind (is_playing E)
           (fun playing =>
              if truthy playing
              then bind (pause_playback E) (fun _ => print "stop playing")
              else ret tt))
      (advance w (2 + length dur) 0 0
         (dur ++ [EvPrint "start sleep timer";
                  EvNow (clock E r0);
                  EvNow (clock E (S r0));
                  EvPrint ("start " +:+ strftime_HMS (clock E r0) +:+ " -> "
                             +:+ strftime_HMS (clock E (S r0) + d) +:+ " end.");
                  EvAddTask "will stop playing at..." (total_microseconds d)])).
Proof.
  intros Hb.
  unfold timer_body, bind at 1; rewrite to_duration_run, stop_time.
  fold dur; set (w1 := advance w _ 0 0 _).
  assert (Hr1 : readings w1 = r0) by reflexivity.
  unfold bind at 1, print; rewrite log_run.
  unfold bind at 1; rewrite now_run.
  unfold bind at 1; rewrite now_run.
  rewrite !advance_advance; cbn [plus].
  replace (readings (advance w1 0 0 0 [EvPrint "start sleep timer"]))
    with r0 by reflexivity.
  replace (readings (advance w1 1 0 0 _)) with (S r0) by reflexivity.
  unfold bind at 1, lift; rewrite Hb.
  unfold bind at 1; rewrite log_run.
  unfold bind at 1; rewrite log_run.
  rewrite !advance_advance; cbn [plus].
  unfold w1; rewrite advance_advance; reflexivity.
Qed.

End BodySteps.

(** *** Runs that end before or without the pause *)

Section TimerEdges.
Variable E : env.
Variables (username client_id client_secret redirect_uri joined : string).
Variables (scope music_stop_time interval : pyval).
Variables (fuel : nat) (w : world) (d : Z).

Let dur : list event := duration_events E music_stop_time (readings w).
Let r0 : nat := (length dur + readings w)%nat.
Let entry : list event :=
  entry_events username client_id client_secret redirect_uri joined.

Hypothesis scope_joined : join_obj " " scope = Ok joined.
Hypothesis authorised : oauth_ok E = true.
Hypothesis active_at_entry : active E (queries w) = true.
Hypothesis stop_time : fst (to_duration E music_stop_time w) = Ok d.

Lemma stop_time_after_entry :
  fst (to_duration E music_stop_time (advance w 0 1 0 entry)) = Ok d.
Proof.
  rewrite (to_duration_frame E music_stop_time w) by reflexivity.
  exact stop_time.
Qed.

(** X5. A stop time so long that the end of the timer lies beyond the
    last date of the calendar ([datetime.max]) makes [sleep_timer] raise
    [OverflowError] while it prints its banner: after "start sleep
    timer", before the loop, and without a pause command. *)
Theorem sleep_timer_end_beyond_calendar :
  max_datetime < clock E (S r0) + d ->
  sleep_timer E fuel username client_id client_secret scope redirect_uri
    music_stop_time interval w
  = (Raise OverflowError,
     advance w (2 + length dur) 1 0
       (entry ++ dur ++ [EvPrint "start sleep timer";
                         EvNow (clock E r0); EvNow (clock E (S r0))])).
Proof.
  intros Hmax.
  rewrite (sleep_timer_full_run E _ _ _ _ joined) by assumption.
  fold entry.
  rewrite (timer_body_no_end_time E music_stop_time interval fuel _ d
             stop_time_after_entry OverflowError).
  - rewrite advance_advance; cbn [readings advance plus]; fold dur; fold r0.
    f_equal; f_equal; lia.
  - cbn [readings advance plus]; fold dur; fold r0; unfold datetime_add.
    destruct (Z.leb_spec (clock E (S r0) + d) max_datetime); [lia |].
    rewrite andb_false_r; reflexivity.
Qed.

(** X6. With an interval that [sleep] refuses (a negative one, say), and
    a stop time that has not yet elapsed at the first reading of the
    loop, [sleep_timer] fails with the error of [sleep] at its first wait;
    the playback has been queried once and no pause command is sent. *)
Theorem sleep_timer_refused_interval (e : exn) :
  datetime_add (clock E (S r0)) d = Ok (clock E (S r0) + d) ->
  sleep_check interval = Raise e ->
  clock E (S (S r0)) - clock E r0 <= d ->
  (0 < fuel)%nat ->
  exists w',
    sleep_timer E fuel username client_id client_secret scope redirect_uri
      music_stop_time interval w
    = (Raise e, w')
    /\ readings w' = S (S (S r0))
    /\ queries w' = S (queries w)
    /\ pauses w' = pauses w
    /\ count_pauses (trace w') = count_pauses (trace w).
Proof.
  intros Hend Hsleep Hfirst Hfuel.
  rewrite (sleep_timer_full_run E _ _ _ _ joined) by assumption.
  fold entry.
  rewrite (timer_body_reaches_loop E music_stop_time interval fuel _ d
             stop_time_after_entry);
    [| cbn [readings advance plus]; exact Hend].
  cbn [readings advance plus]; fold dur r0.
  destruct fuel as [| fuel']; [lia |].
  unfold bind at 1; cbn [wait_loop].
  unfold bind at 1; rewrite now_run.
  unfold bind at 1; rewrite log_run.
  rewrite !advance_advance.
  cbn [readings advance plus]; fold dur r0.
  replace (length dur + 0 + readings w)%nat with r0 by (unfold r0; lia).
  unfold datetime_sub.
  destruct (Z.ltb_spec d (clock E (S (S r0)) - clock E r0)); [lia |].
  unfold bind at 1, sleep, bind at 1, lift; rewrite Hsleep.
  eexists; split; [reflexivity |].
  cbn [readings queries pauses trace advance plus].
  split; [unfold r0; lia |].
  split; [reflexivity |].
  split; [reflexivity |].
  rewrite !count_pauses_app; unfold dur.
  rewrite count_pauses_duration_events.
  change (count_pauses entry) with 0%nat; cbn; lia.
Qed.

End TimerEdges.

(** *** More on the normalisation *)

(** X7. Whatever the shape of the stop time, a span that the
    normalisation returns is not negative. *)
Theorem to_duration_nonnegative (E : env) (v : pyval) (w : world) (d : Z) :
  fst (to_duration E v w) = Ok d -> 0 <= d.
Proof.
  unfold to_duration, bind.
  match goal with
  | |- context [match ?m w with _ => _ end] =>
      destruct (m w) as [[s | e |] w1]
  end; cbn [fst]; try discriminate.
  unfold raise, ret.
  destruct (Z.ltb_spec s 0); cbn [fst]; [discriminate |].
  intros [= <-]; assumption.
Qed.

Lemma to_duration_nonnegative_witness :
  0 <= 1500000.
Proof.
  apply (to_duration_nonnegative steady
           (VFloat (PyFloat.of_decimal false 15 (-1))) (initial ∅) 1500000).
  vm_compute; reflexivity.
Defined.

(** X8. A naive [datetime] is turned into the span from one reading of
    the clock to it: a target that is not before that reading is accepted
    (the reading itself gives a span of zero), an earlier one is refused
    with "stopping time is before now.".  A [datetime] with a time zone
    cannot be compared with the naive reading: the clock is read and the
    subtraction raises [TypeError].  A [timedelta] is passed on as it is
    when it is not negative, refused when it is, and the clock is not
    read. *)
Theorem to_duration_timestamp_and_span (E : env) (w : world) :
  let n := clock E (readings w) in
  (forall t, n <= t ->
             to_duration E (VDatetime t) w
             = (Ok (t - n), advance w 1 0 0 [EvNow n]))
  /\ (forall t, t < n ->
                to_duration E (VDatetime t) w
                = (Raise PastDuration, advance w 1 0 0 [EvNow n]))
  /\ (forall t utcoffset,
        to_duration E (VAwareDatetime t utcoffset) w
        = (Raise TypeError, advance w 1 0 0 [EvNow n]))
  /\ (forall d, 0 <= d -> to_duration E (VTimedelta d) w = (Ok d, w))
  /\ (forall d, d < 0 ->
                to_duration E (VTimedelta d) w = (Raise PastDuration, w)).
Proof.
  intros n; unfold to_duration, bind, raise, ret, datetime_sub.
  cbn [is_int_or_float]; rewrite now_run; fold n.
  repeat apply conj.
  - intros x Hx; destruct (Z.ltb_spec (x - n) 0); [lia | reflexivity].
  - intros x Hx; destruct (Z.ltb_spec (x - n) 0); [reflexivity | lia].
  - reflexivity.
  - intros x Hx; destruct (Z.ltb_spec x 0); [lia | reflexivity].
  - intros x Hx; destruct (Z.ltb_spec x 0); [reflexivity | lia].
Qed.

Lemma to_duration_timestamp_and_span_witness :
  to_duration steady (VDatetime 63740000000000000) (initial ∅)
  = (Ok 0, advance (initial ∅) 1 0 0 [EvNow 63740000000000000])
  /\ to_duration steady (VDatetime 63739999999999999) (initial ∅)
     = (Raise PastDuration, advance (initial ∅) 1 0 0 [EvNow 63740000000000000])
  /\ to_duration steady (VAwareDatetime 63740000000000000 0) (initial ∅)
     = (Raise TypeError, advance (initial ∅) 1 0 0 [EvNow 63740000000000000])
  /\ to_duration steady (VTimedelta 0) (initial ∅) = (Ok 0, initial ∅)
  /\ to_duration steady (VTimedelta (-1)) (initial ∅)
     = (Raise PastDuration, initial ∅).
Proof.
  pose proof (to_duration_timestamp_and_span steady (initial ∅))
    as (H1 & H2 & H3 & H4 & H5).
  repeat apply conj.
  - apply (H1 63740000000000000); cbn; lia.
  - apply (H2 63739999999999999); cbn; lia.
  - apply (H3 63740000000000000 0).
  - apply (H4 0); lia.
  - apply (H5 (-1)); lia.
Defined.

(** *** No early pause *)

Section NoEarlyPause.
Variable E : env.
Variables (username client_id client_secret redirect_uri : string).
Variables (scope music_stop_time interval : pyval).
Variables (fuel : nat) (w : world).

Let dur : list event := duration_events E music_stop_time (readings w).
Let r0 : nat := (length dur + readings w)%nat.

(** X9. In any run of [sleep_timer] that sends a pause command, the stop
    time was a span [d >= 0], both playback checks found the playback
    active, and the loop had come to an end at the first reading of the
    clock that showed more than [d] elapsed since [start_time]: the
    timer never pauses early. *)
Theorem sleep_timer_pause_only_late :
  pauses (snd (sleep_timer E fuel username client_id client_secret scope
                 redirect_uri music_stop_time interval w)) <> pauses w ->
  exists (d : Z) (k : nat),
    fst (to_duration E music_stop_time w) = Ok d
    /\ 0 <= d
    /\ active E (queries w) = true
    /\ active E (S (queries w)) = true
    /\ d < clock E (k + S (S r0)) - clock E r0
    /\ (forall j, (j < k)%nat -> clock E (j + S (S r0)) - clock E r0 <= d).
Proof.
  destruct (join_obj " " scope) as [joined | e |] eqn:Hj;
    try (unfold sleep_timer, bind at 1, lift; rewrite Hj; cbn [snd];
         intros H; contradiction H; reflexivity).
  destruct (oauth_ok E) eqn:Ho;
    [| unfold sleep_timer, bind at 1, lift; rewrite Hj;
       unfold bind at 1, SpotifyOAuth, bind at 1; rewrite log_run, Ho;
       cbn [snd raise]; intros H; contradiction H; reflexivity].
  rewrite (sleep_timer_run E _ _ _ _ _ _ _ fuel w joined Hj Ho).
  unfold active at 1.
  destruct (answer E (queries w)) as [playing | e |];
    try (cbn [snd]; intros H; contradiction H; reflexivity).
  destruct (truthy playing);
    [| cbn [snd]; intros H; contradiction H; reflexivity].
  set (w1 := advance w 0 1 0 _).
  assert (Hframe : fst (to_duration E music_stop_time w1)
                   = fst (to_duration E music_stop_time w))
    by (apply to_duration_frame; reflexivity).
  destruct (fst (to_duration E music_stop_time w)) as [d | e |] eqn:Hd.
  2: { rewrite (timer_body_refuses E music_stop_time interval fuel w1 e Hframe).
       cbn [snd]; intros H; contradiction H; reflexivity. }
  2: { unfold timer_body, bind at 1; rewrite to_duration_run, Hframe.
       cbn [snd]; intros H; contradiction H; reflexivity. }
  pose proof (to_duration_nonnegative E music_stop_time w d Hd) as Hpos.
  assert (Hr : (length (duration_events E music_stop_time (readings w1))
                + readings w1)%nat = r0) by reflexivity.
  destruct (datetime_add (clock E (S r0)) d) as [end_time | e |] eqn:Hend.
  2: { rewrite (timer_body_no_end_time E music_stop_time interval fuel w1 d
                  Hframe e) by (rewrite Hr; exact Hend).
       cbn [snd]; intros H; contradiction H; reflexivity. }
  2: { unfold datetime_add in Hend; destruct (_ && _); discriminate. }
  assert (end_time = clock E (S r0) + d) as ->.
  { unfold datetime_add in Hend; destruct (_ && _); congruence. }
  rewrite (timer_body_reaches_loop E music_stop_time interval fuel w1 d Hframe)
    by (rewrite Hr; exact Hend).
  rewrite Hr; set (w2 := advance w1 _ 0 0 _).
  assert (Hr2 : readings w2 = S (S r0)) by (unfold r0; reflexivity).
  unfold bind at 1.
  destruct (within_wait_loop E (clock E r0) d interval fuel w2)
    as (n & q' & p' & evs & Hw3 & Hq & Hp & Hc).
  destruct (wait_loop E fuel (clock E r0) d interval w2)
    as [[[] | e |] w3] eqn:Hloop; cbn [snd] in Hw3;
    try (cbn [snd]; rewrite Hw3; unfold w2, w1; cbn [pauses advance];
         intros H; contradiction H; lia).
  destruct (wait_loop_leaves_late E (clock E r0) d interval fuel w2 w3 Hloop)
    as (k & Hk & _ & Hat & Hbefore).
  rewrite Hr2 in Hat, Hbefore.
  unfold bind at 1; rewrite is_playing_answer.
  assert (Hq3 : queries w3 = S (queries w))
    by (rewrite Hw3; unfold w2, w1; cbn [queries advance]; lia).
  rewrite Hq3; unfold active.
  destruct (answer E (S (queries w))) as [playing' | e |];
    try (cbn [snd]; rewrite Hw3; unfold w2, w1; cbn [pauses advance];
         intros H; contradiction H; lia).
  destruct (truthy playing');
    [| cbn [snd ret]; rewrite Hw3; unfold w2, w1; cbn [pauses advance];
       intros H; contradiction H; lia].
  intros _; exists d, k; repeat split; assumption.
Qed.

End NoEarlyPause.

Lemma sleep_timer_pause_only_late_witness :
  exists (d : Z) (k : nat),
    fst (to_duration steady (VFloat (PyFloat.of_decimal false 2 0)) configured)
    = Ok d
    /\ 0 <= d
    /\ d < clock steady (k + 2) - clock steady 0.
Proof.
  destruct (sleep_timer_pause_only_late steady
              "listener" "0123456789abcdef" "fedcba9876543210"
              "http://localhost:8080"
              (VList [VStr "user-modify-playback-state";
                      VStr "user-read-currently-playing"])
              (VFloat (PyFloat.of_decimal false 2 0))
              (VFloat (PyFloat.of_Z 1)) 5 configured)
    as (d & k & Hd & Hpos & _ & _ & Hat & _).
  - vm_compute; discriminate.
  - exists d, k; split; [exact Hd | split; [exact Hpos | exact Hat]].
Defined.

(** *** The scope *)

Lemma all_str_not_strings (items : list pyval) :
  (exists item, In item items /\ is_str item = false) -> all_str items = None.
Proof.
  induction items as [| v items IH]; intros (item & Hin & Hs).
  - contradiction.
  - destruct Hin as [-> | Hin].
    + destruct item; try reflexivity; discriminate.
    + cbn [all_str]; rewrite IH by (exists item; split; assumption).
      destruct v; reflexivity.
Qed.

(** X10. A scope that is a list with an item that is no string, or that
    is no iterable at all, makes [sleep_timer] fail with [TypeError] at
    once: nothing is built, queried, printed or paused. *)
Theorem sleep_timer_scope_not_strings (E : env) (fuel : nat)
  (username client_id client_secret redirect_uri : string)
  (scope music_stop_time interval : pyval) (w : world) :
  (exists items, scope = VList items
                 /\ exists item, In item items /\ is_str item = false)
  \/ is_iterable scope = false ->
  sleep_timer E fuel username client_id client_secret scope redirect_uri
    music_stop_time interval w
  = (Raise TypeError, w).
Proof.
  intros H; unfold sleep_timer, bind at 1, lift.
  assert (Hj : join_obj " " scope = Raise TypeError).
  { destruct H as [(items & -> & Hitem) | Hit].
    - cbn [join_obj]; rewrite (all_str_not_strings items Hitem); reflexivity.
    - destruct scope; try reflexivity; discriminate. }
  rewrite Hj; reflexivity.
Qed.

Lemma sleep_timer_scope_not_strings_witness :
  sleep_timer steady 5 "listener" "0123456789abcdef" "fedcba9876543210"
    (VList [VStr "user-modify-playback-state"; VInt 7])
    "http://localhost:8080" (VInt 120) (VInt 1) configured
  = (Raise TypeError, configured).
Proof.
  apply sleep_timer_scope_not_strings.
  left; exists [VStr "user-modify-playback-state"; VInt 7].
  split; [reflexivity |].
  exists (VInt 7); split; [right; left; reflexivity | reflexivity].
Defined.

(** *** More on the configuration file *)

Lemma get_config_absent (w : world) :
  files w !! config_path = None ->
  get_config w
  = (Raise (FileNotFoundError
              "creates './config.json' file. please, sets values."),
     {| files := <[config_path := Json.dump default_config 4]> (files w);
        readings := readings w; queries := queries w; pauses := pauses w;
        trace := trace w ++ [EvWrite config_path] |}).
Proof.
  intros H; unfold get_config, bind, isfile, write_text, raise.
  rewrite bool_decide_eq_false_2 by (rewrite H; intros [x Hx]; discriminate).
  reflexivity.
Qed.



(** *** More on the whole program *)

(** The keys [main] reads from the config, in the order it reads them. *)
Definition config_keys : list string :=
  ["username"; "client_id"; "client_secret"; "scope"; "redirect_uri"].

Definition lacks (d : list (string * pyval)) (key : string) : bool :=
  match dict_get d key with Some _ => false | None => true end.

Section MainEdges.
Variable E : env.
Variables (fuel : nat) (argv : list string) (w : world).
Variables (arg : string) (x : PyFloat.float).

Hypothesis argument : argv !! 1%nat = Some arg.
Hypothesis number : float_of_string arg = Some x.

(** X12. Run with a number and without a config file, the program writes
    the default config and stops with [FileNotFoundError]; it has built
    no client and sent nothing.  Run again on the files it left, it goes
    on to the timer with the empty credentials of the default config. *)
Theorem main_first_and_second_run :
  files w !! config_path = None ->
  exists w1,
    main E fuel argv w
    = (Raise (FileNotFoundError
                "creates './config.json' file. please, sets values."), w1)
    /\ files w1 = <[config_path := Json.dump default_config 4]> (files w)
    /\ trace w1 = (trace w ++ [EvWrite config_path])%list
    /\ queries w1 = queries w /\ pauses w1 = pauses w
    /\ main E fuel argv w1
       = sleep_timer E fuel EmptyString EmptyString EmptyString
           (VList [VStr "user-modify-playback-state";
                   VStr "user-read-currently-playing"])
           "http://localhost:8080" (VFloat x) (VFloat (PyFloat.of_Z 1)) w1.
Proof.
  intros Hf; eexists; split; [| split; [| split; [| split; [| split]]]].
  - unfold main, bind at 1; rewrite argument, number.
    unfold ret at 1, bind at 1; rewrite (get_config_absent w Hf); reflexivity.
  - reflexivity.
  - reflexivity.
  - reflexivity.
  - reflexivity.
  - apply (main_run E fuel argv _ arg (Json.dump default_config 4) x
             (Json.to_pyval default_config)
             (VStr EmptyString) (VStr EmptyString) (VStr EmptyString)
             (VList [VStr "user-modify-playback-state";
                     VStr "user-read-currently-playing"])
             (VStr "http://localhost:8080"));
      first [ assumption
            | apply lookup_insert_eq
            | apply default_config_round_trip
            | reflexivity ].
Qed.

Variables (text : string) (config : pyval).
Hypothesis stored : files w !! config_path = Some text.
Hypothesis loaded : Json.load text = Ok config.

(** X13. With a config that is an object lacking one of the five keys,
    the program stops with [KeyError] for the first key it misses, in the
    order username, client_id, client_secret, scope, redirect_uri; with a
    config that is no object it stops with [TypeError].  Either way it
    has built no client, sent nothing and changed no file. *)
Theorem main_incomplete_config :
  (forall d key, config = VDict d ->
                 List.find (lacks d) config_keys = Some key ->
                 main E fuel argv w = (Raise (KeyError key), w))
  /\ ((forall d, config <> VDict d) ->
      main E fuel argv w = (Raise TypeError, w)).
Proof.
  assert (Hstart : main E fuel argv w
    = bind (lift (subscript config "username"))
        (fun username =>
           bind (lift (subscript config "client_id"))
             (fun client_id =>
                bind (lift (subscript config "client_secret"))
                  (fun client_secret =>
                     bind (lift (subscript config "scope"))
                       (fun scope =>
                          bind (lift (subscript config "redirect_uri"))
                            (fun redirect_uri =>
                               sleep_timer E fuel (str_or_empty username)
                                 (str_or_empty client_id)
                                 (str_or_empty client_secret)
                                 (if is_iterable scope then scope
                                  else VStr EmptyString)
                                 (str_or_empty redirect_uri) (VFloat x)
                                 (VFloat (PyFloat.of_Z 1))))))) w).
  { unfold main, bind at 1; rewrite argument, number.
    unfold ret at 1, bind at 1.
    rewrite (get_config_present w text stored), loaded; reflexivity. }
  rewrite Hstart; split.
  - intros d key -> Hfind.
    unfold config_keys, lacks in Hfind; cbn [List.find] in Hfind.
    unfold bind, lift, subscript.
    destruct (dict_get d "username"); [| injection Hfind as <-; reflexivity].
    destruct (dict_get d "client_id"); [| injection Hfind as <-; reflexivity].
    destruct (dict_get d "client_secret");
      [| injection Hfind as <-; reflexivity].
    destruct (dict_get d "scope"); [| injection Hfind as <-; reflexivity].
    destruct (dict_get d "redirect_uri");
      [discriminate | injection Hfind as <-; reflexivity].
  - intros Hno; unfold bind at 1, lift, subscript.
    destruct config; try reflexivity.
    contradiction (Hno d); reflexivity.
Qed.

End MainEdges.

Lemma main_first_and_second_run_witness :
  exists w1,
    main steady 5 ["SpotifySleepTimer.py"; "120"] (initial ∅)
    = (Raise (FileNotFoundError
                "creates './config.json' file. please, sets values."), w1)
    /\ trace w1 = [EvWrite config_path].
Proof.
  destruct (main_first_and_second_run steady 5
              ["SpotifySleepTimer.py"; "120"] (initial ∅) "120"
              (PyFloat.of_decimal false 120 0) eq_refl eq_refl
              (lookup_empty _))
    as (w1 & H1 & _ & H3 & _).
  exists w1; split; [exact H1 | exact H3].
Defined.

Definition a_partial_config : Json.config :=
  [ ("username", Json.CStr "listener");
    ("client_id", Json.CStr "0123456789abcdef");
    ("redirect_uri", Json.CStr "http://localhost:8080") ].

Lemma main_incomplete_config_witness :
  main steady 5 ["SpotifySleepTimer.py"; "120"]
    (initial {[ config_path := Json.dump a_partial_config 4 ]})
  = (Raise (KeyError "client_secret"),
     initial {[ config_path := Json.dump a_partial_config 4 ]}).
Proof.
  apply (proj1 (main_incomplete_config steady 5
                  ["SpotifySleepTimer.py"; "120"]
                  (initial {[ config_path := Json.dump a_partial_config 4 ]})
                  "120" (PyFloat.of_decimal false 120 0) eq_refl eq_refl
                  (Json.dump a_partial_config 4)
                  (Json.to_pyval a_partial_config)
                  (lookup_singleton_eq _ _) eq_refl)
           [("username", VStr "listener");
            ("client_id", VStr "0123456789abcdef");
            ("redirect_uri", VStr "http://localhost:8080")]
           "client_secret");
    reflexivity.
Defined.

Section MainClient.
Variable E : env.
Variables (fuel : nat) (argv : list string) (w : world).
Variables (arg text : string) (x : PyFloat.float) (config : pyval).
Variables (username client_id client_secret scope redirect_uri : pyval).
Variable joined : string.

Hypothesis argument : argv !! 1%nat = Some arg.
Hypothesis number : float_of_string arg = Some x.
Hypothesis stored : files w !! config_path = Some text.
Hypothesis loaded : Json.load text = Ok config.
Hypothesis has_username : subscript config "username" = Ok username.
Hypothesis has_client_id : subscript config "client_id" = Ok client_id.
Hypothesis has_client_secret :
  subscript config "client_secret" = Ok client_secret.
Hypothesis has_scope : subscript config "scope" = Ok scope.
Hypothesis has_redirect_uri :
  subscript config "redirect_uri" = Ok redirect_uri.
Hypothesis scope_joined :
  join_obj " " (if is_iterable scope then scope else VStr EmptyString)
  = Ok joined.

(** X14. With a complete config the first thing the program does to the
    world is to build the authorisation manager, and it builds it from
    the stored values as they are only if they are strings: any other
    value (a number, a list, [null]) is replaced by the empty string.  A
    scope that is no iterable is replaced by the empty string too, and a
    scope stored as one string is taken apart into its characters, which
    are joined with spaces. *)
Theorem main_builds_client :
  (exists evs,
     trace (snd (main E fuel argv w))
     = (trace w
          ++ EvOAuth (str_or_empty client_id) (str_or_empty client_secret)
               (str_or_empty redirect_uri) joined (str_or_empty username)
          :: evs)%list)
  /\ (forall v, is_str v = false -> str_or_empty v = EmptyString)
  /\ (is_iterable scope = false -> joined = EmptyString)
  /\ (forall s, scope = VStr s -> joined = join " " (chars s)).
Proof.
  split; [| split; [| split]].
  - rewrite (main_run E fuel argv w arg text x config username client_id
               client_secret scope redirect_uri) by assumption.
    destruct (oauth_ok E) eqn:Ho.
    + rewrite (sleep_timer_run E _ _ _ _ _ _ _ fuel w joined scope_joined Ho).
      destruct (answer E (queries w)) as [playing | e |];
        try (eexists; cbn [snd trace advance entry_events app]; reflexivity).
      destruct (truthy playing);
        [| eexists; cbn [snd trace advance entry_events app]; reflexivity].
      destruct (within_timer_body E fuel (VFloat x) (VFloat (PyFloat.of_Z 1))
                  (advance w 0 1 0
                     (entry_events (str_or_empty username)
                        (str_or_empty client_id) (str_or_empty client_secret)
                        (str_or_empty redirect_uri) joined)))
        as (n & q' & p' & evs & -> & _).
      eexists; cbn [trace advance entry_events]; rewrite <- app_assoc.
      cbn [app]; reflexivity.
    + unfold sleep_timer, bind at 1, lift; rewrite scope_joined.
      unfold bind at 1, SpotifyOAuth, bind at 1; rewrite log_run, Ho.
      exists []; reflexivity.
  - intros v Hv; destruct v; try reflexivity; discriminate.
  - intros Hit; rewrite Hit in scope_joined; cbn in scope_joined; congruence.
  - intros s ->; cbn in scope_joined; congruence.
Qed.

End MainClient.

Definition a_loose_config : pyval :=
  VDict [ ("username", VInt 42);
          ("client_id", VStr "0123456789abcdef");
          ("client_secret", VNone);
          ("scope", VStr "abc");
          ("redirect_uri", VStr "http://localhost:8080") ].

(** The text of a config file with these values. *)
Definition a_loose_text : string :=
  "{" +:+ Json.encode_str "username" +:+ ": 42, "
      +:+ Json.encode_str "client_id" +:+ ": "
      +:+ Json.encode_str "0123456789abcdef" +:+ ", "
      +:+ Json.encode_str "client_secret" +:+ ": null, "
      +:+ Json.encode_str "scope" +:+ ": " +:+ Json.encode_str "abc" +:+ ", "
      +:+ Json.encode_str "redirect_uri" +:+ ": "
      +:+ Json.encode_str "http://localhost:8080" +:+ "}".

Lemma a_loose_text_loads : Json.load a_loose_text = Ok a_loose_config.
Proof. vm_compute; reflexivity. Qed.

Lemma main_builds_client_witness :
  exists evs,
    trace (snd (main steady 5 ["SpotifySleepTimer.py"; "120"]
                  (initial {[ config_path := a_loose_text ]})))
    = EvOAuth "0123456789abcdef" EmptyString "http://localhost:8080"
        "a b c" EmptyString :: evs.
Proof.
  destruct (main_builds_client steady 5 ["SpotifySleepTimer.py"; "120"]
              (initial {[ config_path := a_loose_text ]}) "120" a_loose_text
              (PyFloat.of_decimal false 120 0) a_loose_config
              (VInt 42) (VStr "0123456789abcdef") VNone (VStr "abc")
              (VStr "http://localhost:8080") "a b c"
              eq_refl eq_refl (lookup_singleton_eq _ _) a_loose_text_loads
              eq_refl eq_refl eq_refl eq_refl eq_refl eq_refl)
    as ((evs & H) & _).
  exists evs; exact H.
Defined.

Lemma sleep_timer_end_beyond_calendar_witness :
  fst (sleep_timer steady 5 "listener" "0123456789abcdef" "fedcba9876543210"
         (VList [VStr "user-modify-playback-state";
                 VStr "user-read-currently-playing"])
         "http://localhost:8080" (VInt (10 ^ 13)) (VInt 1) configured)
  = Raise OverflowError.
Proof.
  rewrite (sleep_timer_end_beyond_calendar steady
             "listener" "0123456789abcdef" "fedcba9876543210"
             "http://localhost:8080"
             "user-modify-playback-state user-read-currently-playing"
             (VList [VStr "user-modify-playback-state";
                     VStr "user-read-currently-playing"])
             (VInt (10 ^ 13)) (VInt 1) 5 configured (10 ^ 19)
             eq_refl eq_refl eq_refl eq_refl eq_refl).
  reflexivity.
Defined.

Lemma sleep_timer_refused_interval_witness :
  exists w',
    sleep_timer steady 5 "listener" "0123456789abcdef" "fedcba9876543210"
      (VList [VStr "user-modify-playback-state";
              VStr "user-read-currently-playing"])
      "http://localhost:8080" (VInt 120) (VInt (-1)) configured
    = (Raise (ValueError "sleep length must be non-negative"), w')
    /\ pauses w' = 0%nat.
Proof.
  destruct (sleep_timer_refused_interval steady
              "listener" "0123456789abcdef" "fedcba9876543210"
              "http://localhost:8080"
              "user-modify-playback-state user-read-currently-playing"
              (VList [VStr "user-modify-playback-state";
                      VStr "user-read-currently-playing"])
              (VInt 120) (VInt (-1)) 5 configured 120000000
              eq_refl eq_refl eq_refl eq_refl
              (ValueError "sleep length must be non-negative")
              eq_refl eq_refl)
    as (w' & H1 & _ & _ & H4 & _).
  - cbn; lia.
  - lia.
  - exists w'; split; [exact H1 | exact H4].
Defined.

(** *** The timer comes to an end *)

Lemma microseconds_to_delta_settled (us : Z) :
  microseconds_to_delta us <> OutOfFuel.
Proof. unfold microseconds_to_delta; destruct (_ && _); discriminate. Qed.

Lemma long_of_double_settled (x : PyFloat.float) : long_of_double x <> OutOfFuel.
Proof.
  unfold long_of_double; destruct (PyFloat.trunc x); [discriminate |].
  destruct (PyFloat.is_nan x); discriminate.
Qed.

Lemma timedelta_seconds_settled (v : pyval) : timedelta_seconds v <> OutOfFuel.
Proof.
  destruct v; cbn [timedelta_seconds];
    try discriminate; try apply microseconds_to_delta_settled.
  unfold delta_of_float_seconds.
  destruct (PyFloat.modf x) as [fracpart intpart].
  pose proof (long_of_double_settled intpart) as H1.
  destruct (long_of_double intpart) as [n | e |]; cbn [obind];
    [| discriminate | contradiction].
  destruct (PyFloat.is_zero fracpart); [apply microseconds_to_delta_settled |].
  destruct (PyFloat.modf _) as [fracpart' intpart'].
  pose proof (long_of_double_settled intpart') as H2.
  destruct (long_of_double intpart') as [n' | e |]; cbn [obind];
    [apply microseconds_to_delta_settled | discriminate | contradiction].
Qed.

Lemma to_duration_settled (E : env) (v : pyval) (w : world) :
  fst (to_duration E v w) <> OutOfFuel.
Proof.
  destruct (is_int_or_float v) eqn:Hv.
  - rewrite to_duration_numeric_run by assumption; cbn [fst].
    pose proof (timedelta_seconds_settled v) as H.
    destruct (timedelta_seconds v) as [d | e |];
      [destruct (d <? 0) | |]; try discriminate; contradiction.
  - unfold to_duration, bind, raise, ret; rewrite Hv.
    destruct v; try discriminate; cbn [fst].
    + rewrite now_run; destruct (_ <? 0); discriminate.
    + destruct (us <? 0); discriminate.
Qed.

Lemma sleep_check_settled (secs : pyval) : sleep_check secs <> OutOfFuel.
Proof.
  unfold sleep_check; destruct secs; try discriminate.
  - destruct (_ && _); [destruct (n <? 0) |]; discriminate.
  - destruct (PyFloat.is_nan x); [discriminate |].
    destruct (PyFloat.trunc _); [| discriminate].
    destruct (_ && _); [destruct (_ && _) |]; discriminate.
Qed.

Lemma answer_settled (E : env) (n : nat) : answer E n <> OutOfFuel.
Proof.
  unfold answer; destruct (player E n); try discriminate.
  cbn [subscript]; destruct (dict_get _ _); discriminate.
Qed.

Lemma join_obj_settled (sep : string) (v : pyval) : join_obj sep v <> OutOfFuel.
Proof.
  destruct v; try discriminate.
  cbn [join_obj]; destruct (all_str l); discriminate.
Qed.

Section Termination.
Variable E : env.
Variable step : Z.

(** The clock advances: every reading is at least [step > 0] later than
    the one before. *)
Hypothesis step_positive : 0 < step.
Hypothesis clock_advances : forall n, clock E n + step <= clock E (S n).

Lemma clock_monotone (n m : nat) : (n <= m)%nat -> clock E n <= clock E m.
Proof.
  induction 1 as [| m _ IH]; [lia |].
  pose proof (clock_advances m); lia.
Qed.

Lemma wait_loop_ends (start_time stop_time : Z) (interval : pyval)
  (fuel : nat) (w : world) :
  0 <= stop_time ->
  start_time <= clock E (readings w) ->
  (Z.to_nat (stop_time / step) + 1 < fuel)%nat ->
  fst (wait_loop E fuel start_time stop_time interval w) <> OutOfFuel.
Proof.
  intros Hstop Hstart Hfuel.
  pose proof (sleep_check_settled interval) as Hs.
  destruct (sleep_check interval) as [[] | e |] eqn:Hsleep; [| | contradiction].
  - rewrite (wait_loop_terminates E start_time stop_time interval step fuel w)
      by assumption.
    discriminate.
  - destruct fuel as [| fuel']; [lia |].
    cbn [wait_loop]; unfold bind at 1; rewrite now_run.
    unfold bind at 1; rewrite log_run.
    destruct (stop_time <? _); [discriminate |].
    unfold bind at 1, sleep, bind at 1, lift; rewrite Hsleep; discriminate.
Qed.

Variables (username client_id client_secret redirect_uri : string).
Variables (scope music_stop_time interval : pyval).
Variables (fuel : nat) (w : world).

(** The loop is allowed enough rounds for the stop time, if there is
    one. *)
Hypothesis enough :
  forall d, fst (to_duration E music_stop_time w) = Ok d ->
            (Z.to_nat (d / step) + 1 < fuel)%nat.

Lemma timer_body_ends (w1 : world) :
  readings w1 = readings w ->
  fst (timer_body E fuel music_stop_time interval w1) <> OutOfFuel.
Proof.
  intros Hr1.
  assert (Hframe : fst (to_duration E music_stop_time w1)
                   = fst (to_duration E music_stop_time w))
    by (apply to_duration_frame; exact Hr1).
  pose proof (to_duration_settled E music_stop_time w) as Hset.
  destruct (fst (to_duration E music_stop_time w)) as [d | e |] eqn:Hd;
    [| | contradiction].
  2: { rewrite (timer_body_refuses E music_stop_time interval fuel w1 e Hframe).
       discriminate. }
  pose proof (to_duration_nonnegative E music_stop_time w d Hd) as Hpos.
  set (r1 := (length (duration_events E music_stop_time (readings w1))
              + readings w1)%nat).
  destruct (datetime_add (clock E (S r1)) d) as [end_time | e |] eqn:Hend.
  2: { rewrite (timer_body_no_end_time E music_stop_time interval fuel w1 d
                  Hframe e Hend).
       discriminate. }
  2: { unfold datetime_add in Hend; destruct (_ && _); discriminate. }
  assert (end_time = clock E (S r1) + d) as ->.
  { unfold datetime_add in Hend; destruct (_ && _); congruence. }
  rewrite (timer_body_reaches_loop E music_stop_time interval fuel w1 d
             Hframe Hend).
  fold r1; set (w2 := advance w1 _ 0 0 _).
  assert (Hloop : fst (wait_loop E fuel (clock E r1) d interval w2)
                  <> OutOfFuel).
  { apply wait_loop_ends; [exact Hpos | | apply enough; reflexivity].
    apply clock_monotone; unfold w2, r1; cbn [readings advance]; lia. }
  unfold bind at 1.
  destruct (wait_loop E fuel (clock E r1) d interval w2) as [[[] | e |] w3];
    cbn [fst] in Hloop; [| discriminate | contradiction].
  unfold bind at 1; rewrite is_playing_answer.
  pose proof (answer_settled E (queries w3)) as Ha.
  destruct (answer E (queries w3)) as [playing | e |];
    [| discriminate | contradiction].
  destruct (truthy playing); [| discriminate].
  unfold bind at 1; rewrite pause_playback_run.
  destruct (pause_ok E _); discriminate.
Qed.

(** X15. With a clock that advances, and a loop that is allowed more
    than [d / step + 1] rounds for a stop time [d], every run of
    [sleep_timer] comes to an end, with a result or with an error,
    whatever its other arguments and whatever the service answers. *)
Theorem sleep_timer_terminates :
  fst (sleep_timer E fuel username client_id client_secret scope redirect_uri
         music_stop_time interval w) <> OutOfFuel.
Proof.
  pose proof (join_obj_settled " " scope) as Hjs.
  destruct (join_obj " " scope) as [joined | e |] eqn:Hj; [| | contradiction].
  2: { unfold sleep_timer, bind at 1, lift; rewrite Hj; discriminate. }
  destruct (oauth_ok E) eqn:Ho.
  2: { unfold sleep_timer, bind at 1, lift; rewrite Hj.
       unfold bind at 1, SpotifyOAuth, bind at 1; rewrite log_run, Ho.
       discriminate. }
  rewrite (sleep_timer_run E _ _ _ _ _ _ _ fuel w joined Hj Ho).
  pose proof (answer_settled E (queries w)) as Ha.
  destruct (answer E (queries w)) as [playing | e |];
    [| discriminate | contradiction].
  destruct (truthy playing); [| discriminate].
  apply timer_body_ends; reflexivity.
Qed.

End Termination.

Lemma sleep_timer_terminates_witness :
  fst (sleep_timer steady 5 "listener" "0123456789abcdef" "fedcba9876543210"
         (VList [VStr "user-modify-playback-state";
                 VStr "user-read-currently-playing"])
         "http://localhost:8080" (VInt 2) (VInt 1) configured)
  <> OutOfFuel.
Proof.
  apply (sleep_timer_terminates steady 1000000).
  - lia.
  - intros n; cbn [clock steady]; lia.
  - intros d [= <-]; vm_compute; lia.
Defined.

(** X16. Whatever its arguments, the world it runs in and the way it
    ends, the program calls [currently_playing] at most twice and
    [pause_playback] at most once. *)
Theorem main_footprint (E : env) (fuel : nat) (argv : list string) (w : world) :
  let w' := snd (main E fuel argv w) in
  (queries w <= queries w' <= 2 + queries w)%nat
  /\ (pauses w <= pauses w' <= 1 + pauses w)%nat.
Proof.
  intros w'; subst w'.
  remember (main E fuel argv w) as r eqn:Hr.
  assert (Hsame : forall o : outcome unit, r = (o, w) ->
    (queries w <= queries (snd r) <= 2 + queries w)%nat
    /\ (pauses w <= pauses (snd r) <= 1 + pauses w)%nat).
  { intros o ->; cbn [snd]; lia. }
  revert Hr; unfold main, bind at 1.
  destruct (argv !! 1%nat) as [arg |]; [| apply Hsame].
  destruct (float_of_string arg) as [x |]; [| apply Hsame].
  unfold ret at 1, bind at 1.
  destruct (files w !! config_path) as [text |] eqn:Hf.
  - rewrite (get_config_present w text Hf).
    destruct (Json.load text) as [config | e |]; try apply Hsame.
    unfold bind at 1, lift at 1.
    destruct (subscript config "username"); try apply Hsame.
    unfold bind at 1, lift at 1.
    destruct (subscript config "client_id"); try apply Hsame.
    unfold bind at 1, lift at 1.
    destruct (subscript config "client_secret"); try apply Hsame.
    unfold bind at 1, lift at 1.
    destruct (subscript config "scope"); try apply Hsame.
    unfold bind at 1, lift at 1.
    destruct (subscript config "redirect_uri"); try apply Hsame.
    intros ->.
    match goal with
    | |- context [sleep_timer E fuel ?u ?ci ?cs ?sc ?ru ?m ?iv w] =>
        destruct (within_sleep_timer E fuel u ci cs sc ru m iv w)
          as (n & q' & p' & evs & -> & Hq & Hp & _)
    end.
    cbn [queries pauses advance]; lia.
  - rewrite (get_config_absent w Hf); intros ->.
    cbn [snd queries pauses]; lia.
Qed.
